(** * Data-Visualization-Analyzer: the statistics reporter and the chart dispatcher

    A shallow embedding of [data_analyzer.py] (class [DataAnalyzer]) and of
    [visualization_engine.py] (class [VisualizationEngine]), with the
    properties their specification states about them.  The callbacks of
    [gui_components.py] (class [DataVisualizationApp]) that load a table
    and call the two classes are embedded after them; the construction of
    the widgets and [main.py] are not.

    Conventions of the embedding.

    - A Python [float] (a pandas [float64] cell) is a rational, or one of
      the three special values of IEEE arithmetic (the two infinities and
      NaN).  An operation of NumPy or of Python on floats gives the
      binary64 number nearest to the exact result, ties to the even
      significand, an infinity beyond the range and a subnormal number
      below it ([round64]); NaN and the infinities propagate as in IEEE
      arithmetic and a division by zero gives NaN or an infinity.  The
      two zeros of binary64 are one number here: a cell [-0.0] is read as
      [0.0].  The literal [1.5] is 3/2; the literal [0.7] is compared as
      7/10, no binary64 number lying between the two.
    - [DataFrame.corr] is the one operation kept in exact arithmetic: it
      is the textbook formula of Pearson over the rationals, with the
      square root as a parameter.  What is stated of it does not depend
      on how pandas rounds (symmetry, NaN for a column that does not
      vary); what [analyze_correlations] does with the matrix is stated
      for any matrix.
    - [Series.quantile] is the linear interpolation of NumPy 1.20 and
      later.  The position [(n - 1) * q] is exact, as it is in binary64
      for the two quantiles of the program on fewer than [2 ^ 51] cells.
    - A [DataFrame] is an index and a list of named, typed columns.  The
      names are strings, as are the labels of a table read with its line
      of headers, and the types are the four below; the selections by
      type are stated through [is_number] and [is_categorical], not
      through a list of the types.
    - Strings are byte strings holding UTF-8, as the source files do.
    - The plotting libraries are collaborators: a call on them is recorded
      on the axes, in order, with the arguments the code passes.  What a
      collaborator does with the call, a failure inside it included, is
      outside the model; the failures modelled are those of the code
      itself: a column lookup [data[c]], a [raise]. *)

From Stdlib Require Import ZArith QArith Qround Qabs Qpower List String Ascii Bool.
From Stdlib Require Import Lia Lqa DecimalString Permutation.
Import ListNotations.

Local Open Scope string_scope.
Local Open Scope Q_scope.

(** ** Python strings *)

Definition nl : string := String "010"%char EmptyString.

(** [str(n)] for an integer. *)
Definition str_Z (z : Z) : string := NilZero.string_of_int (Z.to_int z).

Definition str_nat (n : nat) : string := str_Z (Z.of_nat n).

(** [repr(s)] for a string: between single quotes, or between double
    quotes when the string has a single quote and no double quote; the
    quote, the backslash and the control characters are escaped.  The
    bytes of a non-ASCII character are kept, as [repr] keeps a printable
    character: a non-ASCII character that is not printable is outside
    the model. *)
Definition hex_digit (n : nat) : ascii :=
  match get n "0123456789abcdef" with
  | Some c => c
  | None => "0"%char
  end.

Fixpoint contains (c : ascii) (s : string) : bool :=
  match s with
  | EmptyString => false
  | String c' s' => Ascii.eqb c c' || contains c s'
  end.

Definition repr_char (quote c : ascii) : string :=
  let n := nat_of_ascii c in
  if Ascii.eqb c quote || Ascii.eqb c "092"%char then String "092"%char (String c "")
  else if Ascii.eqb c "009"%char then String "092"%char "t"
  else if Ascii.eqb c "010"%char then String "092"%char "n"
  else if Ascii.eqb c "013"%char then String "092"%char "r"
  else if (n <? 32)%nat || (n =? 127)%nat
       then String "092"%char
              (String "x"%char
                 (String (hex_digit (n / 16)) (String (hex_digit (n mod 16)) "")))
  else String c "".

Fixpoint repr_body (quote : ascii) (s : string) : string :=
  match s with
  | EmptyString => ""
  | String c s' => repr_char quote c ++ repr_body quote s'
  end.

Definition repr_str (s : string) : string :=
  let quote := if contains "039"%char s && negb (contains "034"%char s)
               then "034"%char else "039"%char in
  String quote (repr_body quote s ++ String quote "").

(** The bytes that [repr] leaves as they are wherever they stand: all
    but the control characters, the single quote and the backslash. *)
Definition kept_byte (c : ascii) : bool :=
  let n := nat_of_ascii c in
  (32 <=? n)%nat && negb (n =? 127)%nat && negb (n =? 39)%nat && negb (n =? 92)%nat.


(** The three bytes of a Chinese character from U+4E00 to U+9FA5 in
    UTF-8. *)
Definition chinese_character (b1 b2 b3 : ascii) : bool :=
  let n1 := N_of_ascii b1 in
  let n2 := N_of_ascii b2 in
  let n3 := N_of_ascii b3 in
  let code := ((n1 - 224) * 4096 + (n2 - 128) * 64 + (n3 - 128))%N in
  (224 <=? n1)%N && (n1 <? 240)%N && (128 <=? n2)%N && (n2 <? 192)%N
  && (128 <=? n3)%N && (n3 <? 192)%N && (19968 <=? code)%N && (code <=? 40869)%N.

(** A plain name: written in the printable ASCII characters other than
    the single quote and the backslash, and in the Chinese characters
    from U+4E00 to U+9FA5.  These are printable characters, which
    [repr] leaves as they are. *)
Fixpoint plain_name (s : string) : bool :=
  match s with
  | EmptyString => true
  | String b1 s1 =>
      if kept_byte b1 && (nat_of_ascii b1 <? 127)%nat then plain_name s1
      else match s1 with
           | String b2 (String b3 s3) => chinese_character b1 b2 b3 && plain_name s3
           | _ => false
           end
  end.

(** Truth value of a string or of [None]: only [None] and [''] are false. *)
Definition truthy (s : option string) : bool :=
  match s with
  | None => false
  | Some EmptyString => false
  | Some _ => true
  end.

Fixpoint replicate_string (n : nat) (s : string) : string :=
  match n with
  | O => ""
  | S n' => s ++ replicate_string n' s
  end.

(** Left padding with zeros up to [w] characters. *)
Definition zfill (w : nat) (s : string) : string :=
  replicate_string (w - String.length s) "0" ++ s.

(** ** Floating-point numbers *)

Inductive float : Type :=
| Fin (q : Q)
| Inf (negative : bool)
| NaN.

Definition Qltb (x y : Q) : bool := negb (Qle_bool y x).

(** Nearest integer, ties to the even one: what [numpy.round] and the
    [f] format of Python do on a tie. *)
Definition round_half_even (q : Q) : Z :=
  let f := Qfloor q in
  match Qcompare (q - inject_Z f) (1 # 2) with
  | Lt => f
  | Gt => (f + 1)%Z
  | Eq => if Z.even f then f else (f + 1)%Z
  end.

Definition pow10 (d : nat) : Z := (10 ^ Z.of_nat d)%Z.

(** *** Rounding to binary64 *)

(** [2 ^ k]. *)
Definition pow2 (k : Z) : Q := 2 ^ k.

(** The exponent [e] of a number other than zero:
    [2 ^ e <= |q| < 2 ^ (e + 1)]. *)
Definition binade (q : Q) : Z :=
  let e := (Z.log2 (Z.abs (Qnum q)) - Z.log2 (Z.pos (Qden q)))%Z in
  if Qle_bool (pow2 e) (Qabs q) then e else (e - 1)%Z.

(** The exponent of the last place of the binary64 numbers around [q]:
    53 bits of significand, and no exponent below that of the subnormal
    numbers. *)
Definition exponent64 (q : Q) : Z := (Z.max (binade q) (-1022) - 52)%Z.

(** The multiple of [2 ^ exponent64 q] nearest to [q], ties to the even
    multiple. *)
Definition rounded64 (q : Q) : Q :=
  inject_Z (round_half_even (q * pow2 (- exponent64 q))) * pow2 (exponent64 q).

(** The binary64 number that an operation with the exact result [q]
    returns: the nearest one, an infinity from [2 ^ 1024] on.  The
    number is kept as a reduced fraction. *)
Definition round64 (q : Q) : float :=
  if Qeq_bool q 0 then Fin 0
  else if Qle_bool (pow2 1024) (Qabs (rounded64 q)) then Inf (Qltb (rounded64 q) 0)
  else Fin (Qred (rounded64 q)).

Module Float.

(** A literal, and the conversion of an integer. *)
Definition of_Q (q : Q) : float := round64 q.
Definition of_Z (z : Z) : float := round64 (inject_Z z).
Definition of_nat (n : nat) : float := of_Z (Z.of_nat n).

Definition isnan (x : float) : bool :=
  match x with NaN => true | _ => false end.

Definition opp (x : float) : float :=
  match x with
  | Fin q => Fin (- q)
  | Inf s => Inf (negb s)
  | NaN => NaN
  end.

Definition abs (x : float) : float :=
  match x with
  | Fin q => Fin (Qabs q)
  | Inf _ => Inf false
  | NaN => NaN
  end.

Definition add (x y : float) : float :=
  match x, y with
  | NaN, _ | _, NaN => NaN
  | Fin a, Fin b => round64 (a + b)
  | Fin _, Inf s | Inf s, Fin _ => Inf s
  | Inf s, Inf t => if Bool.eqb s t then Inf s else NaN
  end.

Definition sub (x y : float) : float := add x (opp y).

Definition mul (x y : float) : float :=
  match x, y with
  | NaN, _ | _, NaN => NaN
  | Fin a, Fin b => round64 (a * b)
  | Fin a, Inf s | Inf s, Fin a =>
      if Qeq_bool a 0 then NaN else Inf (xorb s (Qltb a 0))
  | Inf s, Inf t => Inf (xorb s t)
  end.

(** A division by zero raises nothing on NumPy scalars and arrays: it
    gives NaN for 0/0 and an infinity otherwise. *)
Definition div (x y : float) : float :=
  match x, y with
  | NaN, _ | _, NaN => NaN
  | Fin a, Fin b =>
      if Qeq_bool b 0
      then (if Qeq_bool a 0 then NaN else Inf (Qltb a 0))
      else round64 (a / b)
  | Fin _, Inf _ => Fin 0
  | Inf s, Fin b => Inf (xorb s (Qltb b 0))
  | Inf _, Inf _ => NaN
  end.

(** Comparisons: every comparison with NaN is false. *)
Definition ltb (x y : float) : bool :=
  match x, y with
  | NaN, _ | _, NaN => false
  | Fin a, Fin b => Qltb a b
  | Fin _, Inf s => negb s
  | Inf s, Fin _ => s
  | Inf s, Inf t => s && negb t
  end.

Definition gtb (x y : float) : bool := ltb y x.

Definition leb (x y : float) : bool :=
  match x, y with
  | NaN, _ | _, NaN => false
  | Fin a, Fin b => Qle_bool a b
  | Fin _, Inf s => negb s
  | Inf s, Fin _ => s
  | Inf s, Inf t => s || negb t
  end.

(** Equality of values (two representations of one rational are the
    same number). *)
Definition eq (x y : float) : Prop :=
  match x, y with
  | Fin a, Fin b => a == b
  | Inf s, Inf t => s = t
  | NaN, NaN => True
  | _, _ => False
  end.

(** [np.rint(x)]: the nearest integer, ties to the even one. *)
Definition rint (x : float) : float :=
  match x with
  | Fin q => Fin (inject_Z (round_half_even q))
  | _ => x
  end.

(** [round(x, d)] of NumPy for [d > 0]: the product by [10 ** d] is
    rounded to an integer and divided by [10 ** d], each of the two
    operations in binary64. *)
Definition round (d : nat) (x : float) : float :=
  div (rint (mul x (of_Z (pow10 d)))) (of_Z (pow10 d)).

(** [format(x, '.df')] for [d > 0]: the decimal nearest to the number
    itself, ties to the even digit. *)
Definition format_f (d : nat) (x : float) : string :=
  match x with
  | NaN => "nan"
  | Inf false => "inf"
  | Inf true => "-inf"
  | Fin q =>
      let k := round_half_even (Qabs q * inject_Z (pow10 d)) in
      (if Qltb q 0 then "-" else "")
        ++ str_Z (k / pow10 d) ++ "."
        ++ zfill d (str_Z (k mod pow10 d))
  end.

End Float.

Notation "x +f y" := (Float.add x y) (at level 50, left associativity).
Notation "x -f y" := (Float.sub x y) (at level 50, left associativity).
Notation "x *f y" := (Float.mul x y) (at level 40, left associativity).
Notation "x /f y" := (Float.div x y) (at level 40, left associativity).


(** ** Tables: the pandas [DataFrame] *)

(** The cells of a column, by dtype.  A missing cell is NaN in a
    [float64] column and [None] in an [object] column; integer and boolean
    columns have none.  The integers are unbounded: the cells of an
    [int64] column are within its range, and so is taken to be the
    difference of two of them. *)
Inductive Values : Type :=
| Float64 (xs : list float)
| Int64 (xs : list Z)
| Boolean (xs : list bool)
| Object (xs : list (option string)).

Record Series : Type := mkSeries { s_name : string; s_values : Values }.

Inductive Index : Type :=
| RangeIndex (stop : nat)
| IntIndex (positions : list nat)
| StrIndex (labels : list string).

Record DataFrame : Type := mkDataFrame { df_index : Index; df_columns : list Series }.

Definition size (v : Values) : nat :=
  match v with
  | Float64 xs => List.length xs
  | Int64 xs => List.length xs
  | Boolean xs => List.length xs
  | Object xs => List.length xs
  end.

Definition index_len (i : Index) : nat :=
  match i with
  | RangeIndex n => n
  | IntIndex l => List.length l
  | StrIndex l => List.length l
  end.

(** [len(data)]: the number of rows. *)
Definition len (data : DataFrame) : nat := index_len (df_index data).

(** [data.shape]. *)
Definition shape (data : DataFrame) : nat * nat :=
  (len data, List.length (df_columns data)).

(** [data.empty]: one of the two axes has length 0. *)
Definition empty (data : DataFrame) : bool :=
  (fst (shape data) =? 0)%nat || (snd (shape data) =? 0)%nat.

(** [data.columns] as the list of the names. *)
Definition column_names (data : DataFrame) : list string :=
  map s_name (df_columns data).

(** The invariant of a table: every column has one cell per row, and the
    names of the columns are distinct. *)
Definition well_formed (data : DataFrame) : Prop :=
  Forall (fun s => size (s_values s) = len data) (df_columns data)
  /\ NoDup (column_names data).

(** The invariant as a test. *)
Fixpoint distinct (l : list string) : bool :=
  match l with
  | [] => true
  | x :: l' => negb (existsb (String.eqb x) l') && distinct l'
  end.

Definition well_formedb (data : DataFrame) : bool :=
  forallb (fun s => (size (s_values s) =? len data)%nat) (df_columns data)
  && distinct (column_names data).

(** [c in data.columns]. *)
Definition has_column (data : DataFrame) (c : string) : bool :=
  existsb (String.eqb c) (column_names data).

(** [data[c]]: the first column of that name, if there is one. *)
Definition get_column (data : DataFrame) (c : string) : option Series :=
  find (fun s => String.eqb c (s_name s)) (df_columns data).

(** [np.number]: the integer and the floating-point dtypes, not [bool]. *)
Definition is_number (v : Values) : bool :=
  match v with
  | Float64 _ | Int64 _ => true
  | Boolean _ | Object _ => false
  end.

(** [data.select_dtypes(include=[np.number])]. *)
Definition select_dtypes_number (data : DataFrame) : DataFrame :=
  mkDataFrame (df_index data)
              (filter (fun s => is_number (s_values s)) (df_columns data)).

(** The cells of a numeric column as floats (what every NumPy operation
    below computes on); a column of another dtype has none. *)
Definition to_floats (v : Values) : list float :=
  match v with
  | Float64 xs => xs
  | Int64 xs => map Float.of_Z xs
  | Boolean _ | Object _ => []
  end.

(** [s.isnull()], cell by cell. *)
Definition isnull (v : Values) : list bool :=
  match v with
  | Float64 xs => map Float.isnan xs
  | Int64 xs => map (fun _ => false) xs
  | Boolean xs => map (fun _ => false) xs
  | Object xs => map (fun c => match c with None => true | Some _ => false end) xs
  end.

Definition count_true (l : list bool) : nat := List.length (filter (fun b => b) l).

(** [data.isnull().sum()]: the number of missing cells of each column. *)
Definition isnull_sum (data : DataFrame) : list (string * nat) :=
  map (fun s => (s_name s, count_true (isnull (s_values s)))) (df_columns data).

(** [DataFrame.round(d)]: the float columns are rounded, the others kept. *)
Definition round_values (d : nat) (v : Values) : Values :=
  match v with
  | Float64 xs => Float64 (map (Float.round d) xs)
  | _ => v
  end.

Definition round_frame (d : nat) (data : DataFrame) : DataFrame :=
  mkDataFrame (df_index data)
    (map (fun s => mkSeries (s_name s) (round_values d (s_values s))) (df_columns data)).

(** Boolean indexing, [data[mask]]: the rows where the mask is true. *)
Fixpoint select {A : Type} (mask : list bool) (l : list A) : list A :=
  match mask, l with
  | b :: mask', x :: l' => if b then x :: select mask' l' else select mask' l'
  | _, _ => []
  end.

Definition select_values (mask : list bool) (v : Values) : Values :=
  match v with
  | Float64 xs => Float64 (select mask xs)
  | Int64 xs => Int64 (select mask xs)
  | Boolean xs => Boolean (select mask xs)
  | Object xs => Object (select mask xs)
  end.

Definition select_index (mask : list bool) (i : Index) : Index :=
  match i with
  | RangeIndex n => IntIndex (select mask (seq 0 n))
  | IntIndex l => IntIndex (select mask l)
  | StrIndex l => StrIndex (select mask l)
  end.

Definition select_rows (mask : list bool) (data : DataFrame) : DataFrame :=
  mkDataFrame (select_index mask (df_index data))
    (map (fun s => mkSeries (s_name s) (select_values mask (s_values s)))
         (df_columns data)).

(** [data.iloc[i, j]] on a frame of floats; the loops below keep [i] and
    [j] inside the frame. *)
Definition iloc (data : DataFrame) (i j : nat) : float :=
  match nth_error (df_columns data) j with
  | Some s => nth i (to_floats (s_values s)) NaN
  | None => NaN
  end.

(** [data.columns[i]]. *)
Definition column_at (data : DataFrame) (i : nat) : string :=
  nth i (column_names data) "".

(** *** Quantiles

    [Series.quantile(q)] with the default linear interpolation: the
    missing cells are skipped, the others are sorted, and the value at the
    fractional position [(n - 1) * q] is interpolated between its two
    neighbours.  A column without values has the quantile NaN.  The
    cells of an integer column are sorted and subtracted as integers;
    they become floats in the interpolation. *)

Fixpoint insert_sorted (x : float) (l : list float) : list float :=
  match l with
  | [] => [x]
  | y :: l' => if Float.leb x y then x :: l else y :: insert_sorted x l'
  end.

Definition sort_floats (l : list float) : list float :=
  fold_right insert_sorted [] l.

Fixpoint insert_int (x : Z) (l : list Z) : list Z :=
  match l with
  | [] => [x]
  | y :: l' => if (x <=? y)%Z then x :: l else y :: insert_int x l'
  end.

Definition sort_ints (l : list Z) : list Z :=
  fold_right insert_int [] l.

Definition dropna (l : list float) : list float :=
  filter (fun x => negb (Float.isnan x)) l.

(** The interpolation of NumPy between two neighbours [a] and [b] whose
    difference [b - a] is [diff_b_a]: [a + diff_b_a * t], and
    [b - diff_b_a * (1 - t)] from [t = 0.5] on. *)
Definition lerp (a b diff_b_a : float) (t : Q) : float :=
  if Qle_bool (1 # 2) t
  then b -f diff_b_a *f (Fin 1 -f Fin t)
  else a +f diff_b_a *f Fin t.

Definition quantile (v : Values) (q : Q) : float :=
  match v with
  | Int64 xs =>
      let a := sort_ints xs in
      match a with
      | [] => NaN
      | _ =>
          let pos := inject_Z (Z.of_nat (List.length a - 1)) * q in
          let lo := Z.to_nat (Qfloor pos) in
          let hi := Nat.min (S lo) (List.length a - 1) in
          let previous := nth lo a 0%Z in
          let next := nth hi a 0%Z in
          lerp (Float.of_Z previous) (Float.of_Z next) (Float.of_Z (next - previous))
               (pos - inject_Z (Qfloor pos))
      end
  | _ =>
      let a := sort_floats (dropna (to_floats v)) in
      match a with
      | [] => NaN
      | _ =>
          let pos := inject_Z (Z.of_nat (List.length a - 1)) * q in
          let lo := Z.to_nat (Qfloor pos) in
          let hi := Nat.min (S lo) (List.length a - 1) in
          let previous := nth lo a NaN in
          let next := nth hi a NaN in
          lerp previous next (next -f previous) (pos - inject_Z (Qfloor pos))
      end
  end.

(** *** Pearson correlation

    [DataFrame.corr()] with its defaults ([method='pearson'],
    [min_periods=1]): for each pair of columns, over the rows where both
    cells are finite, the sum of the products of the deviations from the
    means divided by the square root of the product of the two sums of
    squared deviations; NaN when there are no such rows or when the
    divisor is zero.  This is the formula in exact arithmetic, with the
    square root as a parameter: pandas evaluates it in binary64, and its
    coefficients differ from these by the rounding. *)

Definition Qsum (l : list Q) : Q := fold_right Qplus 0 l.

Definition Qmean (l : list Q) : Q := Qsum l / inject_Z (Z.of_nat (List.length l)).

Definition finite_pairs (xs ys : list float) : list (Q * Q) :=
  flat_map (fun p => match p with
                     | (Fin a, Fin b) => [(a, b)]
                     | _ => []
                     end) (combine xs ys).

(** Sum over the rows of the products of the deviations of [f] and [g]. *)
Definition sum_dev (f g : Q * Q -> Q) (ps : list (Q * Q)) : Q :=
  let mf := Qmean (map f ps) in
  let mg := Qmean (map g ps) in
  Qsum (map (fun p => (f p - mf) * (g p - mg)) ps).

Section Correlation.

Variable sqrt : Q -> Q.

Definition pearson (xs ys : list float) : float :=
  let ps := finite_pairs xs ys in
  if (List.length ps <? 1)%nat then NaN
  else
    let ssqdm_x := sum_dev fst fst ps in
    let ssqdm_y := sum_dev snd snd ps in
    let covxy := sum_dev fst snd ps in
    let divisor := sqrt (ssqdm_x * ssqdm_y) in
    if Qeq_bool divisor 0 then NaN else Fin (covxy / divisor).

(** The matrix is a frame indexed by the column names, with one float
    column per column of the data. *)
Definition corr (data : DataFrame) : DataFrame :=
  let cols := df_columns data in
  mkDataFrame (StrIndex (map s_name cols))
    (map (fun cj =>
            mkSeries (s_name cj)
              (Float64 (map (fun ci => pearson (to_floats (s_values ci))
                                               (to_floats (s_values cj))) cols)))
         cols).

End Correlation.

(** ** The statistics reporter: [data_analyzer.py] *)

Module DataAnalyzer.
Section Reporter.

(** The square root of the C library, used by [DataFrame.corr]. *)
Variable sqrt : Q -> Q.

(** [DataFrame.to_string()]: the text layout of a frame, a matter of
    the pandas library. *)
Variable to_string : DataFrame -> string.

(** What [detect_outliers] appends for a column after the count: the
    source file stops inside that line. *)
Variable entry_tail : DataFrame -> string -> string.

(** The pairs of the double loop [for i in range(n): for j in
    range(i+1, n)], in the order the loop visits them. *)
Definition upper_pairs (n : nat) : list (nat * nat) :=
  flat_map (fun i => map (fun j => (i, j)) (seq (i + 1) (n - (i + 1)))) (seq 0 n).

Definition strong_correlations (correlation_matrix : DataFrame)
  : list (string * string * float) :=
  flat_map (fun ij =>
              let corr := iloc correlation_matrix (fst ij) (snd ij) in
              if Float.gtb (Float.abs corr) (Fin (7 # 10))
              then [(column_at correlation_matrix (fst ij),
                     column_at correlation_matrix (snd ij), corr)]
              else [])
           (upper_pairs (List.length (df_columns correlation_matrix))).

Definition strong_line (e : string * string * float) : string :=
  let '(col1, col2, corr) := e in
  "  " ++ col1 ++ " - " ++ col2 ++ ": " ++ Float.format_f 3 corr ++ nl.

(** [analyze_correlations] for any implementation [corr] of
    [DataFrame.corr]. *)
Definition analyze_correlations_with (corr : DataFrame -> DataFrame)
           (data : DataFrame) : string :=
  let corr_text := "=== 相关性分析 ===" ++ nl ++ nl in
  let numeric_data := select_dtypes_number data in
  if empty numeric_data then "没有数值型数据可用于相关性分析"
  else if (List.length (df_columns numeric_data) <? 2)%nat
  then "需要至少两个数值型变量进行相关性分析"
  else
    let correlation_matrix := corr numeric_data in
    let corr_text := corr_text ++ "相关系数矩阵:" ++ nl in
    let corr_text := corr_text ++ to_string (round_frame 3 correlation_matrix) in
    let corr_text := corr_text ++ nl ++ nl in
    let corr_text := corr_text ++ "强相关性 (|r| > 0.7):" ++ nl in
    let strong := strong_correlations correlation_matrix in
    match strong with
    | _ :: _ => corr_text ++ String.concat "" (map strong_line strong)
    | [] => corr_text ++ "  未发现强相关性" ++ nl
    end.

(** [analyze_correlations] with the formula of Pearson above for
    [DataFrame.corr]. *)
Definition analyze_correlations (data : DataFrame) : string :=
  analyze_correlations_with (corr sqrt) data.

(** [np.product(data.shape)] (a NumPy integer; the function exists in
    NumPy below 2.0). *)
Definition total_cells (data : DataFrame) : nat :=
  (fst (shape data) * snd (shape data))%nat.

(** [data.isnull().sum().sum()]. *)
Definition total_missing (data : DataFrame) : nat :=
  fold_right Nat.add 0%nat (map snd (isnull_sum data)).

(** [str(total_missing)]: the sum of the integer counts of the columns
    is an integer; on a frame without columns the counts are an empty
    series of floats, whose sum is the float zero. *)
Definition str_total_missing (data : DataFrame) : string :=
  match df_columns data with
  | [] => "0.0"
  | _ => str_nat (total_missing data)
  end.

(** [(missing_count / len(data)) * 100], then [.round(2)]. *)
Definition missing_percent (data : DataFrame) : list float :=
  map (fun nc => Float.round 2
                   (Float.of_nat (snd nc) /f Float.of_nat (len data) *f Float.of_Z 100))
      (isnull_sum data).

(** The frame of the two statistics, one row per column of the data,
    cut down to the rows with a missing count above zero. *)
Definition missing_df (data : DataFrame) : DataFrame :=
  let missing_count := isnull_sum data in
  let df := mkDataFrame (StrIndex (map fst missing_count))
              [ mkSeries "缺失数量" (Int64 (map (fun nc => Z.of_nat (snd nc)) missing_count));
                mkSeries "缺失比例%" (Float64 (missing_percent data)) ] in
  select_rows (map (fun nc => (0 <? snd nc)%nat) missing_count) df.

Definition analyze_missing_values (data : DataFrame) : string :=
  let missing_text := "=== 缺失值分析 ===" ++ nl ++ nl in
  let missing_text := missing_text ++ "总数据点: " ++ str_nat (total_cells data) ++ nl in
  let missing_text := missing_text ++ "总缺失值: " ++ str_total_missing data ++ nl in
  let missing_text :=
    missing_text ++ "缺失值比例: "
      ++ Float.format_f 2 (Float.of_nat (total_missing data)
                             /f Float.of_nat (total_cells data) *f Float.of_Z 100)
      ++ "%" ++ nl ++ nl in
  let missing_text := missing_text ++ "各列缺失值统计:" ++ nl in
  if negb (empty (missing_df data))
  then missing_text ++ to_string (missing_df data)
  else missing_text ++ "  没有缺失值".

(** The body of the loop of [detect_outliers] for the column [col]. *)
Definition lower_bound (v : Values) : float :=
  let Q1 := quantile v (1 # 4) in
  let Q3 := quantile v (3 # 4) in
  let IQR := Q3 -f Q1 in
  Q1 -f Fin (3 # 2) *f IQR.

Definition upper_bound (v : Values) : float :=
  let Q1 := quantile v (1 # 4) in
  let Q3 := quantile v (3 # 4) in
  let IQR := Q3 -f Q1 in
  Q3 +f Fin (3 # 2) *f IQR.

Definition outlier_mask (v : Values) : list bool :=
  map (fun x => Float.ltb x (lower_bound v) || Float.gtb x (upper_bound v))
      (to_floats v).

Definition outlier_entry (numeric_data : DataFrame) (col : string) : string :=
  match get_column numeric_data col with
  | None => ""
  | Some s =>
      let v := s_values s in
      let outliers := select_rows (outlier_mask v) numeric_data in
      let outlier_count := len outliers in
      col ++ ":" ++ nl
        ++ "  正常值范围: [" ++ Float.format_f 3 (lower_bound v) ++ ", "
        ++ Float.format_f 3 (upper_bound v) ++ "]" ++ nl
        ++ "  异常值数量: " ++ str_nat outlier_count
        ++ entry_tail numeric_data col
  end.

(** Modelled from the spec: the end of [detect_outliers] is missing, the
    source file stops inside the last line of the loop body.  Every
    operation of the reporter returns its text block (spec 4.1), so the
    text accumulated by the loop is what is returned; the rest of the
    line the file stops in is [entry_tail]. *)
Definition detect_outliers (data : DataFrame) : string :=
  let outlier_text := "=== 异常值检测 ===" ++ nl ++ nl in
  let numeric_data := select_dtypes_number data in
  if empty numeric_data then "没有数值型数据可用于异常值检测"
  else
    let outlier_text := outlier_text ++ "使用IQR方法检测异常值:" ++ nl ++ nl in
    outlier_text
      ++ String.concat "" (map (outlier_entry numeric_data) (column_names numeric_data)).

End Reporter.
End DataAnalyzer.

(** ** The chart dispatcher: [visualization_engine.py] *)

(** *** Exceptions *)

(** An exception: its class and what [str(e)] gives. *)
Record PyExc : Type := mkExc { exc_class : string; exc_str : string }.

(** [str(KeyError(k))] is [repr(k)]. *)
Definition KeyError (key : option string) : PyExc :=
  mkExc "KeyError" (match key with None => "None" | Some k => repr_str k end).

Definition ValueError (msg : string) : PyExc := mkExc "ValueError" msg.
Definition IndexError (msg : string) : PyExc := mkExc "IndexError" msg.
Definition Exception (msg : string) : PyExc := mkExc "Exception" msg.

(** *** Labels and groups *)

(** A cell used as a key: the name of a group, the label of a slice. *)
Inductive Label : Type :=
| LFloat (x : float)
| LInt (z : Z)
| LBool (b : bool)
| LStr (s : string).

(** The cells of a column as keys; a missing cell is no key. *)
Definition keys_of (v : Values) : list (option Label) :=
  match v with
  | Float64 xs => map (fun x => if Float.isnan x then None else Some (LFloat x)) xs
  | Int64 xs => map (fun z => Some (LInt z)) xs
  | Boolean xs => map (fun b => Some (LBool b)) xs
  | Object xs => map (option_map LStr) xs
  end.

Definition float_eqb (x y : float) : bool :=
  match x, y with
  | Fin a, Fin b => Qeq_bool a b
  | Inf s, Inf t => Bool.eqb s t
  | _, _ => false
  end.

Definition label_eqb (a b : Label) : bool :=
  match a, b with
  | LFloat x, LFloat y => float_eqb x y
  | LInt x, LInt y => Z.eqb x y
  | LBool x, LBool y => Bool.eqb x y
  | LStr x, LStr y => String.eqb x y
  | _, _ => false
  end.

(** The order of the keys of one column (all of one dtype). *)
Definition label_leb (a b : Label) : bool :=
  match a, b with
  | LFloat x, LFloat y => Float.leb x y
  | LInt x, LInt y => Z.leb x y
  | LBool x, LBool y => implb x y
  | LStr x, LStr y => String.leb x y
  | _, _ => true
  end.

Fixpoint insert_key (k : Label) (l : list Label) : list Label :=
  match l with
  | [] => [k]
  | h :: t =>
      if label_eqb k h then l
      else if label_leb k h then k :: l
      else h :: insert_key k t
  end.

(** The distinct keys of a column, sorted. *)
Definition group_keys (v : Values) : list Label :=
  fold_right (fun c acc => match c with Some k => insert_key k acc | None => acc end)
             [] (keys_of v).

(** [data.groupby(c)], as the loop [for name, group in groups] sees it:
    the sorted keys, each with the rows that have it. *)
Definition groupby (data : DataFrame) (c : string) : list (Label * DataFrame) :=
  match get_column data c with
  | None => []
  | Some s =>
      map (fun k =>
             (k, select_rows
                   (map (fun c => match c with Some k' => label_eqb k k' | None => false end)
                        (keys_of (s_values s)))
                   data))
          (group_keys (s_values s))
  end.

(** *** The drawing surface *)

(** A colour of a palette, and the list of colours that
    [sns.color_palette] returns. *)
Inductive Color : Type := color_of (palette : string) (i : nat).
Definition Colors : Type := list Color.

(** The result of [DataFrame.pivot_table]. *)
Record Pivot : Type :=
  mkPivot { p_index : list Label; p_columns : list Label; p_cells : list (list float) }.

(** The calls on the plotting collaborators, with their arguments. *)
Inductive Call : Type :=
| ax_plot (x y : Series) (marker : option string) (label : option Label)
          (linewidth : option Z) (color : option Color)
| ax_legend (title : option string)
| ax_bar (x y : Series) (color : Colors)
| ax_scatter (x y : Series) (label : option Label) (color : Color) (alpha : Q)
| ax_pie (values : list nat) (labels : list Label) (autopct : string) (colors : Colors)
| ax_fill_between (x y : Series) (color : Color) (alpha : Q)
| frame_plot (kind : string) (frame : Pivot) (color : Colors)
| sns_boxplot_xy (data : DataFrame) (x y : string) (palette : string)
| sns_boxplot (data : Series) (color : Color)
| sns_violinplot_xy (data : DataFrame) (x y : string) (palette : string)
| sns_violinplot (data : Series) (color : Color)
| sns_heatmap (matrix : DataFrame) (annot : bool) (cmap : string) (center : Z)
              (fmt : string) (linewidths : Q)
| sns_histplot (data : DataFrame) (x : option string) (kde : bool) (color : Color)
| sns_scatterplot (data : DataFrame) (x y : string) (hue : option string)
                  (palette : option string) (color : option Color)
| ax_set_xlabel (text : string) (fontsize : Z)
| ax_set_ylabel (text : string) (fontsize : option Z)
| ax_set_title (text : string) (fontsize : Z) (fontweight : string)
| ax_grid (visible : bool) (alpha : Q)
| ax_tick_params (axis which : string) (labelsize : Z)
| plt_setp (labels : list string) (rotation : Z) (ha : string).

(** The axes object: the calls made on it so far, oldest first. *)
Definition Axes : Type := list Call.

(** *** Rendering: state and exceptions *)

Inductive Outcome (A : Type) : Type :=
| Return (a : A)
| Raise (e : PyExc).
Arguments Return {A} a.
Arguments Raise {A} e.

(** A computation that draws on the axes and returns or raises; what was
    drawn before an exception stays drawn. *)
Definition Render (A : Type) : Type := Axes -> Axes * Outcome A.

Definition ret {A : Type} (a : A) : Render A := fun ax => (ax, Return a).

Definition raise {A : Type} (e : PyExc) : Render A := fun ax => (ax, Raise e).

Definition bind {A B : Type} (m : Render A) (k : A -> Render B) : Render B :=
  fun ax =>
    match m ax with
    | (ax', Return a) => k a ax'
    | (ax', Raise e) => (ax', Raise e)
    end.

(** [try: body except Exception as e: handler(e)]. *)
Definition try_except {A : Type} (body : Render A) (handler : PyExc -> Render A)
  : Render A :=
  fun ax =>
    match body ax with
    | (ax', Raise e) => handler e ax'
    | r => r
    end.

Definition call (c : Call) : Render unit := fun ax => ((ax ++ [c])%list, Return tt).

Definition lift {A : Type} (r : PyExc + A) : Render A :=
  match r with
  | inl e => raise e
  | inr a => ret a
  end.

Declare Scope render_scope.
Delimit Scope render_scope with render.
Notation "x <- m ;; k" := (bind m (fun x => k))
  (at level 100, m at next level, right associativity) : render_scope.
Notation "m ;; k" := (bind m (fun _ => k))
  (at level 100, right associativity) : render_scope.

(** [for x in l: body(x)]. *)
Fixpoint for_each {A : Type} (l : list A) (body : A -> Render unit) : Render unit :=
  match l with
  | [] => ret tt
  | x :: l' => bind (body x) (fun _ => for_each l' body)
  end.

(** [data[c]]: a [KeyError] when there is no such column. *)
Definition getitem (data : DataFrame) (c : option string) : PyExc + Series :=
  match c with
  | None => inl (KeyError None)
  | Some name =>
      match get_column data name with
      | Some s => inr s
      | None => inl (KeyError c)
      end
  end.

(** [c in data.columns] for a name that may be [None]. *)
Definition in_columns (c : option string) (data : DataFrame) : bool :=
  match c with
  | None => false
  | Some name => has_column data name
  end.

(** [len(s)] of Python on a string: the number of code points, that is
    of the bytes that do not continue a UTF-8 sequence. *)
Fixpoint py_len (s : string) : nat :=
  match s with
  | EmptyString => 0
  | String c s' =>
      let n := nat_of_ascii c in
      if ((128 <=? n) && (n <? 192))%nat then py_len s' else S (py_len s')
  end.

(** The titles of the chart kinds. *)
Definition chart_names : list (string * string) :=
  [ ("line", "折线图"); ("bar", "柱状图"); ("scatter", "散点图"); ("pie", "饼图");
    ("area", "面积图"); ("box", "箱线图"); ("heatmap", "热力图");
    ("distplot", "分布图"); ("violin", "小提琴图"); ("pairplot", "散点图") ].

(** [d.get(key, default)]. *)
Definition dict_get (d : list (string * string)) (key default : string) : string :=
  match find (fun kv => String.eqb key (fst kv)) d with
  | Some kv => snd kv
  | None => default
  end.

Definition or_empty (s : option string) : string :=
  match s with Some t => t | None => "" end.

Module VisualizationEngine.
Section Engine.

Local Open Scope render_scope.

(** The square root of the C library, used by [DataFrame.corr]. *)
Variable sqrt : Q -> Q.

(** [data.pivot_table(values=, index=, columns=, aggfunc=)] of pandas:
    the pivoted frame, or the exception it raises. *)
Variable pivot_table :
  DataFrame -> option string -> option string -> option string -> string
  -> PyExc + Pivot.

(** [Series.value_counts()] of pandas: the distinct values with their
    numbers of occurrences. *)
Variable value_counts : Values -> list (Label * nat).

(** [sns.color_palette(palette, n_colors)] of seaborn: the colours, or
    the exception it raises for a name that is no palette. *)
Variable color_palette : string -> option nat -> PyExc + Colors.

(** [ax.get_xticklabels()]: the texts of the tick labels that matplotlib
    has laid out for what is drawn. *)
Variable get_xticklabels : Axes -> list string.

(** [sns.color_palette(palette)[0]]. *)
Definition first_color (palette : string) : Render Color :=
  colors <- lift (color_palette palette None) ;;
  match colors with
  | c :: _ => ret c
  | [] => raise (IndexError "list index out of range")
  end.

Definition create_line_chart (data : DataFrame) (x_col y_col group_col : option string)
           (palette : string) : Render unit :=
  if truthy group_col && in_columns group_col data then
    let groups := groupby data (or_empty group_col) in
    for_each groups (fun ng =>
      x <- lift (getitem (snd ng) x_col) ;;
      y <- lift (getitem (snd ng) y_col) ;;
      call (ax_plot x y (Some "o") (Some (fst ng)) (Some 2%Z) None)) ;;
    call (ax_legend None)
  else
    x <- lift (getitem data x_col) ;;
    y <- lift (getitem data y_col) ;;
    color <- first_color palette ;;
    call (ax_plot x y (Some "o") None (Some 2%Z) (Some color)).

Definition create_bar_chart (data : DataFrame) (x_col y_col group_col : option string)
           (palette : string) : Render unit :=
  if truthy group_col && in_columns group_col data then
    pivot_data <- lift (pivot_table data y_col x_col group_col "mean") ;;
    colors <- lift (color_palette palette (Some (List.length (p_columns pivot_data)))) ;;
    call (frame_plot "bar" pivot_data colors) ;;
    call (ax_legend group_col)
  else
    x <- lift (getitem data x_col) ;;
    y <- lift (getitem data y_col) ;;
    colors <- lift (color_palette palette None) ;;
    call (ax_bar x y colors).

Definition create_scatter_chart (data : DataFrame) (x_col y_col group_col : option string)
           (palette : string) : Render unit :=
  if truthy group_col && in_columns group_col data then
    let groups := groupby data (or_empty group_col) in
    colors <- lift (color_palette palette (Some (List.length groups))) ;;
    for_each (combine groups colors) (fun ngc =>
      x <- lift (getitem (snd (fst ngc)) x_col) ;;
      y <- lift (getitem (snd (fst ngc)) y_col) ;;
      call (ax_scatter x y (Some (fst (fst ngc))) (snd ngc) (7 # 10))) ;;
    call (ax_legend None)
  else
    x <- lift (getitem data x_col) ;;
    y <- lift (getitem data y_col) ;;
    color <- first_color palette ;;
    call (ax_scatter x y None color (7 # 10)).

Definition create_pie_chart (data : DataFrame) (x_col : option string)
           (palette : string) : Render unit :=
  s <- lift (getitem data x_col) ;;
  let counts := value_counts (s_values s) in
  colors <- lift (color_palette palette (Some (List.length counts))) ;;
  call (ax_pie (map snd counts) (map fst counts) "%1.1f%%" colors) ;;
  call (ax_set_ylabel "" None).

Definition create_area_chart (data : DataFrame) (x_col y_col group_col : option string)
           (palette : string) : Render unit :=
  if truthy group_col && in_columns group_col data then
    pivot_data <- lift (pivot_table data y_col x_col group_col "sum") ;;
    colors <- lift (color_palette palette (Some (List.length (p_columns pivot_data)))) ;;
    call (frame_plot "area" pivot_data colors) ;;
    call (ax_legend group_col)
  else
    x <- lift (getitem data x_col) ;;
    y <- lift (getitem data y_col) ;;
    color <- first_color palette ;;
    call (ax_fill_between x y color (4 # 10)) ;;
    x' <- lift (getitem data x_col) ;;
    y' <- lift (getitem data y_col) ;;
    color' <- first_color palette ;;
    call (ax_plot x' y' None None (Some 2%Z) (Some color')).

Definition create_box_plot (data : DataFrame) (x_col y_col : option string)
           (palette : string) : Render unit :=
  if truthy x_col && truthy y_col then
    call (sns_boxplot_xy data (or_empty x_col) (or_empty y_col) palette)
  else
    let column := if truthy x_col then x_col else y_col in
    s <- lift (getitem data column) ;;
    color <- first_color palette ;;
    call (sns_boxplot s color).

Definition create_heatmap (data : DataFrame) (palette : string) : Render unit :=
  let numeric_data := select_dtypes_number data in
  if empty numeric_data then raise (ValueError "没有数值型数据可用于热力图")
  else
    let correlation_matrix := corr sqrt numeric_data in
    call (sns_heatmap correlation_matrix true palette 0 ".2f" (1 # 2)).

Definition create_distribution_plot (data : DataFrame) (x_col : option string)
           (palette : string) : Render unit :=
  color <- first_color palette ;;
  call (sns_histplot data x_col true color).

Definition create_violin_plot (data : DataFrame) (x_col y_col : option string)
           (palette : string) : Render unit :=
  if truthy x_col && truthy y_col then
    call (sns_violinplot_xy data (or_empty x_col) (or_empty y_col) palette)
  else
    let column := if truthy x_col then x_col else y_col in
    s <- lift (getitem data column) ;;
    color <- first_color palette ;;
    call (sns_violinplot s color).

Definition create_pair_plot (data : DataFrame) (group_col : option string)
           (palette : string) : Render unit :=
  let numeric_data := select_dtypes_number data in
  if empty numeric_data then raise (ValueError "没有数值型数据可用于配对图")
  else if (2 <=? List.length (df_columns numeric_data))%nat then
    let col1 := column_at numeric_data 0 in
    let col2 := column_at numeric_data 1 in
    if truthy group_col && in_columns group_col data then
      call (sns_scatterplot data col1 col2 group_col (Some palette) None)
    else
      color <- first_color palette ;;
      call (sns_scatterplot data col1 col2 None None (Some color))
  else raise (ValueError "需要至少两个数值型变量用于配对图").

Definition when (b : bool) (m : Render unit) : Render unit :=
  if b then m else ret tt.

Definition max_len (labels : list string) : nat :=
  fold_right Nat.max 0%nat (map py_len labels).

Definition set_chart_labels (chart_type : string) (x_col y_col : option string)
  : Render unit :=
  when (truthy x_col) (call (ax_set_xlabel (or_empty x_col) 12)) ;;
  when (truthy y_col) (call (ax_set_ylabel (or_empty y_col) (Some 12%Z))) ;;
  let title := dict_get chart_names chart_type "图表" in
  call (ax_set_title title 14 "bold") ;;
  call (ax_grid true (3 # 10)) ;;
  call (ax_tick_params "both" "major" 10) ;;
  when (truthy x_col)
    (fun ax =>
       let labels := get_xticklabels ax in
       match labels with
       | [] => ret tt ax
       | _ => when (10 <? max_len labels)%nat (call (plt_setp labels 45 "right")) ax
       end).

(** The chain [if chart_type == ... elif ... else raise] of
    [create_chart]. *)
Definition select_strategy (data : DataFrame) (chart_type : string)
           (x_col y_col group_col : option string) (palette : string) : Render unit :=
  if String.eqb chart_type "line" then
    create_line_chart data x_col y_col group_col palette
  else if String.eqb chart_type "bar" then
    create_bar_chart data x_col y_col group_col palette
  else if String.eqb chart_type "scatter" then
    create_scatter_chart data x_col y_col group_col palette
  else if String.eqb chart_type "pie" then
    create_pie_chart data x_col palette
  else if String.eqb chart_type "area" then
    create_area_chart data x_col y_col group_col palette
  else if String.eqb chart_type "box" then
    create_box_plot data x_col y_col palette
  else if String.eqb chart_type "heatmap" then
    create_heatmap data palette
  else if String.eqb chart_type "distplot" then
    create_distribution_plot data x_col palette
  else if String.eqb chart_type "violin" then
    create_violin_plot data x_col y_col palette
  else if String.eqb chart_type "pairplot" then
    create_pair_plot data group_col palette
  else raise (ValueError ("不支持的图表类型: " ++ chart_type)).

Definition create_chart (data : DataFrame) (chart_type : string)
           (x_col y_col group_col : option string) (palette : string) : Render unit :=
  try_except
    (select_strategy data chart_type x_col y_col group_col palette ;;
     set_chart_labels chart_type x_col y_col)
    (fun e => raise (Exception ("创建图表失败: " ++ exc_str e))).

End Engine.
End VisualizationEngine.

(** ** The collaborators, for the examples

    The operations above are stated for any square root, any text layout,
    any pivoting, any counting of values and any palette.  The instances
    below make the examples run. *)

(** A square root to six decimals, exact on the square of a rational. *)
Definition Qsqrt (q : Q) : Q :=
  Z.sqrt (Qnum q * Z.pos (Qden q) * 10 ^ 12) # (Qden q * 10 ^ 6).

(** A layout that prints the column names only. *)
Definition names_to_string (data : DataFrame) : string :=
  String.concat " " (column_names data).

(** The count line of [detect_outliers] closed by an empty line. *)
Definition blank_line_tail (numeric_data : DataFrame) (col : string) : string :=
  nl ++ nl.

Definition aggregate (aggfunc : string) (l : list float) : float :=
  match l with
  | [] => NaN
  | _ =>
      let total := fold_right Float.add (Float.of_Z 0) l in
      if String.eqb aggfunc "sum" then total
      else if String.eqb aggfunc "mean" then total /f Float.of_nat (List.length l)
      else NaN
  end.

Definition key_is (k : Label) (c : option Label) : bool :=
  match c with Some k' => label_eqb k k' | None => false end.

(** A pivoting for tables without missing cells: one row per key of the
    index column, one column per key of the columns column, and in each
    cell the aggregate of the values of the rows with both keys. *)
Definition simple_pivot_table (data : DataFrame) (values index columns : option string)
           (aggfunc : string) : PyExc + Pivot :=
  match getitem data values, getitem data index, getitem data columns with
  | inl e, _, _ => inl e
  | _, inl e, _ => inl e
  | _, _, inl e => inl e
  | inr v, inr i, inr c =>
      let ik := keys_of (s_values i) in
      let ck := keys_of (s_values c) in
      inr (mkPivot (group_keys (s_values i)) (group_keys (s_values c))
             (map (fun a =>
                     map (fun b =>
                            aggregate aggfunc
                              (select (map (fun p => key_is a (fst p) && key_is b (snd p))
                                           (combine ik ck))
                                      (to_floats (s_values v))))
                         (group_keys (s_values c)))
                  (group_keys (s_values i))))
  end.

(** The keys of a column with their numbers of occurrences. *)
Definition simple_value_counts (v : Values) : list (Label * nat) :=
  map (fun k => (k, count_true (map (key_is k) (keys_of v)))) (group_keys v).

(** The palettes that the shell offers, six colours each unless a number
    is asked for; any other name is refused. *)
Definition offered_palettes : list string :=
  ["viridis"; "plasma"; "Set1"; "Set2"; "Pastel1"; "husl"].

Definition simple_color_palette (palette : string) (n_colors : option nat)
  : PyExc + Colors :=
  if existsb (String.eqb palette) offered_palettes
  then inr (map (color_of palette)
                (seq 0 (match n_colors with Some n => n | None => 6 end)))
  else inl (ValueError (repr_str palette ++ " is not a valid palette name")).

(** Axes whose tick labels have not been laid out. *)
Definition no_ticklabels (ax : Axes) : list string := [].

(** The tables of the examples. *)

Definition table_xy : DataFrame :=
  mkDataFrame (RangeIndex 3)
    [ mkSeries "x" (Int64 [1; 2; 3]%Z); mkSeries "y" (Int64 [10; 20; 30]%Z) ].

Definition table_xyg : DataFrame :=
  mkDataFrame (RangeIndex 4)
    [ mkSeries "x" (Int64 [1; 1; 2; 2]%Z);
      mkSeries "y" (Float64 [Fin 10; Fin 20; Fin 30; Fin 50]);
      mkSeries "g" (Object [Some "a"; Some "b"; Some "a"; Some "a"]) ].

Definition table_one_numeric_no_rows : DataFrame :=
  mkDataFrame (RangeIndex 0) [ mkSeries "a" (Float64 []) ].

Definition table_two_numeric_no_rows : DataFrame :=
  mkDataFrame (RangeIndex 0) [ mkSeries "a" (Float64 []); mkSeries "b" (Float64 []) ].

Definition table_one_numeric : DataFrame :=
  mkDataFrame (RangeIndex 2)
    [ mkSeries "a" (Float64 [Fin 1; Fin 2]); mkSeries "name" (Object [Some "u"; None]) ].

Definition table_constant_column : DataFrame :=
  mkDataFrame (RangeIndex 3)
    [ mkSeries "a" (Int64 [1; 1; 1]%Z); mkSeries "b" (Int64 [1; 2; 3]%Z) ].

Definition table_text_only : DataFrame :=
  mkDataFrame (RangeIndex 2) [ mkSeries "name" (Object [Some "u"; Some "v"]) ].

Definition table_outliers : DataFrame :=
  mkDataFrame (RangeIndex 5)
    [ mkSeries "v" (Float64 [Fin 1; Fin 2; Fin 3; Fin 4; Fin 100]);
      mkSeries "w" (Float64 [Fin 1; NaN; Fin 3; NaN; Fin 2]) ].

Definition table_no_columns : DataFrame := mkDataFrame (RangeIndex 3) [].

(** The column [1.2, 2.7, 1.7, 1.8], and the column [-1e308, 1e308]. *)
Definition table_tenths : DataFrame :=
  mkDataFrame (RangeIndex 4)
    [ mkSeries "v" (Float64 [ Float.of_Q (12 # 10); Float.of_Q (27 # 10);
                              Float.of_Q (17 # 10); Float.of_Q (18 # 10) ]) ].

Definition table_huge : DataFrame :=
  mkDataFrame (RangeIndex 2)
    [ mkSeries "v" (Float64 [ Float.of_Q (- inject_Z (10 ^ 308));
                              Float.of_Q (inject_Z (10 ^ 308)) ]) ].

(** A column of 160 cells of which 23 are missing. *)
Definition table_23_of_160 : DataFrame :=
  mkDataFrame (RangeIndex 160)
    [ mkSeries "v" (Float64 (repeat NaN 23 ++ repeat (Fin 1) 137)) ].

(** The numeric columns of a table. *)
Definition numeric_columns (data : DataFrame) : list Series :=
  df_columns (select_dtypes_number data).

(** The floats of the [i]-th column of a list of columns, and its name. *)
Definition column_floats (cols : list Series) (i : nat) : list float :=
  match nth_error cols i with
  | Some s => to_floats (s_values s)
  | None => []
  end.

Definition column_name (cols : list Series) (i : nat) : string :=
  nth i (map s_name cols) "".

(** The finite cells of a column. *)
Definition finite_values (xs : list float) : list Q :=
  flat_map (fun x => match x with Fin a => [a] | _ => [] end) xs.

(** A column varies when two of its finite cells differ. *)
Definition varies (xs : list float) : bool :=
  match finite_values xs with
  | [] => false
  | a :: l => existsb (fun b => negb (Qeq_bool a b)) l
  end.

(** The sum of the squared deviations from the mean. *)
Definition sum_sq_dev (qs : list Q) : Q :=
  Qsum (map (fun a => (a - Qmean qs) * (a - Qmean qs)) qs).

(** What an ungrouped line, bar, scatter or area chart draws for the
    columns [x] and [y] with the colours [colors] of the palette, the
    first of which is [color]. *)
Definition ungrouped_calls (chart_type : string) (x y : Series)
           (color : Color) (colors : Colors) : list Call :=
  if String.eqb chart_type "line" then
    [ax_plot x y (Some "o") None (Some 2%Z) (Some color)]
  else if String.eqb chart_type "bar" then
    [ax_bar x y colors]
  else if String.eqb chart_type "scatter" then
    [ax_scatter x y None color (7 # 10)]
  else if String.eqb chart_type "area" then
    [ax_fill_between x y color (4 # 10); ax_plot x y None None (Some 2%Z) (Some color)]
  else [].

(** ** The two other reports of [data_analyzer.py] *)

(** [str(s.dtype)]. *)
Definition dtype_name (v : Values) : string :=
  match v with
  | Float64 _ => "float64"
  | Int64 _ => "int64"
  | Boolean _ => "bool"
  | Object _ => "object"
  end.

(** [s.count()]: the number of cells that are not missing. *)
Definition count_nonnull (v : Values) : nat :=
  count_true (map negb (isnull v)).

(** [str(data.shape)]. *)
Definition str_shape (sh : nat * nat) : string :=
  "(" ++ str_nat (fst sh) ++ ", " ++ str_nat (snd sh) ++ ")".

(** [data.select_dtypes(include=['object', 'category'])]; the tables of
    this model have no column of the [category] dtype. *)
Definition is_categorical (v : Values) : bool :=
  match v with
  | Object _ => true
  | Float64 _ | Int64 _ | Boolean _ => false
  end.

Definition select_dtypes_categorical (data : DataFrame) : DataFrame :=
  mkDataFrame (df_index data)
              (filter (fun s => is_categorical (s_values s)) (df_columns data)).

Section Descriptive.

(** [data.memory_usage(deep=True).sum()]: a number of bytes. *)
Variable memory_usage : DataFrame -> nat.

(** [numeric_data.describe().to_string()] of pandas. *)
Variable describe_to_string : DataFrame -> string.

(** [Series.value_counts()] and [Series.to_string()] of pandas. *)
Variable value_counts : Values -> list (Label * nat).
Variable counts_to_string : list (Label * nat) -> string.

(** The body of the loop over the columns, for a name [col] of
    [data.columns] that the table has once ([data[col]] is then a
    column). *)
Definition overview_line (data : DataFrame) (col : string) : string :=
  match get_column data col with
  | None => ""
  | Some s =>
      let dtype := dtype_name (s_values s) in
      let non_null := count_nonnull (s_values s) in
      let null_count := count_true (isnull (s_values s)) in
      "  " ++ col ++ ": " ++ dtype ++ " (非空值: " ++ str_nat non_null
        ++ ", 空值: " ++ str_nat null_count ++ ")" ++ nl
  end.

Definition get_data_overview (data : DataFrame) : string :=
  let overview := "=== 数据概览 ===" ++ nl ++ nl in
  let overview :=
    overview ++ "数据形状: " ++ str_shape (shape data)
      ++ " (行数: " ++ str_nat (fst (shape data))
      ++ ", 列数: " ++ str_nat (snd (shape data)) ++ ")" ++ nl ++ nl in
  let overview := overview ++ "列信息:" ++ nl in
  let overview :=
    overview ++ String.concat "" (map (overview_line data) (column_names data)) in
  overview ++ nl ++ "内存使用: "
    ++ Float.format_f 2 (Float.of_nat (memory_usage data) /f Float.of_Z (1024 ^ 2))
    ++ " MB" ++ nl.

(** The body of the loop over the categorical columns. *)
Definition category_entry (data : DataFrame) (col : string) : string :=
  match get_column data col with
  | None => ""
  | Some s =>
      let counts := value_counts (s_values s) in
      nl ++ col ++ ":" ++ nl
        ++ counts_to_string (firstn 10 counts)
        ++ (if (10 <? List.length counts)%nat
            then nl ++ "... 和其他 " ++ str_nat (List.length counts - 10) ++ " 个类别"
            else "")
  end.

Definition get_descriptive_statistics (data : DataFrame) : string :=
  let stats_text := "=== 描述性统计 ===" ++ nl ++ nl in
  let numeric_data := select_dtypes_number data in
  let stats_text :=
    if negb (empty numeric_data)
    then stats_text ++ "数值型变量统计:" ++ nl ++ describe_to_string numeric_data ++ nl ++ nl
    else stats_text in
  let categorical_data := select_dtypes_categorical data in
  if negb (empty categorical_data)
  then stats_text ++ "分类型变量统计:" ++ nl
         ++ String.concat "" (map (category_entry data) (column_names categorical_data))
         ++ nl
  else stats_text.

End Descriptive.

(** ** The shell: [gui_components.py]

    The class [DataVisualizationApp].  The widgets that the callbacks read
    and write are the fields of the state: the text of an entry or of a
    string variable, the offered values and the text of a combobox that
    the code refills, the content of a text area, the calls drawn on the
    axes of the figure.  The dialogs shown, the redraws and the files
    written are events, recorded in order.  The two file dialogs are
    outside: a callback that opens one takes the file name it returns
    (the empty string when the dialog is cancelled). *)

(** [s.endswith(suffix)]. *)
Definition endswith (s suffix : string) : bool :=
  (String.length suffix <=? String.length s)%nat
  && String.eqb (substring (String.length s - String.length suffix)
                           (String.length suffix) s) suffix.

(** [str(list(data.columns))]. *)
Definition str_list (names : list string) : string :=
  "[" ++ String.concat ", " (map repr_str names) ++ "]".

(** [data.head()]: the first five rows. *)
Definition head_values (v : Values) : Values :=
  match v with
  | Float64 xs => Float64 (firstn 5 xs)
  | Int64 xs => Int64 (firstn 5 xs)
  | Boolean xs => Boolean (firstn 5 xs)
  | Object xs => Object (firstn 5 xs)
  end.

Definition head_index (i : Index) : Index :=
  match i with
  | RangeIndex n => RangeIndex (Nat.min 5 n)
  | IntIndex l => IntIndex (firstn 5 l)
  | StrIndex l => StrIndex (firstn 5 l)
  end.

Definition head (data : DataFrame) : DataFrame :=
  mkDataFrame (head_index (df_index data))
    (map (fun s => mkSeries (s_name s) (head_values (s_values s))) (df_columns data)).

Module DataVisualizationApp.

(** A [ttk.Combobox]: the offered values and the current text. *)
Record Combobox : Type := mkCombobox { cb_values : list string; cb_get : string }.

(** [box.set(v)] and [box['values'] = values]. *)
Definition cb_set (v : string) (c : Combobox) : Combobox := mkCombobox (cb_values c) v.
Definition cb_configure (values : list string) (c : Combobox) : Combobox :=
  mkCombobox values (cb_get c).

(** What the user sees and what is written: the three dialogs of
    [messagebox], [root.update()], [canvas.draw()], [figure.savefig]
    with what is drawn at that time, and the three writers of pandas. *)
Inductive Event : Type :=
| showerror (title message : string)
| showwarning (title message : string)
| showinfo (title message : string)
| root_update
| canvas_draw
| savefig (drawn : Axes) (filename : string) (dpi : Z)
| to_excel (data : DataFrame) (filename : string)
| to_csv (data : DataFrame) (filename encoding : string)
| to_json (data : DataFrame) (filename orient : string) (indent : Z).

(** The attributes of the application.  [file_format], [delimiter],
    [encoding], [theme] and [color_palette] are the texts of those
    widgets, [chart_type] is the value of the string variable;
    [csv_frame] tells whether the frame of the CSV options is shown;
    [preview_text] and [analysis_text] are the contents of the two text
    areas; [figure] holds the calls made on the axes of the figure, none
    when it has just been cleared.  [events] is the record of the
    events. *)
Record App : Type := mkApp {
  current_data : option DataFrame;
  status_var : string;
  file_path_var : string;
  file_format : string;
  delimiter : string;
  encoding : string;
  csv_frame : bool;
  preview_text : string;
  analysis_text : string;
  chart_type : string;
  x_axis : Combobox;
  y_axis : Combobox;
  group_by : Combobox;
  theme : string;
  color_palette : string;
  figure : Axes;
  events : list Event
}.

(** The application as [__init__] leaves it. *)
Definition initial : App :=
  mkApp None "就绪" "" "自动检测" "," "utf-8" false "" "" "line"
        (mkCombobox [] "") (mkCombobox [] "") (mkCombobox [] "")
        "default" "viridis" [] [].

Definition set_current_data (d : DataFrame) (a : App) : App :=
  mkApp (Some d) (status_var a) (file_path_var a) (file_format a) (delimiter a)
        (encoding a) (csv_frame a) (preview_text a) (analysis_text a) (chart_type a)
        (x_axis a) (y_axis a) (group_by a) (theme a) (color_palette a) (figure a)
        (events a).

Definition set_status (s : string) (a : App) : App :=
  mkApp (current_data a) s (file_path_var a) (file_format a) (delimiter a)
        (encoding a) (csv_frame a) (preview_text a) (analysis_text a) (chart_type a)
        (x_axis a) (y_axis a) (group_by a) (theme a) (color_palette a) (figure a)
        (events a).

Definition set_file_path (s : string) (a : App) : App :=
  mkApp (current_data a) (status_var a) s (file_format a) (delimiter a)
        (encoding a) (csv_frame a) (preview_text a) (analysis_text a) (chart_type a)
        (x_axis a) (y_axis a) (group_by a) (theme a) (color_palette a) (figure a)
        (events a).

Definition set_csv_frame (shown : bool) (a : App) : App :=
  mkApp (current_data a) (status_var a) (file_path_var a) (file_format a) (delimiter a)
        (encoding a) shown (preview_text a) (analysis_text a) (chart_type a)
        (x_axis a) (y_axis a) (group_by a) (theme a) (color_palette a) (figure a)
        (events a).

Definition set_preview_text (s : string) (a : App) : App :=
  mkApp (current_data a) (status_var a) (file_path_var a) (file_format a) (delimiter a)
        (encoding a) (csv_frame a) s (analysis_text a) (chart_type a)
        (x_axis a) (y_axis a) (group_by a) (theme a) (color_palette a) (figure a)
        (events a).

Definition set_analysis_text (s : string) (a : App) : App :=
  mkApp (current_data a) (status_var a) (file_path_var a) (file_format a) (delimiter a)
        (encoding a) (csv_frame a) (preview_text a) s (chart_type a)
        (x_axis a) (y_axis a) (group_by a) (theme a) (color_palette a) (figure a)
        (events a).

Definition set_axes (x y g : Combobox) (a : App) : App :=
  mkApp (current_data a) (status_var a) (file_path_var a) (file_format a) (delimiter a)
        (encoding a) (csv_frame a) (preview_text a) (analysis_text a) (chart_type a)
        x y g (theme a) (color_palette a) (figure a) (events a).

Definition set_figure (drawn : Axes) (a : App) : App :=
  mkApp (current_data a) (status_var a) (file_path_var a) (file_format a) (delimiter a)
        (encoding a) (csv_frame a) (preview_text a) (analysis_text a) (chart_type a)
        (x_axis a) (y_axis a) (group_by a) (theme a) (color_palette a) drawn
        (events a).

Definition emit (e : Event) (a : App) : App :=
  mkApp (current_data a) (status_var a) (file_path_var a) (file_format a) (delimiter a)
        (encoding a) (csv_frame a) (preview_text a) (analysis_text a) (chart_type a)
        (x_axis a) (y_axis a) (group_by a) (theme a) (color_palette a) (figure a)
        (events a ++ [e])%list.

Section Shell.

(** The collaborators of the reporter and of the dispatcher. *)
Variable sqrt : Q -> Q.
Variable to_string : DataFrame -> string.
Variable entry_tail : DataFrame -> string -> string.
Variable memory_usage : DataFrame -> nat.
Variable describe_to_string : DataFrame -> string.
Variable value_counts : Values -> list (Label * nat).
Variable counts_to_string : list (Label * nat) -> string.
Variable pivot_table :
  DataFrame -> option string -> option string -> option string -> string
  -> PyExc + Pivot.
Variable sns_color_palette : string -> option nat -> PyExc + Colors.
Variable get_xticklabels : Axes -> list string.

(** [pd.read_excel(filename)] and [pd.read_csv(filename, delimiter=,
    encoding=)]: the table read, or the exception raised. *)
Variable read_excel : string -> PyExc + DataFrame.
Variable read_csv : string -> string -> string -> PyExc + DataFrame.

(** A JSON document; [json.load] on the file of that name,
    [isinstance(json_data, list)], the list [[json_data]] and
    [pd.DataFrame(json_data)]. *)
Variable Json : Type.
Variable json_load : string -> PyExc + Json.
Variable json_is_list : Json -> bool.
Variable json_list : list Json -> Json.
Variable frame_of_json : Json -> PyExc + DataFrame.

(** [sns.set_style(theme)]: the exception it raises, if any. *)
Variable sns_set_style : string -> option PyExc.

(** The exception, if any, that [figure.savefig], and that the writer of
    pandas chosen for the file name, raises. *)
Variable savefig_raises : Axes -> string -> option PyExc.
Variable write_raises : DataFrame -> string -> option PyExc.

Definition on_file_format_change (app : App) : App :=
  let format_type := file_format app in
  if String.eqb format_type "CSV"
  then set_csv_frame true app
  else set_csv_frame false app.

Definition update_data_preview (app : App) : App :=
  match current_data app with
  | Some data =>
      let preview_content := "数据形状: " ++ str_shape (shape data) ++ nl ++ nl in
      let preview_content :=
        preview_content ++ "列名: " ++ str_list (column_names data) ++ nl ++ nl in
      let preview_content := preview_content ++ "前5行数据:" ++ nl in
      let preview_content := preview_content ++ to_string (head data) in
      set_preview_text preview_content app
  | None => app
  end.

Definition update_axis_options (app : App) : App :=
  match current_data app with
  | Some data =>
      let columns := column_names data in
      let x := cb_configure columns (x_axis app) in
      let y := cb_configure columns (y_axis app) in
      let g := cb_configure ("" :: columns) (group_by app) in
      match columns with
      | [] => set_axes x y g app
      | c0 :: rest =>
          match rest with
          | c1 :: _ => set_axes (cb_set c0 x) (cb_set c1 y) g app
          | [] => set_axes (cb_set c0 x) y g app
          end
      end
  | None => app
  end.

(** The format that [load_data_file] goes by: the one chosen, or, when
    that is the automatic detection, the one the end of the file name
    stands for, if any. *)
Definition detect_format (file_format filename : string) : string :=
  if String.eqb file_format "自动检测" then
    if endswith filename ".xlsx" || endswith filename ".xls" then "Excel"
    else if endswith filename ".csv" then "CSV"
    else if endswith filename ".json" then "JSON"
    else file_format
  else file_format.

(** The reading: the table, the exception raised, or nothing for a
    format without a reader. *)
Definition read_file (app : App) (file_format filename : string)
  : option (PyExc + DataFrame) :=
  if String.eqb file_format "Excel" then Some (read_excel filename)
  else if String.eqb file_format "CSV" then
    let delimiter := if String.eqb (delimiter app) "" then "," else delimiter app in
    let encoding := encoding app in
    Some (read_csv filename delimiter encoding)
  else if String.eqb file_format "JSON" then
    Some (match json_load filename with
          | inl e => inl e
          | inr json_data =>
              if json_is_list json_data then frame_of_json json_data
              else frame_of_json (json_list [json_data])
          end)
  else None.

Definition load_data_file (filename : string) (app : App) : App :=
  if String.eqb filename "" then app
  else
    let app := set_status "正在加载数据..." app in
    let app := emit root_update app in
    let file_format := detect_format (file_format app) filename in
    match read_file app file_format filename with
    | None => emit (showerror "错误" ("不支持的文件格式: " ++ file_format)) app
    | Some (inl e) =>
        let app := emit (showerror "错误" ("加载文件失败: " ++ exc_str e)) app in
        set_status "数据加载失败" app
    | Some (inr data) =>
        let app := set_current_data data app in
        let app := set_file_path filename app in
        let app := update_data_preview app in
        let app := update_axis_options app in
        set_status ("数据加载成功: " ++ str_nat (len data) ++ " 行 × "
                      ++ str_nat (List.length (column_names data)) ++ " 列") app
    end.

(** The handler of [generate_chart]. *)
Definition chart_failed (e : PyExc) (app : App) : App :=
  let app := emit (showerror "错误" ("生成图表失败: " ++ exc_str e)) app in
  set_status "图表生成失败" app.

(** [generate_chart] for any implementation [create_chart] of
    [self.viz_engine.create_chart]. *)
Definition generate_chart_with
           (create_chart : DataFrame -> string -> option string -> option string
                           -> option string -> string -> Render unit)
           (app : App) : App :=
  match current_data app with
  | None => emit (showwarning "警告" "请先加载数据文件") app
  | Some data =>
      let app := set_status "正在生成图表..." app in
      let app := emit root_update app in
      let chart_type := chart_type app in
      let x_col := cb_get (x_axis app) in
      let y_col := cb_get (y_axis app) in
      let group_col :=
        if truthy (Some (cb_get (group_by app))) then Some (cb_get (group_by app))
        else None in
      let theme := theme app in
      let palette := color_palette app in
      match (if String.eqb theme "default" then None else sns_set_style theme) with
      | Some e => chart_failed e app
      | None =>
          let app := set_figure [] app in
          match create_chart data chart_type (Some x_col) (Some y_col) group_col palette
                  (figure app) with
          | (ax, Raise e) => chart_failed e (set_figure ax app)
          | (ax, Return _) =>
              let app := set_figure ax app in
              let app := emit canvas_draw app in
              set_status "图表生成完成" app
          end
      end
  end.

(** [generate_chart] with the dispatcher above. *)
Definition generate_chart (app : App) : App :=
  generate_chart_with
    (VisualizationEngine.create_chart sqrt pivot_table value_counts sns_color_palette
       get_xticklabels)
    app.

Definition display_analysis_result (result : string) (app : App) : App :=
  set_analysis_text result app.

(** The five callbacks of the analysis tab: a warning without a table,
    the report of the analyzer in the text area otherwise. *)
Definition show_report (report : DataFrame -> string) (app : App) : App :=
  match current_data app with
  | None => emit (showwarning "警告" "请先加载数据文件") app
  | Some data => display_analysis_result (report data) app
  end.

Definition show_data_overview : App -> App :=
  show_report (get_data_overview memory_usage).

Definition show_descriptive_stats : App -> App :=
  show_report (get_descriptive_statistics describe_to_string value_counts counts_to_string).

Definition analyze_correlations : App -> App :=
  show_report (DataAnalyzer.analyze_correlations sqrt to_string).

Definition analyze_missing_values : App -> App :=
  show_report (DataAnalyzer.analyze_missing_values to_string).

Definition detect_outliers : App -> App :=
  show_report (DataAnalyzer.detect_outliers entry_tail).

(** The three callbacks that only announce themselves. *)
Definition announce (message : string) (app : App) : App :=
  match current_data app with
  | None => emit (showwarning "警告" "请先加载数据文件") app
  | Some _ => emit (showinfo "信息" message) app
  end.

Definition clean_data : App -> App := announce "数据清洗功能开发中...".
Definition transform_data : App -> App := announce "数据转换功能开发中...".
Definition generate_report : App -> App := announce "分析报告生成功能开发中...".

Definition export_chart (filename : string) (app : App) : App :=
  match current_data app with
  | None => emit (showwarning "警告" "请先加载数据文件") app
  | Some _ =>
      if String.eqb filename "" then app
      else
        match savefig_raises (figure app) filename with
        | Some e => emit (showerror "错误" ("导出失败: " ++ exc_str e)) app
        | None =>
            let app := emit (savefig (figure app) filename 300) app in
            let app := emit (showinfo "成功" ("图表已导出到: " ++ filename)) app in
            set_status "图表导出完成" app
        end
  end.

(** The writer that [export_data] picks by the end of the file name. *)
Definition data_writer (data : DataFrame) (filename : string) : option Event :=
  if endswith filename ".xlsx" then Some (to_excel data filename)
  else if endswith filename ".csv" then Some (to_csv data filename "utf-8-sig")
  else if endswith filename ".json" then Some (to_json data filename "records" 2)
  else None.

Definition data_exported (filename : string) (app : App) : App :=
  let app := emit (showinfo "成功" ("数据已导出到: " ++ filename)) app in
  set_status "数据导出完成" app.

Definition export_data (filename : string) (app : App) : App :=
  match current_data app with
  | None => emit (showwarning "警告" "请先加载数据文件") app
  | Some data =>
      if String.eqb filename "" then app
      else
        match data_writer data filename with
        | None => data_exported filename app
        | Some written =>
            match write_raises data filename with
            | Some e => emit (showerror "错误" ("导出失败: " ++ exc_str e)) app
            | None => data_exported filename (emit written app)
            end
        end
  end.

End Shell.
End DataVisualizationApp.
(** ** The collaborators of the shell, for the examples *)

(** Eight bytes a cell. *)
Definition cells_memory_usage (data : DataFrame) : nat :=
  (8 * (len data * List.length (df_columns data)))%nat.

(** The keys of the counted values, one a line. *)
Definition keys_to_string (counts : list (Label * nat)) : string :=
  String.concat nl (map (fun kn => match fst kn with
                                   | LStr s => s
                                   | LInt z => str_Z z
                                   | LBool b => if b then "True" else "False"
                                   | LFloat x => Float.format_f 1 x
                                   end) counts).

(** A file system with one file, which holds [table_xy] as delimited
    text; there is no spreadsheet and no JSON document. *)
Definition FileNotFoundError (filename : string) : PyExc :=
  mkExc "FileNotFoundError"
        ("[Errno 2] No such file or directory: " ++ repr_str filename).

Definition one_read_excel (filename : string) : PyExc + DataFrame :=
  inl (FileNotFoundError filename).

Definition one_read_csv (filename delimiter encoding : string) : PyExc + DataFrame :=
  if String.eqb filename "xy.csv" then inr table_xy
  else inl (FileNotFoundError filename).

Definition one_json_load (filename : string) : PyExc + unit :=
  inl (FileNotFoundError filename).

Definition one_frame_of_json (json_data : unit) : PyExc + DataFrame :=
  inr (mkDataFrame (RangeIndex 0) []).

(** Every theme is accepted, every file can be written. *)
Definition any_style (theme : string) : option PyExc := None.
Definition savefig_succeeds (drawn : Axes) (filename : string) : option PyExc := None.

(** The application with [table_xy] loaded from [xy.csv]. *)
Definition app_xy : DataVisualizationApp.App :=
  DataVisualizationApp.load_data_file names_to_string one_read_excel one_read_csv
    unit one_json_load (fun _ => true) (fun _ => tt) one_frame_of_json
    "xy.csv" DataVisualizationApp.initial.

(** A table of one text column with eleven different values. *)
Definition table_letters : DataFrame :=
  mkDataFrame (RangeIndex 12)
    [ mkSeries "letter"
        (Object [Some "a"; Some "b"; Some "c"; Some "d"; Some "e"; Some "f"; Some "g";
                 Some "h"; Some "i"; Some "j"; Some "k"; Some "a"]) ].

(** ** Helpers of the statements *)

(** A square frame of floats with the given column names: what
    [DataFrame.corr] returns for columns of these names. *)
Definition correlation_frame (names : list string) (m : DataFrame) : Prop :=
  column_names m = names
  /\ Forall (fun s => exists xs, s_values s = Float64 xs
                                  /\ List.length xs = List.length names)
            (df_columns m).

(** The correlation matrix of two columns [a] and [b] with the
    coefficient [r]. *)
Definition matrix_ab (r : float) : DataFrame :=
  mkDataFrame (StrIndex ["a"; "b"])
    [ mkSeries "a" (Float64 [Fin 1; r]); mkSeries "b" (Float64 [r; Fin 1]) ].


(** The rows of the column [s] in the group of the key [k] of the
    column with the cells [grouping]. *)
Definition group_rows (grouping : Values) (k : Label) (s : Series) : Series :=
  mkSeries (s_name s) (select_values (map (key_is k) (keys_of grouping)) (s_values s)).

(** The calls of [set_chart_labels] before it looks at the tick labels. *)
Definition label_calls (chart_type : string) (x_col y_col : option string) : list Call :=
  ((if truthy x_col then [ax_set_xlabel (or_empty x_col) 12] else [])
   ++ (if truthy y_col then [ax_set_ylabel (or_empty y_col) (Some 12%Z)] else [])
   ++ [ ax_set_title (dict_get chart_names chart_type "图表") 14 "bold";
        ax_grid true (3 # 10); ax_tick_params "both" "major" 10 ])%list.

(** * Properties *)

(** ** Strings, lists and numbers *)

Lemma append_assoc (a b c : string) : (a ++ b) ++ c = a ++ (b ++ c).
Proof.
  induction a as [|ch a IH]; simpl; [reflexivity | now rewrite IH].
Qed.

Lemma Qmult_comm_eq (x y : Q) : Qmult x y = Qmult y x.
Proof.
  unfold Qmult. now rewrite Z.mul_comm, Pos.mul_comm.
Qed.

Example format_f_examples :
  Float.format_f 3 (Fin (-(5 # 2))) = "-2.500"
  /\ Float.format_f 3 (Fin (1 # 3)) = "0.333"
  /\ Float.format_f 2 (Fin (1 # 8)) = "0.12"
  /\ Float.format_f 2 (Float.of_Z 0 /f Float.of_Z 0) = "nan"
  /\ Float.format_f 3 (Fin (-(1 # 10000))) = "-0.000".
Proof. repeat split; reflexivity. Qed.

Example repr_str_examples :
  repr_str "name" = "'name'"
  /\ repr_str "" = "''"
  /\ repr_str "it's" = String "034" ("it's" ++ String "034" "")
  /\ repr_str "折线图" = "'折线图'".
Proof. repeat split; reflexivity. Qed.

Example py_len_counts_code_points :
  py_len "折线图" = 3%nat /\ String.length "折线图" = 9%nat.
Proof. split; reflexivity. Qed.

Example quantile_examples :
  Float.eq (quantile (Int64 [1; 2; 3; 4; 100]%Z) (1 # 4)) (Fin 2)
  /\ Float.eq (quantile (Int64 [1; 2; 3; 4; 100]%Z) (3 # 4)) (Fin 4)
  /\ Float.eq (quantile (Float64 [Fin 4; NaN; Fin 1; Fin 3; Fin 2]) (1 # 4)) (Fin (7 # 4))
  /\ quantile (Float64 [NaN; NaN]) (1 # 4) = NaN.
Proof. split; [|split; [|split]]; vm_compute; reflexivity. Qed.

Lemma round_half_even_spec (q : Q) :
  Qabs (inject_Z (round_half_even q) - q) <= 1 # 2.
Proof.
  unfold round_half_even.
  pose proof (Qfloor_le q) as Hlo. pose proof (Qlt_floor q) as Hhi.
  rewrite inject_Z_plus in Hhi. change (inject_Z 1) with 1 in Hhi.
  apply Qabs_Qle_condition.
  destruct (Qcompare_spec (q - inject_Z (Qfloor q)) (1 # 2)) as [E | L | G].
  - destruct (Z.even (Qfloor q)).
    + split; lra.
    + rewrite inject_Z_plus. change (inject_Z 1) with 1. split; lra.
  - split; lra.
  - rewrite inject_Z_plus. change (inject_Z 1) with 1. split; lra.
Qed.

Lemma round_half_even_nonneg (q : Q) : 0 <= q -> (0 <= round_half_even q)%Z.
Proof.
  intros Hq. unfold round_half_even.
  assert (H0 : (0 <= Qfloor q)%Z).
  { change 0%Z with (Qfloor 0). now apply Qfloor_resp_le. }
  destruct (Qcompare (q - inject_Z (Qfloor q)) (1 # 2)); [destruct (Z.even _)| |]; lia.
Qed.

(** ** Rounding to binary64 *)

Lemma pow2_pos (k : Z) : 0 < pow2 k.
Proof. apply Qpower_0_lt. reflexivity. Qed.

Lemma pow2_add (a b : Z) : pow2 (a + b) == pow2 a * pow2 b.
Proof. apply Qpower_plus. discriminate. Qed.

Lemma pow2_le (a b : Z) : (a <= b)%Z -> pow2 a <= pow2 b.
Proof. intros H. apply Qpower_le_compat_l; [exact H | discriminate]. Qed.

Lemma pow2_lt (a b : Z) : (a < b)%Z -> pow2 a < pow2 b.
Proof. intros H. apply Qpower_lt_compat_l; [exact H | reflexivity]. Qed.

Lemma pow2_le_inv (a b : Z) : pow2 a <= pow2 b -> (a <= b)%Z.
Proof. intros H. apply (Qpower_le_compat_l_inv 2); [exact H | reflexivity]. Qed.

Lemma pow2_lt_inv (a b : Z) : pow2 a < pow2 b -> (a < b)%Z.
Proof. intros H. apply (Qpower_lt_compat_l_inv 2); [exact H | reflexivity]. Qed.

Lemma pow2_inject (k : Z) : (0 <= k)%Z -> pow2 k == inject_Z (2 ^ k).
Proof. intros H. unfold pow2. now rewrite Zpower_Qpower. Qed.

Lemma pow2_cancel (k : Z) : pow2 (- k) * pow2 k == 1.
Proof. rewrite <- pow2_add. now replace (- k + k)%Z with 0%Z by lia. Qed.

Lemma pow2_succ (k : Z) : pow2 (k + 1) == 2 * pow2 k.
Proof. rewrite pow2_add. change (pow2 1) with 2. ring. Qed.

Lemma pow2_half (k : Z) : pow2 (k - 1) == pow2 k * (1 # 2).
Proof.
  unfold Z.sub. rewrite pow2_add. change (pow2 (-1)) with (1 # 2). reflexivity.
Qed.

(** The bounds of [Z.log2] as rationals. *)
Lemma log2_bounds (n : Z) :
  (0 < n)%Z -> pow2 (Z.log2 n) <= inject_Z n < pow2 (Z.log2 n + 1).
Proof.
  intros Hn. destruct (Z.log2_spec n Hn) as [Hlo Hhi].
  pose proof (Z.log2_nonneg n) as H0.
  rewrite !pow2_inject by lia. unfold Z.succ in Hhi.
  split; [now rewrite <- Zle_Qle | now rewrite <- Zlt_Qlt].
Qed.

Lemma Qabs_fraction (q : Q) :
  Qabs q * inject_Z (Z.pos (Qden q)) == inject_Z (Z.abs (Qnum q)).
Proof.
  destruct q as [n d]. unfold Qabs, Qeq, Qmult, inject_Z. cbn [Qnum Qden]. lia.
Qed.

Lemma binade_spec (q : Q) :
  ~ q == 0 -> pow2 (binade q) <= Qabs q < pow2 (binade q + 1).
Proof.
  intros Hq. unfold binade.
  set (n := Z.abs (Qnum q)). set (d := Z.pos (Qden q)).
  assert (Hn : (0 < n)%Z).
  { unfold n. destruct q as [a b]. unfold Qeq in Hq. cbn [Qnum Qden] in *. lia. }
  assert (Hd : (0 < d)%Z) by (unfold d; lia).
  destruct (log2_bounds n Hn) as [Hn1 Hn2]. destruct (log2_bounds d Hd) as [Hd1 Hd2].
  pose proof (Qabs_fraction q) as E. fold n d in E.
  set (ln := Z.log2 n) in *. set (ld := Z.log2 d) in *.
  assert (Hdq : 0 < inject_Z d) by (change 0 with (inject_Z 0); now rewrite <- Zlt_Qlt).
  pose proof (pow2_pos ld) as Pld. pose proof (pow2_pos (ln - ld)) as Pe.
  pose proof (pow2_pos (ln - ld - 1)) as Pe1.
  assert (E1 : pow2 (ln + 1) == pow2 (ln - ld + 1) * pow2 ld).
  { rewrite <- pow2_add. now replace (ln - ld + 1 + ld)%Z with (ln + 1)%Z by lia. }
  assert (E2 : pow2 ln == pow2 (ln - ld - 1) * pow2 (ld + 1)).
  { rewrite <- pow2_add. now replace (ln - ld - 1 + (ld + 1))%Z with ln by lia. }
  pose proof (Qabs_nonneg q) as Habs.
  assert (Hup : Qabs q < pow2 (ln - ld + 1)).
  { destruct (Qlt_le_dec (Qabs q) (pow2 (ln - ld + 1))) as [H | H]; [exact H|].
    exfalso. pose proof (pow2_pos (ln - ld + 1)). nra. }
  assert (Hlow : pow2 (ln - ld - 1) <= Qabs q).
  { destruct (Qlt_le_dec (Qabs q) (pow2 (ln - ld - 1))) as [H | H]; [|exact H].
    exfalso. nra. }
  destruct (Qle_bool (pow2 (ln - ld)) (Qabs q)) eqn:T.
  - apply Qle_bool_iff in T. split; assumption.
  - replace (ln - ld - 1 + 1)%Z with (ln - ld)%Z by lia. split; [exact Hlow|].
    destruct (Qlt_le_dec (Qabs q) (pow2 (ln - ld))) as [H | H]; [exact H|].
    apply Qle_bool_iff in H. congruence.
Qed.

Lemma binade_unique (x : Q) (e e' : Z) :
  pow2 e <= x < pow2 (e + 1) -> pow2 e' <= x < pow2 (e' + 1) -> e = e'.
Proof.
  intros [H1 H2] [H3 H4].
  assert (A : (e < e' + 1)%Z) by (apply pow2_lt_inv; lra).
  assert (B : (e' < e + 1)%Z) by (apply pow2_lt_inv; lra).
  lia.
Qed.

Lemma binade_proper (p q : Q) : ~ p == 0 -> p == q -> binade p = binade q.
Proof.
  intros Hp E. assert (Hq : ~ q == 0) by now rewrite <- E.
  pose proof (binade_spec p Hp) as Sp. pose proof (binade_spec q Hq) as Sq.
  pose proof (Qabs_wd p q E) as Ea.
  apply (binade_unique (Qabs q)); [split; lra | exact Sq].
Qed.

Lemma binade_le (q : Q) (E : Z) : ~ q == 0 -> Qabs q <= pow2 E -> (binade q <= E)%Z.
Proof.
  intros Hq H. destruct (binade_spec q Hq) as [H1 _]. apply pow2_le_inv. lra.
Qed.

Lemma binade_ge (q : Q) (E : Z) : ~ q == 0 -> pow2 E <= Qabs q -> (E <= binade q)%Z.
Proof.
  intros Hq H. destruct (binade_spec q Hq) as [_ H2].
  assert (A : (E < binade q + 1)%Z) by (apply pow2_lt_inv; lra). lia.
Qed.

Lemma round_half_even_proper (p q : Q) :
  p == q -> round_half_even p = round_half_even q.
Proof.
  intros E. unfold round_half_even. cbv zeta.
  rewrite (Qfloor_comp p q E).
  assert (Ec : p - inject_Z (Qfloor q) == q - inject_Z (Qfloor q)) by now rewrite E.
  now rewrite Ec.
Qed.

Lemma round_half_even_Z (z : Z) : round_half_even (inject_Z z) = z.
Proof.
  unfold round_half_even. rewrite Qfloor_Z.
  replace (Qcompare (inject_Z z - inject_Z z) (1 # 2)) with Lt; [reflexivity|].
  symmetry. apply Qlt_alt. unfold Qminus. rewrite Qplus_opp_r. reflexivity.
Qed.

Lemma round_half_even_mono (p q : Q) :
  p <= q -> (round_half_even p <= round_half_even q)%Z.
Proof.
  intros H. pose proof (Qfloor_resp_le p q H) as Hf.
  pose proof (Qfloor_le p) as Hp. pose proof (Qlt_floor q) as Hq.
  unfold round_half_even. cbv zeta.
  destruct (Z.eq_dec (Qfloor p) (Qfloor q)) as [E | N].
  - rewrite E.
    destruct (Qcompare_spec (p - inject_Z (Qfloor q)) (1 # 2)) as [A | A | A];
      destruct (Qcompare_spec (q - inject_Z (Qfloor q)) (1 # 2)) as [B | B | B];
      try destruct (Z.even (Qfloor q)); try lia; exfalso; lra.
  - assert (Hlt : (Qfloor p + 1 <= Qfloor q)%Z) by lia.
    destruct (Qcompare (p - inject_Z (Qfloor p)) (1 # 2));
      destruct (Qcompare (q - inject_Z (Qfloor q)) (1 # 2));
      try destruct (Z.even (Qfloor p)); try destruct (Z.even (Qfloor q)); lia.
Qed.

Lemma round64_nonzero (q : Q) :
  ~ q == 0 ->
  round64 q = if Qle_bool (pow2 1024) (Qabs (rounded64 q))
              then Inf (Qltb (rounded64 q) 0) else Fin (Qred (rounded64 q)).
Proof.
  intros Hq. unfold round64.
  destruct (Qeq_bool q 0) eqn:E; [apply Qeq_bool_eq in E; contradiction | reflexivity].
Qed.

Lemma round64_zero (q : Q) : q == 0 -> round64 q = Fin 0.
Proof. intros H. unfold round64. apply Qeq_bool_iff in H. now rewrite H. Qed.

Lemma round64_not_nan (q : Q) : round64 q <> NaN.
Proof.
  unfold round64. destruct (Qeq_bool q 0); [discriminate|].
  cbv zeta. destruct (Qle_bool _ _); discriminate.
Qed.

Lemma Qle_bool_proper (a b c d : Q) : a == c -> b == d -> Qle_bool a b = Qle_bool c d.
Proof.
  intros E1 E2. destruct (Qle_bool a b) eqn:H1, (Qle_bool c d) eqn:H2; try reflexivity.
  - apply Qle_bool_iff in H1. rewrite E1, E2 in H1. apply Qle_bool_iff in H1. congruence.
  - apply Qle_bool_iff in H2. rewrite <- E1, <- E2 in H2. apply Qle_bool_iff in H2.
    congruence.
Qed.

Lemma rounded64_proper (p q : Q) : ~ p == 0 -> p == q -> rounded64 p = rounded64 q.
Proof.
  intros Hp E. unfold rounded64, exponent64. rewrite (binade_proper p q Hp E).
  f_equal. f_equal. apply round_half_even_proper. now rewrite E.
Qed.


(** The rounding error is at most half a unit in the last place. *)
Lemma rounded64_error (q : Q) :
  Qabs (rounded64 q - q) <= pow2 (exponent64 q - 1).
Proof.
  unfold rounded64. set (k := exponent64 q).
  pose proof (round_half_even_spec (q * pow2 (- k))) as H.
  apply Qabs_Qle_condition in H. apply Qabs_Qle_condition.
  pose proof (pow2_pos k) as HP. pose proof (pow2_cancel k) as HC.
  rewrite pow2_half.
  set (n := inject_Z (round_half_even (q * pow2 (- k)))) in *.
  set (P := pow2 k) in *. set (M := pow2 (- k)) in *.
  assert (Hq : q == q * M * P) by (rewrite <- Qmult_assoc, HC; ring).
  split; nra.
Qed.

Lemma round64_error (q : Q) (E : Z) :
  (-1022 <= E <= 1023)%Z -> Qabs q <= pow2 E ->
  exists r, round64 q = Fin r /\ Qabs (r - q) <= pow2 (E - 53).
Proof.
  intros HE Hq. destruct (Qeq_dec q 0) as [Z | N].
  - exists 0. split; [now apply round64_zero|].
    rewrite Z. pose proof (pow2_pos (E - 53)). change (0 - 0) with 0.
    change (Qabs 0) with 0. lra.
  - pose proof (binade_le q E N Hq) as He.
    pose proof (rounded64_error q) as Herr.
    assert (Hk : pow2 (exponent64 q - 1) <= pow2 (E - 53))
      by (apply pow2_le; unfold exponent64; lia).
    assert (Hsmall : Qabs (rounded64 q) < pow2 1024).
    { assert (H1 : pow2 (E - 53) < pow2 E) by (apply pow2_lt; lia).
      assert (H2 : pow2 (E + 1) <= pow2 1024) by (apply pow2_le; lia).
      rewrite pow2_succ in H2.
      pose proof (Qabs_triangle (rounded64 q - q) q) as T.
      assert (Es : rounded64 q - q + q == rounded64 q) by ring.
      rewrite Es in T. pose proof (pow2_pos (E - 53)). lra. }
    exists (Qred (rounded64 q)). rewrite (round64_nonzero q N).
    destruct (Qle_bool (pow2 1024) (Qabs (rounded64 q))) eqn:T.
    + apply Qle_bool_iff in T. lra.
    + split; [reflexivity|]. rewrite Qred_correct. lra.
Qed.

Lemma rounded64_nonneg (q : Q) : 0 <= q -> 0 <= rounded64 q.
Proof.
  intros Hq. unfold rounded64. set (k := exponent64 q).
  pose proof (pow2_pos k) as HP. pose proof (pow2_pos (- k)) as HM.
  assert (Hn : (0 <= round_half_even (q * pow2 (- k)))%Z)
    by (apply round_half_even_nonneg; nra).
  apply Qmult_le_0_compat; [|lra].
  change 0 with (inject_Z 0). now rewrite <- Zle_Qle.
Qed.

(** The rounded number stays in the closed binade of the number. *)
Lemma rounded64_upper (q : Q) :
  0 < q -> rounded64 q <= pow2 (exponent64 q + 53).
Proof.
  intros Hq. assert (N : ~ q == 0) by (intros E; rewrite E in Hq; now apply Qlt_irrefl in Hq).
  destruct (binade_spec q N) as [_ Hup]. rewrite (Qabs_pos q) in Hup by lra.
  unfold rounded64. set (k := exponent64 q).
  assert (Hk : (binade q + 1 <= k + 53)%Z) by (unfold k, exponent64; lia).
  pose proof (pow2_le _ _ Hk) as Hle.
  assert (Hx : q * pow2 (- k) <= inject_Z (2 ^ 53)).
  { rewrite <- pow2_inject by lia.
    assert (E : pow2 53 == pow2 (k + 53) * pow2 (- k)).
    { rewrite <- pow2_add. now replace (k + 53 + - k)%Z with 53%Z by lia. }
    rewrite E. pose proof (pow2_pos (- k)). nra. }
  apply round_half_even_mono in Hx. rewrite round_half_even_Z in Hx.
  rewrite pow2_add.
  rewrite Zle_Qle in Hx. rewrite <- pow2_inject in Hx by lia.
  pose proof (pow2_pos k). nra.
Qed.

Lemma rounded64_lower (q : Q) :
  0 < q -> (-1022 <= binade q)%Z -> pow2 (binade q) <= rounded64 q.
Proof.
  intros Hq He.
  assert (N : ~ q == 0) by (intros E; rewrite E in Hq; now apply Qlt_irrefl in Hq).
  destruct (binade_spec q N) as [Hlo _]. rewrite (Qabs_pos q) in Hlo by lra.
  unfold rounded64. set (k := exponent64 q).
  assert (Ek : (binade q = k + 52)%Z) by (unfold k, exponent64; lia).
  assert (Hx : inject_Z (2 ^ 52) <= q * pow2 (- k)).
  { rewrite <- pow2_inject by lia.
    assert (E : pow2 52 == pow2 (k + 52) * pow2 (- k)).
    { rewrite <- pow2_add. now replace (k + 52 + - k)%Z with 52%Z by lia. }
    rewrite E, <- Ek. pose proof (pow2_pos (- k)). nra. }
  apply round_half_even_mono in Hx. rewrite round_half_even_Z in Hx.
  rewrite Ek, pow2_add.
  rewrite Zle_Qle in Hx. rewrite <- pow2_inject in Hx by lia.
  pose proof (pow2_pos k). nra.
Qed.

Lemma binade_mono (x y : Q) : 0 < x -> x <= y -> (binade x <= binade y)%Z.
Proof.
  intros Hx Hxy.
  assert (Nx : ~ x == 0) by (intros E; rewrite E in Hx; now apply Qlt_irrefl in Hx).
  assert (Ny : ~ y == 0) by (intros E; rewrite E in Hxy; lra).
  destruct (binade_spec x Nx) as [H1 _]. destruct (binade_spec y Ny) as [_ H2].
  rewrite Qabs_pos in H1, H2 by lra.
  assert (A : (binade x < binade y + 1)%Z) by (apply pow2_lt_inv; lra). lia.
Qed.

Lemma rounded64_mono (x y : Q) : 0 < x -> x <= y -> rounded64 x <= rounded64 y.
Proof.
  intros Hx Hxy. assert (Hy : 0 < y) by lra.
  pose proof (binade_mono x y Hx Hxy) as He.
  destruct (Z.eq_dec (exponent64 x) (exponent64 y)) as [E | N].
  - unfold rounded64. rewrite E. set (k := exponent64 y).
    pose proof (pow2_pos k) as HP. pose proof (pow2_pos (- k)) as HM.
    assert (Hn : (round_half_even (x * pow2 (- k)) <= round_half_even (y * pow2 (- k)))%Z)
      by (apply round_half_even_mono; nra).
    rewrite Zle_Qle in Hn. nra.
  - assert (Hn : (-1022 <= binade y)%Z /\ (exponent64 x + 53 <= binade y)%Z)
      by (unfold exponent64 in *; lia).
    destruct Hn as [Hn1 Hn2].
    pose proof (rounded64_upper x Hx) as Hu. pose proof (rounded64_lower y Hy Hn1) as Hl.
    pose proof (pow2_le _ _ Hn2). lra.
Qed.

(** A number with a significand of 53 bits and an exponent in the range
    is kept by the rounding. *)
Lemma rounded64_exact (z j : Z) :
  (Z.abs z <= 2 ^ 53)%Z -> (-1074 <= j)%Z ->
  rounded64 (inject_Z z * pow2 j) == inject_Z z * pow2 j.
Proof.
  intros Hz Hj. set (q := inject_Z z * pow2 j).
  destruct (Z.eq_dec z 0) as [Z0 | Nz].
  { unfold q. subst z. unfold rounded64.
    rewrite (round_half_even_proper _ (inject_Z 0)) by ring.
    rewrite round_half_even_Z. ring. }
  assert (N : ~ q == 0).
  { unfold q. intros E. pose proof (pow2_pos j) as HP.
    assert (Ez : inject_Z z == 0) by nra.
    apply (inject_Z_injective z 0) in Ez. contradiction. }
  assert (Habs : Qabs q == inject_Z (Z.abs z) * pow2 j).
  { unfold q. rewrite Qabs_Qmult, (Qabs_pos (pow2 j)) by (pose proof (pow2_pos j); lra).
    reflexivity. }
  assert (Hle : Qabs q <= pow2 (53 + j)).
  { rewrite Habs, pow2_add, (pow2_inject 53) by lia. rewrite Zle_Qle in Hz.
    pose proof (pow2_pos j). nra. }
  pose proof (binade_le q (53 + j) N Hle) as He.
  set (k := exponent64 q).
  assert (Hw : exists w, q * pow2 (- k) == inject_Z w).
  { destruct (Z_le_gt_dec k j) as [Hkj | Hkj].
    - exists (z * 2 ^ (j - k))%Z. rewrite inject_Z_mult, <- pow2_inject by lia.
      unfold q. rewrite <- Qmult_assoc, <- pow2_add.
      now replace (j + - k)%Z with (j - k)%Z by lia.
    - assert (Ek : (binade q = j + 53)%Z) by (unfold k, exponent64 in *; lia).
      assert (Ek' : (k = j + 1)%Z) by (unfold k, exponent64 in *; lia).
      destruct (binade_spec q N) as [Hlo _]. rewrite Ek, Habs, pow2_add in Hlo.
      rewrite (Qmult_comm (pow2 j)), (pow2_inject 53) in Hlo by lia.
      assert (Hz' : (2 ^ 53 <= Z.abs z)%Z).
      { rewrite Zle_Qle. pose proof (pow2_pos j). nra. }
      exists (z / 2)%Z. unfold q. rewrite Ek'.
      rewrite <- Qmult_assoc, <- pow2_add. replace (j + - (j + 1))%Z with (-1)%Z by lia.
      change (pow2 (-1)) with (1 # 2).
      assert (Ez : (z = 2 * (z / 2))%Z).
      { assert (Hc : (z = 2 ^ 53 \/ z = - 2 ^ 53)%Z) by lia.
        destruct Hc as [-> | ->]; reflexivity. }
      rewrite Ez at 1. rewrite inject_Z_mult. change (inject_Z 2) with 2. field. }
  destruct Hw as [w Ew]. unfold rounded64. fold k.
  rewrite (round_half_even_proper _ _ Ew), round_half_even_Z, <- Ew.
  rewrite <- Qmult_assoc, pow2_cancel. ring.
Qed.

Lemma Qred_inject (z : Z) : Qred (inject_Z z) = inject_Z z.
Proof.
  unfold Qred, inject_Z.
  pose proof (Z.ggcd_gcd z 1) as Hg. pose proof (Z.ggcd_correct_divisors z 1) as Hd.
  destruct (Z.ggcd z 1) as [g [n d]]. cbn [fst snd] in *.
  rewrite Z.gcd_1_r in Hg. subst g. destruct Hd as [H1 H2].
  replace n with z by lia. replace d with 1%Z by lia. reflexivity.
Qed.

Lemma round64_int (z : Z) : (Z.abs z <= 2 ^ 53)%Z -> round64 (inject_Z z) = Fin (inject_Z z).
Proof.
  intros Hz. destruct (Z.eq_dec z 0) as [-> | Nz]; [reflexivity|].
  assert (N : ~ inject_Z z == 0).
  { intros E. apply (inject_Z_injective z 0) in E. contradiction. }
  assert (Eq : inject_Z z == inject_Z z * pow2 0) by (change (pow2 0) with 1; ring).
  assert (Er : rounded64 (inject_Z z) == inject_Z z).
  { rewrite (rounded64_proper _ _ N Eq). rewrite rounded64_exact by lia.
    now rewrite <- Eq. }
  rewrite (round64_nonzero _ N).
  assert (Hsmall : Qabs (inject_Z z) < pow2 1024).
  { change (Qabs (inject_Z z)) with (inject_Z (Z.abs z)).
    rewrite pow2_inject by lia. rewrite <- Zlt_Qlt.
    apply Z.le_lt_trans with (1 := Hz). reflexivity. }
  rewrite (Qle_bool_proper _ _ (pow2 1024) (Qabs (inject_Z z))); [|reflexivity|now rewrite Er].
  destruct (Qle_bool (pow2 1024) (Qabs (inject_Z z))) eqn:T.
  - apply Qle_bool_iff in T. lra.
  - f_equal. rewrite (Qred_complete _ _ Er). apply Qred_inject.
Qed.

Lemma Fin_injective (a b : Q) : Fin a = Fin b -> a = b.
Proof. intros H. now injection H. Qed.

(** A number between zero and a binary64 number is rounded between
    them. *)
Lemma round64_below (q b : Q) :
  0 <= q <= b -> round64 b = Fin b ->
  exists r, round64 q = Fin r /\ 0 <= r <= b.
Proof.
  intros [H0 Hb] Eb. destruct (Qeq_dec q 0) as [Z | N].
  - exists 0. split; [now apply round64_zero | lra].
  - assert (Hq : 0 < q).
    { destruct (Qlt_le_dec 0 q) as [H | H]; [exact H|]. exfalso. apply N. lra. }
    assert (Nb : ~ b == 0) by (intros E; lra).
    rewrite (round64_nonzero b Nb) in Eb.
    destruct (Qle_bool (pow2 1024) (Qabs (rounded64 b))) eqn:Tb; [discriminate|].
    apply Fin_injective in Eb.
    assert (Rb : rounded64 b == b).
    { rewrite <- (Qred_correct (rounded64 b)), Eb. reflexivity. }
    pose proof (rounded64_mono q b Hq Hb) as Hm.
    pose proof (rounded64_nonneg q H0) as Hn.
    exists (Qred (rounded64 q)). rewrite (round64_nonzero q N).
    destruct (Qle_bool (pow2 1024) (Qabs (rounded64 q))) eqn:Tq.
    + exfalso. apply Qle_bool_iff in Tq. rewrite Qabs_pos in Tq by exact Hn.
      assert (Tb' : Qle_bool (pow2 1024) (Qabs (rounded64 b)) = true).
      { apply Qle_bool_iff. rewrite Qabs_pos by lra. lra. }
      congruence.
    + split; [reflexivity|]. rewrite Qred_correct. lra.
Qed.

(** ** The format with decimals *)

Lemma three_digits (z : Z) :
  (0 <= z < 1000)%Z -> String.length (zfill 3 (str_Z z)) = 3%nat.
Proof.
  intros Hz.
  assert (H : forallb (fun n => Nat.eqb (String.length (zfill 3 (str_Z (Z.of_nat n)))) 3)
                      (seq 0 1000) = true) by (vm_compute; reflexivity).
  rewrite forallb_forall in H.
  specialize (H (Z.to_nat z)). rewrite Z2Nat.id in H by lia.
  apply Nat.eqb_eq, H, in_seq. lia.
Qed.

(** [format(x, '.3f')] on a finite number: an optional sign, the integer
    part, a point and exactly three digits, for the nearest thousandth. *)
Lemma format_f_3_finite (q : Q) :
  exists k : Z,
    (0 <= k)%Z
    /\ Qabs (inject_Z k / 1000 - Qabs q) <= 1 # 2000
    /\ Float.format_f 3 (Fin q)
       = (if Qltb q 0 then "-" else "") ++ str_Z (k / 1000) ++ "."
           ++ zfill 3 (str_Z (k mod 1000))
    /\ String.length (zfill 3 (str_Z (k mod 1000))) = 3%nat.
Proof.
  exists (round_half_even (Qabs q * inject_Z (pow10 3))).
  change (pow10 3) with 1000%Z. change (inject_Z 1000) with 1000.
  split; [|split; [|split]].
  - apply round_half_even_nonneg. pose proof (Qabs_nonneg q). nra.
  - pose proof (round_half_even_spec (Qabs q * 1000)) as H.
    apply Qabs_Qle_condition in H. apply Qabs_Qle_condition.
    set (k := inject_Z (round_half_even (Qabs q * 1000))) in *.
    unfold Qdiv. change (/ 1000) with (1 # 1000).
    split; lra.
  - reflexivity.
  - apply three_digits, Z.mod_pos_bound. lia.
Qed.

(** ** Tables *)

Lemma empty_spec (data : DataFrame) :
  empty data = true <-> len data = 0%nat \/ df_columns data = [].
Proof.
  unfold empty, shape. simpl. rewrite orb_true_iff, !Nat.eqb_eq.
  split; (intros [H | H]; [now left | right]).
  - now apply length_zero_iff_nil.
  - now rewrite H.
Qed.

Lemma distinct_NoDup (l : list string) : distinct l = true -> NoDup l.
Proof.
  induction l as [|x l IH]; [constructor|].
  cbn [distinct]. rewrite andb_true_iff, negb_true_iff. intros [Hx Hl].
  constructor; [|now apply IH].
  intros Hin. assert (Ht : existsb (String.eqb x) l = true).
  { apply existsb_exists. exists x. split; [exact Hin | apply String.eqb_refl]. }
  congruence.
Qed.

Lemma well_formedb_spec (data : DataFrame) :
  well_formedb data = true -> well_formed data.
Proof.
  unfold well_formedb, well_formed. rewrite andb_true_iff, forallb_forall.
  intros [Hsize Hnames]. split; [|now apply distinct_NoDup].
  apply Forall_forall. intros s Hs. now apply Nat.eqb_eq, Hsize.
Qed.

Lemma len_select_dtypes (data : DataFrame) :
  len (select_dtypes_number data) = len data.
Proof. reflexivity. Qed.

Lemma empty_numeric (data : DataFrame) :
  empty (select_dtypes_number data) =
  (len data =? 0)%nat || (List.length (numeric_columns data) =? 0)%nat.
Proof. reflexivity. Qed.

(** ** Boolean indexing *)

Lemma select_map_filter {A B : Type} (p : A -> bool) (f : A -> B) (l : list A) :
  select (map p l) (map f l) = map f (filter p l).
Proof.
  induction l as [|x l IH]; [reflexivity|].
  cbn [map select filter]. destruct (p x); cbn [map]; now rewrite IH.
Qed.

Lemma count_true_map {A : Type} (p : A -> bool) (l : list A) :
  count_true (map p l) = List.length (filter p l).
Proof.
  unfold count_true. induction l as [|x l IH]; [reflexivity|].
  cbn [map filter]. destruct (p x); cbn [List.length filter]; now rewrite IH.
Qed.

Lemma select_length {A : Type} (mask : list bool) (l : list A) :
  List.length mask = List.length l -> List.length (select mask l) = count_true mask.
Proof.
  unfold count_true. revert l.
  induction mask as [|b mask IH]; intros [|x l] H; try discriminate; [reflexivity|].
  injection H as H. cbn [select filter].
  destruct b; cbn [List.length]; now rewrite IH.
Qed.

Lemma count_true_le (l : list bool) : (count_true l <= List.length l)%nat.
Proof. apply filter_length_le. Qed.

Lemma isnull_length (v : Values) : List.length (isnull v) = size v.
Proof. destruct v; apply length_map. Qed.

(** ** Correlations *)

Lemma flat_map_if {A B : Type} (p : A -> bool) (f : A -> B) (l : list A) :
  flat_map (fun x => if p x then [f x] else []) l = map f (filter p l).
Proof.
  induction l as [|x l IH]; simpl; [reflexivity|].
  destruct (p x); simpl; now rewrite IH.
Qed.

Lemma upper_pairs_spec (n i j : nat) :
  In (i, j) (DataAnalyzer.upper_pairs n) <-> (i < j < n)%nat.
Proof.
  unfold DataAnalyzer.upper_pairs. rewrite in_flat_map. split.
  - intros [k [Hk Hin]]. apply in_map_iff in Hin. destruct Hin as [j' [E Hj]].
    inversion E; subst. apply in_seq in Hk. apply in_seq in Hj. lia.
  - intros H. exists i. split; [apply in_seq; lia|].
    apply in_map_iff. exists j. split; [reflexivity | apply in_seq; lia].
Qed.

Lemma NoDup_flat_map_pair {A B : Type} (g : A -> list B) (l : list A) :
  NoDup l -> (forall a, NoDup (g a)) ->
  NoDup (flat_map (fun a => map (fun b => (a, b)) (g a)) l).
Proof.
  intros Hl Hg. induction Hl as [|a l Ha Hl IH]; simpl; [constructor|].
  apply NoDup_app.
  - apply NoDup_map_NoDup_ForallPairs; [|apply Hg].
    intros x y _ _ E. now inversion E.
  - exact IH.
  - intros [a' b] Hin Hin'. apply in_map_iff in Hin. destruct Hin as [b' [E _]].
    inversion E; subst. apply in_flat_map in Hin'. destruct Hin' as [c [Hc Hin']].
    apply in_map_iff in Hin'. destruct Hin' as [b'' [E' _]]. inversion E'; subst.
    contradiction.
Qed.

Lemma upper_pairs_NoDup (n : nat) : NoDup (DataAnalyzer.upper_pairs n).
Proof.
  apply NoDup_flat_map_pair; [apply seq_NoDup | intros a; apply seq_NoDup].
Qed.

(** *** The correlation matrix *)

Lemma finite_pairs_swap (xs ys : list float) :
  finite_pairs ys xs = map (fun p => (snd p, fst p)) (finite_pairs xs ys).
Proof.
  unfold finite_pairs. revert ys.
  induction xs as [|x xs IH]; intros [|y ys]; try reflexivity.
  simpl. rewrite map_app, IH.
  destruct x, y; reflexivity.
Qed.

Lemma sum_dev_map (f g : Q * Q -> Q) (h : Q * Q -> Q * Q) (ps : list (Q * Q)) :
  sum_dev f g (map h ps) = sum_dev (fun p => f (h p)) (fun p => g (h p)) ps.
Proof.
  unfold sum_dev. now rewrite !map_map.
Qed.

Lemma sum_dev_comm (f g : Q * Q -> Q) (ps : list (Q * Q)) :
  sum_dev f g ps = sum_dev g f ps.
Proof.
  unfold sum_dev. f_equal. apply map_ext. intros p. apply Qmult_comm_eq.
Qed.

Section CorrelationFacts.

Variable sqrt : Q -> Q.

Lemma pearson_sym (xs ys : list float) : pearson sqrt xs ys = pearson sqrt ys xs.
Proof.
  unfold pearson. rewrite (finite_pairs_swap xs ys), length_map, !sum_dev_map.
  cbn [fst snd].
  change (fun p : Q * Q => snd p) with (@snd Q Q).
  change (fun p : Q * Q => fst p) with (@fst Q Q).
  rewrite (sum_dev_comm snd fst), (Qmult_comm_eq (sum_dev snd snd _)).
  reflexivity.
Qed.

Lemma pearson_nil_r (xs : list float) : pearson sqrt xs [] = NaN.
Proof. now rewrite pearson_sym. Qed.

Lemma iloc_corr (idx : Index) (cols : list Series) (i j : nat) :
  iloc (corr sqrt (mkDataFrame idx cols)) i j
  = pearson sqrt (column_floats cols i) (column_floats cols j).
Proof.
  unfold iloc, corr, column_floats. cbn [df_columns].
  rewrite nth_error_map.
  destruct (nth_error cols j) as [cj|] eqn:Ej; cbn [option_map].
  - cbn [s_values to_floats].
    destruct (nth_error cols i) as [ci|] eqn:Ei.
    + apply nth_error_nth.
      now rewrite (map_nth_error _ _ _ Ei).
    + apply nth_error_None in Ei. rewrite nth_overflow; [reflexivity|].
      now rewrite length_map.
  - now rewrite pearson_nil_r.
Qed.

Lemma column_at_corr (idx : Index) (cols : list Series) (i : nat) :
  column_at (corr sqrt (mkDataFrame idx cols)) i = column_name cols i.
Proof.
  unfold column_at, column_names, corr, column_name. cbn [df_columns].
  now rewrite map_map.
Qed.

Lemma strong_correlations_corr (idx : Index) (cols : list Series) :
  DataAnalyzer.strong_correlations (corr sqrt (mkDataFrame idx cols))
  = map (fun ij => (column_name cols (fst ij), column_name cols (snd ij),
                    pearson sqrt (column_floats cols (fst ij)) (column_floats cols (snd ij))))
        (filter (fun ij => Float.gtb (Float.abs (pearson sqrt (column_floats cols (fst ij))
                                                        (column_floats cols (snd ij))))
                                     (Fin (7 # 10)))
                (DataAnalyzer.upper_pairs (List.length cols))).
Proof.
  unfold DataAnalyzer.strong_correlations.
  replace (List.length (df_columns (corr sqrt (mkDataFrame idx cols))))
    with (List.length cols) by (unfold corr; cbn [df_columns]; now rewrite length_map).
  rewrite <- flat_map_if. apply flat_map_ext. intros [i j]. cbn [fst snd].
  now rewrite iloc_corr, !column_at_corr.
Qed.

End CorrelationFacts.


(** *** A column that does not vary *)

Lemma Qsum_cons (x : Q) (l : list Q) : Qsum (x :: l) = x + Qsum l.
Proof. reflexivity. Qed.

Lemma Qsum_all_zero (l : list Q) : Forall (fun x => x == 0) l -> Qsum l == 0.
Proof.
  induction 1 as [|x l Hx Hl IH]; [reflexivity | rewrite Qsum_cons; cbv beta in Hx; lra].
Qed.

Lemma Qsum_constant (a : Q) (l : list Q) :
  Forall (fun b => b == a) l -> Qsum l == inject_Z (Z.of_nat (List.length l)) * a.
Proof.
  induction 1 as [|x l Hx Hl IH].
  - change (0 == 0 * a). ring.
  - rewrite Qsum_cons. cbn [List.length].
    rewrite IH, Hx, Nat2Z.inj_succ. unfold Z.succ. rewrite inject_Z_plus.
    change (inject_Z 1) with 1. ring.
Qed.

Lemma sum_sq_dev_constant (a : Q) (qs : list Q) :
  qs <> [] -> Forall (fun b => b == a) qs -> sum_sq_dev qs == 0.
Proof.
  intros Hne Hall. unfold sum_sq_dev.
  assert (Hm : Qmean qs == a).
  { unfold Qmean. rewrite (Qsum_constant a qs Hall).
    assert (Hn : ~ inject_Z (Z.of_nat (List.length qs)) == 0).
    { assert (Hpos : 0 < inject_Z (Z.of_nat (List.length qs))).
      { destruct qs as [|q qs]; [congruence|].
        change 0 with (inject_Z 0). rewrite <- Zlt_Qlt. cbn [List.length]. lia. }
      intros E. rewrite E in Hpos. exact (Qlt_irrefl 0 Hpos). }
    field. exact Hn. }
  apply Qsum_all_zero, Forall_map. revert Hall. apply Forall_impl.
  intros b Hb. rewrite Hm, Hb. ring.
Qed.

Lemma finite_pairs_fst (xs ys : list float) (p : Q * Q) :
  In p (finite_pairs xs ys) -> In (fst p) (finite_values xs).
Proof.
  unfold finite_pairs, finite_values. rewrite !in_flat_map.
  intros [[x y] [Hin Hp]]. exists x. split; [exact (in_combine_l _ _ _ _ Hin)|].
  destruct x as [a | |], y as [b | |]; try contradiction.
  destruct Hp as [<- | []]. now left.
Qed.

Lemma varies_false_constant (xs : list float) :
  varies xs = false ->
  exists c, Forall (fun a => a == c) (finite_values xs).
Proof.
  unfold varies. destruct (finite_values xs) as [|a l]; intros H.
  - exists 0. constructor.
  - exists a. constructor; [reflexivity|]. apply Forall_forall. intros b Hb.
    destruct (Qeq_bool a b) eqn:E.
    + apply Qeq_bool_eq in E. now symmetry.
    + exfalso. assert (Ht : existsb (fun b => negb (Qeq_bool a b)) l = true).
      { apply existsb_exists. exists b. split; [exact Hb | now rewrite E]. }
      congruence.
Qed.

Section NoVariation.

Variable sqrt : Q -> Q.
Hypothesis sqrt_zero : forall x, x == 0 -> sqrt x == 0.

Lemma pearson_constant (xs ys : list float) :
  varies xs = false -> pearson sqrt xs ys = NaN.
Proof.
  intros Hv. destruct (varies_false_constant xs Hv) as [c Hc].
  unfold pearson. set (ps := finite_pairs xs ys).
  destruct (List.length ps <? 1)%nat eqn:El; [reflexivity|].
  assert (Hx : sum_dev fst fst ps == 0).
  { assert (E : sum_dev fst fst ps = sum_sq_dev (map fst ps)).
    { unfold sum_dev, sum_sq_dev. cbv zeta. now rewrite map_map. }
    rewrite E. apply (sum_sq_dev_constant c).
    - destruct ps; [discriminate | discriminate].
    - apply Forall_map, Forall_forall. intros p Hp.
      rewrite Forall_forall in Hc. apply Hc. exact (finite_pairs_fst xs ys p Hp). }
  assert (Hd : Qeq_bool (sqrt (sum_dev fst fst ps * sum_dev snd snd ps)) 0 = true).
  { apply Qeq_bool_iff, sqrt_zero. rewrite Hx. ring. }
  now rewrite Hd.
Qed.

End NoVariation.

(** *** The report *)

Lemma upper_pairs_pick (strong : nat -> nat -> bool) (n : nat) :
  let pairs := filter (fun ij => strong (fst ij) (snd ij)) (DataAnalyzer.upper_pairs n) in
  NoDup pairs
  /\ (forall i j, In (i, j) pairs <-> (i < j < n)%nat /\ strong i j = true)
  /\ ((forall i j, strong i j = strong j i) ->
      forall i j, (i < n)%nat -> (j < n)%nat -> i <> j ->
        (strong i j = true <-> In (Nat.min i j, Nat.max i j) pairs)).
Proof.
  intros pairs.
  assert (Hin : forall i j, In (i, j) pairs <-> (i < j < n)%nat /\ strong i j = true).
  { intros i j. unfold pairs. rewrite filter_In, upper_pairs_spec. reflexivity. }
  split; [apply NoDup_filter, upper_pairs_NoDup|]. split; [exact Hin|].
  intros Hsym i j Hi Hj Hij. rewrite Hin.
  destruct (Nat.lt_ge_cases i j) as [Hlt | Hge].
  - rewrite Nat.min_l, Nat.max_r by lia. split; [intros Hs; split; [lia | exact Hs] | tauto].
  - rewrite Nat.min_r, Nat.max_l by lia. rewrite (Hsym j i).
    split; [intros Hs; split; [lia | exact Hs] | tauto].
Qed.

Lemma corr_correlation_frame (sqrt : Q -> Q) (data : DataFrame) :
  correlation_frame (column_names data) (corr sqrt data).
Proof.
  unfold correlation_frame, corr, column_names. cbn [df_columns].
  split; [now rewrite map_map|].
  apply Forall_map, Forall_forall. intros s _. cbn [s_values].
  eexists. split; [reflexivity | now rewrite !length_map].
Qed.

Section CorrelationList.

Variable corr : DataFrame -> DataFrame.
Variable to_string : DataFrame -> string.

Lemma analyze_correlations_text (data : DataFrame) :
  (2 <= List.length (numeric_columns data))%nat -> (0 < len data)%nat ->
  DataAnalyzer.analyze_correlations_with to_string corr data
  = "=== 相关性分析 ===" ++ nl ++ nl
    ++ "相关系数矩阵:" ++ nl
    ++ to_string (round_frame 3 (corr (select_dtypes_number data)))
    ++ nl ++ nl
    ++ "强相关性 (|r| > 0.7):" ++ nl
    ++ match DataAnalyzer.strong_correlations (corr (select_dtypes_number data)) with
       | [] => "  未发现强相关性" ++ nl
       | strong => String.concat "" (map DataAnalyzer.strong_line strong)
       end.
Proof.
  intros Hn Hrows. unfold DataAnalyzer.analyze_correlations_with. cbv zeta.
  rewrite empty_numeric. fold (numeric_columns data).
  replace (len data =? 0)%nat with false by (symmetry; apply Nat.eqb_neq; lia).
  replace (List.length (numeric_columns data) =? 0)%nat with false
    by (symmetry; apply Nat.eqb_neq; lia).
  replace (List.length (numeric_columns data) <? 2)%nat with false
    by (symmetry; apply Nat.ltb_ge; lia).
  cbn [orb].
  destruct (DataAnalyzer.strong_correlations (corr (select_dtypes_number data)));
    rewrite !append_assoc; reflexivity.
Qed.

(** C3 (as amended).  On a table with at least two numeric columns and at
    least one row, whatever coefficients [DataFrame.corr] has computed:
    the strong-correlation list of [analyze_correlations] holds exactly
    the pairs of numeric columns [i < j] whose entry [r] of the matrix
    has an absolute value above 0.7, each once and in the order of the
    loop; when the matrix is symmetric, an unordered pair of distinct
    columns is listed exactly when its entry is that strong; and when
    there is no such pair the text ends with the "none found" line. *)
Theorem strong_correlations_exact (data : DataFrame) :
  let numeric_data := select_dtypes_number data in
  let m := corr numeric_data in
  let n := List.length (numeric_columns data) in
  let name := column_name (numeric_columns data) in
  let r := fun i j => iloc m i j in
  let strong := fun i j => Float.gtb (Float.abs (r i j)) (Fin (7 # 10)) in
  (2 <= n)%nat -> (0 < len data)%nat ->
  correlation_frame (column_names numeric_data) m ->
  exists pairs : list (nat * nat),
    NoDup pairs
    /\ (forall i j, In (i, j) pairs <-> (i < j < n)%nat /\ strong i j = true)
    /\ ((forall i j, r i j = r j i) ->
        forall i j, (i < n)%nat -> (j < n)%nat -> i <> j ->
          (strong i j = true <-> In (Nat.min i j, Nat.max i j) pairs))
    /\ DataAnalyzer.strong_correlations m
       = map (fun ij => (name (fst ij), name (snd ij), r (fst ij) (snd ij))) pairs
    /\ DataAnalyzer.analyze_correlations_with to_string corr data
       = "=== 相关性分析 ===" ++ nl ++ nl
         ++ "相关系数矩阵:" ++ nl
         ++ to_string (round_frame 3 m)
         ++ nl ++ nl
         ++ "强相关性 (|r| > 0.7):" ++ nl
         ++ match pairs with
            | [] => "  未发现强相关性" ++ nl
            | _ => String.concat ""
                     (map (fun ij => "  " ++ name (fst ij) ++ " - " ++ name (snd ij) ++ ": "
                                       ++ Float.format_f 3 (r (fst ij) (snd ij)) ++ nl)
                          pairs)
            end.
Proof.
  intros numeric_data m n name r strong Hn Hrows [Hnames _].
  destruct (upper_pairs_pick strong n) as [Hnd [Hin Hsym]].
  set (pairs := filter (fun ij => strong (fst ij) (snd ij)) (DataAnalyzer.upper_pairs n))
    in *.
  assert (Hlen : List.length (df_columns m) = n).
  { unfold n, numeric_columns. fold numeric_data.
    rewrite <- (length_map s_name (df_columns m)), <- (length_map s_name (df_columns _)).
    now f_equal. }
  assert (Hstrong :
            DataAnalyzer.strong_correlations m
            = map (fun ij => (name (fst ij), name (snd ij), r (fst ij) (snd ij))) pairs).
  { unfold DataAnalyzer.strong_correlations. rewrite Hlen.
    unfold pairs. rewrite <- flat_map_if. apply flat_map_ext. intros [i j]. cbn [fst snd].
    unfold column_at. rewrite Hnames. reflexivity. }
  exists pairs. split; [exact Hnd|]. split; [exact Hin|]. split; [|split].
  - intros Hr. apply Hsym. intros i j. unfold strong. now rewrite (Hr i j).
  - exact Hstrong.
  - rewrite (analyze_correlations_text data Hn Hrows). fold numeric_data m. rewrite Hstrong.
    destruct pairs as [|p pairs']; [reflexivity|].
    do 9 f_equal. cbn [map]. rewrite map_map. reflexivity.
Qed.

End CorrelationList.

Section CorrelationReport.

Variable sqrt : Q -> Q.
Variable to_string : DataFrame -> string.


(** C2 (as amended).  On a table with at most one numeric column
    [analyze_correlations] returns a message and raises nothing: the "no
    numeric data" message when the table has no numeric column or no row,
    and the "need at least two" message when it has exactly one numeric
    column and at least one row. *)
Theorem analyze_correlations_insufficient (data : DataFrame) :
  (List.length (numeric_columns data) <= 1)%nat ->
  DataAnalyzer.analyze_correlations sqrt to_string data =
  if (List.length (numeric_columns data) =? 0)%nat || (len data =? 0)%nat
  then "没有数值型数据可用于相关性分析"
  else "需要至少两个数值型变量进行相关性分析".
Proof.
  intros Hn.
  unfold DataAnalyzer.analyze_correlations, DataAnalyzer.analyze_correlations_with.
  cbv zeta.
  rewrite empty_numeric. fold (numeric_columns data).
  rewrite (orb_comm (len data =? 0)%nat).
  destruct ((List.length (numeric_columns data) =? 0)%nat || (len data =? 0)%nat);
    [reflexivity|].
  destruct (List.length (numeric_columns data) <? 2)%nat eqn:E2; [reflexivity|].
  apply Nat.ltb_ge in E2. lia.
Qed.

Hypothesis sqrt_zero : forall x, x == 0 -> sqrt x == 0.


End CorrelationReport.

Lemma Qsqrt_zero (x : Q) : x == 0 -> Qsqrt x == 0.
Proof.
  intros H. unfold Qeq in H. cbn [Qnum Qden] in H.
  assert (E : Qnum x = 0%Z) by lia.
  unfold Qsqrt. rewrite E. reflexivity.
Qed.

Lemma analyze_correlations_insufficient_witness :
  DataAnalyzer.analyze_correlations Qsqrt names_to_string table_one_numeric
  = "需要至少两个数值型变量进行相关性分析".
Proof.
  apply (analyze_correlations_insufficient Qsqrt names_to_string table_one_numeric).
  vm_compute. lia.
Defined.

Lemma analyze_correlations_one_column_no_rows :
  List.length (numeric_columns table_one_numeric_no_rows) = 1%nat
  /\ DataAnalyzer.analyze_correlations Qsqrt names_to_string table_one_numeric_no_rows
     = "没有数值型数据可用于相关性分析"
  /\ DataAnalyzer.analyze_correlations Qsqrt names_to_string table_one_numeric_no_rows
     <> "需要至少两个数值型变量进行相关性分析".
Proof.
  repeat split; try reflexivity. vm_compute. discriminate.
Qed.

Lemma strong_correlations_exact_witness :
  exists pairs : list (nat * nat),
    NoDup pairs
    /\ DataAnalyzer.strong_correlations (corr Qsqrt (select_dtypes_number table_xy))
       = map (fun ij => (column_name (numeric_columns table_xy) (fst ij),
                         column_name (numeric_columns table_xy) (snd ij),
                         iloc (corr Qsqrt (select_dtypes_number table_xy)) (fst ij) (snd ij)))
             pairs.
Proof.
  destruct (strong_correlations_exact (corr Qsqrt) names_to_string table_xy)
    as [pairs [H1 [_ [_ [H4 _]]]]];
    [vm_compute; lia | vm_compute; lia | apply corr_correlation_frame |].
  exists pairs. split; [exact H1 | exact H4].
Defined.

Lemma analyze_correlations_two_columns_no_rows :
  List.length (numeric_columns table_two_numeric_no_rows) = 2%nat
  /\ DataAnalyzer.strong_correlations
       (corr Qsqrt (select_dtypes_number table_two_numeric_no_rows)) = []
  /\ DataAnalyzer.analyze_correlations Qsqrt names_to_string table_two_numeric_no_rows
     = "没有数值型数据可用于相关性分析".
Proof. repeat split; reflexivity. Qed.

(** The threshold is strict, and it is the entry as computed that is
    tested: of two matrices that a rounding of one unit in the last
    place tells apart, the pair is listed for one and not for the
    other. *)
Example strong_correlations_at_the_threshold :
  DataAnalyzer.strong_correlations (matrix_ab (Float.of_Q (7 # 10))) = []
  /\ DataAnalyzer.strong_correlations
       (matrix_ab (Float.of_Q (7 # 10) +f Float.of_Q (pow2 (-53))))
     = [("a", "b", Fin (6305039478318695 # 9007199254740992))]
  /\ DataAnalyzer.strong_correlations (matrix_ab (Fin (-(3 # 4))))
     = [("a", "b", Fin (-(3 # 4)))]
  /\ DataAnalyzer.strong_correlations (matrix_ab NaN) = [].
Proof. split; [|split; [|split]]; vm_compute; reflexivity. Qed.



(** ** Missing values *)

Lemma isnull_sum_bound (data : DataFrame) (name : string) (m : nat) :
  well_formed data -> In (name, m) (isnull_sum data) -> (m <= len data)%nat.
Proof.
  intros [Hsize _] Hin. unfold isnull_sum in Hin.
  apply in_map_iff in Hin. destruct Hin as [s [E Hs]]. inversion E; subst.
  rewrite Forall_forall in Hsize. rewrite <- (Hsize s Hs), <- isnull_length.
  apply count_true_le.
Qed.

Lemma total_missing_zero (data : DataFrame) :
  DataAnalyzer.total_missing data = 0%nat ->
  Forall (fun nc => snd nc = 0%nat) (isnull_sum data).
Proof.
  unfold DataAnalyzer.total_missing.
  induction (isnull_sum data) as [|nc l IH]; [constructor|].
  cbn [map fold_right]. intros H. constructor; [lia | apply IH; lia].
Qed.

Lemma total_missing_no_rows (data : DataFrame) :
  well_formed data -> len data = 0%nat \/ df_columns data = [] ->
  DataAnalyzer.total_missing data = 0%nat.
Proof.
  intros Hwf Hz. unfold DataAnalyzer.total_missing.
  assert (H : Forall (fun nc => snd nc = 0%nat) (isnull_sum data)).
  { apply Forall_forall. intros [name m] Hin. cbn [snd].
    destruct Hz as [Hz | Hz].
    - pose proof (isnull_sum_bound data name m Hwf Hin). lia.
    - unfold isnull_sum in Hin. now rewrite Hz in Hin. }
  induction H as [|nc l Hnc Hl IH]; [reflexivity|].
  cbn [map fold_right]. rewrite IH, Hnc. reflexivity.
Qed.

Lemma missing_df_rows (data : DataFrame) :
  DataAnalyzer.missing_df data
  = let rows := filter (fun nc => (0 <? snd nc)%nat) (isnull_sum data) in
    mkDataFrame (StrIndex (map fst rows))
      [ mkSeries "缺失数量" (Int64 (map (fun nc => Z.of_nat (snd nc)) rows));
        mkSeries "缺失比例%"
          (Float64 (map (fun nc => Float.round 2
                                     (Float.of_nat (snd nc) /f Float.of_nat (len data)
                                        *f Float.of_Z 100)) rows)) ].
Proof.
  unfold DataAnalyzer.missing_df, DataAnalyzer.missing_percent, select_rows.
  cbv zeta. cbn [df_index df_columns select_index map s_name s_values select_values].
  now rewrite !select_map_filter.
Qed.

Lemma inject_nat_pos (n : nat) : (0 < n)%nat -> 0 < inject_Z (Z.of_nat n).
Proof. intros H. change 0 with (inject_Z 0). rewrite <- Zlt_Qlt. lia. Qed.

Lemma of_nat_small (n : nat) :
  (Z.of_nat n <= 2 ^ 53)%Z -> Float.of_nat n = Fin (inject_Z (Z.of_nat n)).
Proof. intros H. apply round64_int. lia. Qed.

Lemma of_Z_100 : Float.of_Z 100 = Fin 100.
Proof. vm_compute. reflexivity. Qed.

(** The quotient of two counts, as NumPy computes it. *)
Lemma ratio_rounded (m c : nat) :
  (0 < c)%nat -> (m <= c)%nat -> (Z.of_nat c <= 2 ^ 53)%Z ->
  exists x : Q,
    Float.of_nat m /f Float.of_nat c = Fin x
    /\ 0 <= x <= 1
    /\ Qabs (x - inject_Z (Z.of_nat m) / inject_Z (Z.of_nat c)) <= pow2 (-53).
Proof.
  intros Hc Hm Hsmall. pose proof (inject_nat_pos c Hc) as Hpos.
  rewrite !of_nat_small by lia. unfold Float.div.
  destruct (Qeq_bool (inject_Z (Z.of_nat c)) 0) eqn:E.
  { apply Qeq_bool_iff in E. rewrite E in Hpos. now apply Qlt_irrefl in Hpos. }
  set (a := inject_Z (Z.of_nat m)). set (b := inject_Z (Z.of_nat c)) in *.
  assert (Hle : a <= b) by (unfold a, b; rewrite <- Zle_Qle; lia).
  assert (H0 : 0 <= a) by (unfold a; change 0 with (inject_Z 0); rewrite <- Zle_Qle; lia).
  assert (Hq : 0 <= a / b <= 1).
  { split.
    - apply Qle_shift_div_l; [exact Hpos | lra].
    - apply Qle_shift_div_r; [exact Hpos | lra]. }
  destruct (round64_below (a / b) 1 Hq) as [x [Ex Hx]]; [vm_compute; reflexivity|].
  destruct (round64_error (a / b) 0) as [x' [Ex' Hx']]; [lia | |].
  { rewrite Qabs_pos by lra. change (pow2 0) with 1. lra. }
  rewrite Ex in Ex'. injection Ex' as <-.
  exists x. split; [exact Ex|]. split; [exact Hx | exact Hx'].
Qed.

(** The product by 100 of a number between 0 and 1. *)
Lemma percent_of_ratio (x : Q) :
  0 <= x <= 1 ->
  exists y : Q,
    Fin x *f Float.of_Z 100 = Fin y
    /\ 0 <= y <= 100
    /\ Qabs (y - x * 100) <= pow2 (-46).
Proof.
  intros Hx. rewrite of_Z_100. unfold Float.mul.
  assert (Hq : 0 <= x * 100 <= 100) by (split; nra).
  destruct (round64_below (x * 100) 100 Hq) as [y [Ey Hy]]; [vm_compute; reflexivity|].
  destruct (round64_error (x * 100) 7) as [y' [Ey' Hy']]; [lia | |].
  { rewrite Qabs_pos by lra. change (pow2 7) with 128. lra. }
  rewrite Ey in Ey'. injection Ey' as <-.
  exists y. split; [exact Ey|]. split; [exact Hy | exact Hy'].
Qed.

(** [round(y, 2)] of NumPy on a number between 0 and 100. *)
Lemma round_2_percent (y : Q) :
  0 <= y <= 100 ->
  exists p : Q,
    Float.round 2 (Fin y) = Fin p
    /\ Qabs (p - y) <= (1 # 200) + pow2 (-44).
Proof.
  intros Hy. unfold Float.round. change (pow10 2) with 100%Z. rewrite of_Z_100.
  unfold Float.mul.
  destruct (round64_error (y * 100) 14) as [z [Ez Hz]]; [lia | |].
  { rewrite Qabs_pos by nra. change (pow2 14) with 16384. nra. }
  rewrite Ez. cbn [Float.rint Float.div]. change (Qeq_bool 100 0) with false.
  pose proof (round_half_even_spec z) as Hk.
  set (k := inject_Z (round_half_even z)) in *.
  apply Qabs_Qle_condition in Hz, Hk.
  change (pow2 (14 - 53)) with (1 # 549755813888) in Hz.
  destruct (round64_error (k / 100) 8) as [p [Ep Hp]]; [lia | |].
  { change (pow2 8) with 256. apply Qabs_Qle_condition.
    unfold Qdiv. change (/ 100) with (1 # 100). split; lra. }
  exists p. split; [exact Ep|].
  apply Qabs_Qle_condition in Hp. apply Qabs_Qle_condition.
  change (pow2 (8 - 53)) with (1 # 35184372088832) in Hp.
  change (pow2 (-44)) with (1 # 17592186044416).
  unfold Qdiv in Hp. change (/ 100) with (1 # 100) in Hp.
  split; lra.
Qed.

(** The percentage of a column: within half a hundredth, and the
    rounding of four operations, of [100 * m / r]. *)
Lemma percent_rounded (m r : nat) :
  (0 < r)%nat -> (m <= r)%nat -> (Z.of_nat r <= 2 ^ 53)%Z ->
  exists p : Q,
    Float.round 2 (Float.of_nat m /f Float.of_nat r *f Float.of_Z 100) = Fin p
    /\ Qabs (p - 100 * inject_Z (Z.of_nat m) / inject_Z (Z.of_nat r))
       <= (1 # 200) + (1 # 10000000000000).
Proof.
  intros Hr Hm Hsmall.
  destruct (ratio_rounded m r Hr Hm Hsmall) as [x [Ex [Hx Bx]]].
  destruct (percent_of_ratio x Hx) as [y [Ey [Hy By]]].
  destruct (round_2_percent y Hy) as [p [Ep Bp]].
  exists p. rewrite Ex, Ey. split; [exact Ep|].
  apply Qabs_Qle_condition in Bx, By, Bp. apply Qabs_Qle_condition.
  change (pow2 (-53)) with (1 # 9007199254740992) in Bx.
  change (pow2 (-46)) with (1 # 70368744177664) in By.
  change (pow2 (-44)) with (1 # 17592186044416) in Bp.
  set (q := inject_Z (Z.of_nat m) / inject_Z (Z.of_nat r)) in *.
  assert (Eq : 100 * inject_Z (Z.of_nat m) / inject_Z (Z.of_nat r) == 100 * q)
    by (unfold q, Qdiv; ring).
  rewrite Eq. split; lra.
Qed.

Lemma filter_positive_none (l : list (string * nat)) :
  Forall (fun nc => snd nc = 0%nat) l -> filter (fun nc => (0 <? snd nc)%nat) l = [].
Proof.
  induction 1 as [|nc l Hnc Hl IH]; [reflexivity|].
  cbn [filter]. now rewrite Hnc.
Qed.

Section MissingReport.

Variable to_string : DataFrame -> string.

(** C5 (as amended).  [analyze_missing_values] lists exactly the columns
    with a missing count above zero, in the order of the table, each with
    its count [m] and with the percentage that NumPy computes in binary64
    as [(m / r) * 100] for the [r] rows and rounds to two decimals: a
    number within half a hundredth, and the rounding of the operations, of
    [100 * m / r].  When no cell of the table is missing the listing is
    replaced by the "no missing values" line. *)
Theorem analyze_missing_values_listing (data : DataFrame) :
  let r := len data in
  let percent := fun m : nat =>
    Float.round 2 (Float.of_nat m /f Float.of_nat r *f Float.of_Z 100) in
  let rows := filter (fun nc => (0 <? snd nc)%nat) (isnull_sum data) in
  well_formed data ->
  DataAnalyzer.analyze_missing_values to_string data
  = "=== 缺失值分析 ===" ++ nl ++ nl
    ++ "总数据点: " ++ str_nat (DataAnalyzer.total_cells data) ++ nl
    ++ "总缺失值: " ++ DataAnalyzer.str_total_missing data ++ nl
    ++ "缺失值比例: "
    ++ Float.format_f 2 (Float.of_nat (DataAnalyzer.total_missing data)
                           /f Float.of_nat (DataAnalyzer.total_cells data)
                           *f Float.of_Z 100)
    ++ "%" ++ nl ++ nl
    ++ "各列缺失值统计:" ++ nl
    ++ match rows with
       | [] => "  没有缺失值"
       | _ => to_string
                (mkDataFrame (StrIndex (map fst rows))
                   [ mkSeries "缺失数量" (Int64 (map (fun nc => Z.of_nat (snd nc)) rows));
                     mkSeries "缺失比例%" (Float64 (map (fun nc => percent (snd nc)) rows)) ])
       end
  /\ (forall name m, In (name, m) rows <-> In (name, m) (isnull_sum data) /\ (0 < m)%nat)
  /\ ((Z.of_nat r <= 2 ^ 53)%Z ->
      forall name m, In (name, m) rows ->
        exists p : Q,
          percent m = Fin p
          /\ Qabs (p - 100 * inject_Z (Z.of_nat m) / inject_Z (Z.of_nat r))
             <= (1 # 200) + (1 # 10000000000000))
  /\ (DataAnalyzer.total_missing data = 0%nat -> rows = []).
Proof.
  intros r percent rows Hwf.
  assert (Hin : forall name m,
             In (name, m) rows <-> In (name, m) (isnull_sum data) /\ (0 < m)%nat).
  { intros name m. unfold rows. rewrite filter_In. cbn [snd].
    now rewrite Nat.ltb_lt. }
  split; [|split; [exact Hin|split]].
  - unfold DataAnalyzer.analyze_missing_values. cbv zeta.
    rewrite missing_df_rows. cbv zeta. fold rows.
    destruct rows as [|row rows']; cbn [negb]; rewrite !append_assoc; reflexivity.
  - intros Hsmall name m Hm. apply Hin in Hm. destruct Hm as [Hm Hpos].
    pose proof (isnull_sum_bound data name m Hwf Hm).
    apply percent_rounded; unfold r; lia.
  - intros Hz. apply filter_positive_none, total_missing_zero, Hz.
Qed.

(** C10 (as amended).  On a table without rows or without columns the
    total cell count is zero and [analyze_missing_values] divides by it
    without a guard: the overall percentage is the quotient 0/0, which
    NumPy gives as NaN instead of raising, so that the report is returned
    with the percentage printed as [nan%]; on a table without rows every
    per-column percentage is such a quotient by the row count zero. *)
Theorem analyze_missing_values_empty_table (data : DataFrame) :
  well_formed data ->
  len data = 0%nat \/ df_columns data = [] ->
  DataAnalyzer.total_cells data = 0%nat
  /\ DataAnalyzer.total_missing data = 0%nat
  /\ Float.of_nat (DataAnalyzer.total_missing data)
       /f Float.of_nat (DataAnalyzer.total_cells data) *f Float.of_Z 100 = NaN
  /\ (exists before after,
         DataAnalyzer.analyze_missing_values to_string data
         = before ++ "缺失值比例: nan%" ++ after)
  /\ (len data = 0%nat ->
      Forall (fun p => p = NaN) (DataAnalyzer.missing_percent data)).
Proof.
  intros Hwf Hz.
  assert (Hc : DataAnalyzer.total_cells data = 0%nat).
  { unfold DataAnalyzer.total_cells, shape. cbn [fst snd].
    destruct Hz as [Hz | Hz]; rewrite Hz; [reflexivity | cbn [List.length]; lia]. }
  pose proof (total_missing_no_rows data Hwf Hz) as Hm.
  split; [exact Hc | split; [exact Hm | split; [|split]]].
  - rewrite Hc, Hm. reflexivity.
  - exists ("=== 缺失值分析 ===" ++ nl ++ nl ++ "总数据点: " ++ str_nat 0 ++ nl
            ++ "总缺失值: " ++ DataAnalyzer.str_total_missing data ++ nl).
    exists (nl ++ nl ++ "各列缺失值统计:" ++ nl
            ++ if negb (empty (DataAnalyzer.missing_df data))
               then to_string (DataAnalyzer.missing_df data)
               else "  没有缺失值").
    unfold DataAnalyzer.analyze_missing_values. cbv zeta. rewrite Hc, Hm.
    destruct (negb (empty (DataAnalyzer.missing_df data)));
      rewrite !append_assoc; reflexivity.
  - intros Hrows. unfold DataAnalyzer.missing_percent.
    apply Forall_map, Forall_forall. intros [name m] Hin. cbn [snd].
    pose proof (isnull_sum_bound data name m Hwf Hin) as Hle.
    assert (m = 0%nat) by lia. subst m. rewrite Hrows. reflexivity.
Qed.

End MissingReport.

Lemma analyze_missing_values_listing_witness :
  DataAnalyzer.analyze_missing_values names_to_string table_outliers
  = "=== 缺失值分析 ===" ++ nl ++ nl
    ++ "总数据点: 10" ++ nl ++ "总缺失值: 2" ++ nl ++ "缺失值比例: 20.00%" ++ nl ++ nl
    ++ "各列缺失值统计:" ++ nl
    ++ names_to_string
         (mkDataFrame (StrIndex ["w"])
            [ mkSeries "缺失数量" (Int64 [2%Z]);
              mkSeries "缺失比例%" (Float64 [Fin 40]) ]).
Proof.
  refine (eq_trans (proj1 (analyze_missing_values_listing names_to_string table_outliers _)) _).
  - apply well_formedb_spec. reflexivity.
  - vm_compute. reflexivity.
Defined.

(** A tie that binary64 breaks downwards: of 160 rows 23 are missing,
    [100 * 23 / 160] is 14.375, which rounds to 14.38, and the
    percentage of the report is 14.37, the quotient [23 / 160] being
    rounded below 0.14375 before the product by 100. *)
Lemma analyze_missing_values_tie :
  well_formed table_23_of_160
  /\ isnull_sum table_23_of_160 = [("v", 23%nat)]
  /\ len table_23_of_160 = 160%nat
  /\ 100 * inject_Z 23 / inject_Z 160 == 14375 # 1000
  /\ round_half_even (100 * inject_Z 23 / inject_Z 160 * 100) = 1438%Z
  /\ DataAnalyzer.missing_percent table_23_of_160 = [Float.of_Q (1437 # 100)]
  /\ Float.of_Q (1437 # 100) <> Float.of_Q (1438 # 100)
  /\ map (Float.format_f 2) (DataAnalyzer.missing_percent table_23_of_160) = ["14.37"]
  /\ exists before after,
       DataAnalyzer.analyze_missing_values names_to_string table_23_of_160
       = before ++ "缺失值比例: 14.37%" ++ after.
Proof.
  split; [apply well_formedb_spec; vm_compute; reflexivity|].
  split; [vm_compute; reflexivity|]. split; [reflexivity|].
  split; [vm_compute; reflexivity|]. split; [vm_compute; reflexivity|].
  split; [vm_compute; reflexivity|]. split; [vm_compute; discriminate|].
  split; [vm_compute; reflexivity|].
  exists ("=== 缺失值分析 ===" ++ nl ++ nl ++ "总数据点: 160" ++ nl ++ "总缺失值: 23" ++ nl).
  exists ("" ++ nl ++ nl ++ "各列缺失值统计:" ++ nl
          ++ names_to_string (DataAnalyzer.missing_df table_23_of_160)).
  vm_compute. reflexivity.
Qed.

Lemma analyze_missing_values_no_columns :
  df_columns table_no_columns = []
  /\ len table_no_columns = 3%nat
  /\ DataAnalyzer.missing_percent table_no_columns = []
  /\ exists before after,
       DataAnalyzer.analyze_missing_values names_to_string table_no_columns
       = before ++ "缺失值比例: nan%" ++ after.
Proof.
  repeat split.
  exists ("=== 缺失值分析 ===" ++ nl ++ nl ++ "总数据点: 0" ++ nl ++ "总缺失值: 0.0" ++ nl).
  exists (nl ++ nl ++ "各列缺失值统计:" ++ nl ++ "  没有缺失值").
  reflexivity.
Qed.

Lemma analyze_missing_values_empty_table_witness :
  DataAnalyzer.total_cells table_one_numeric_no_rows = 0%nat.
Proof.
  apply (analyze_missing_values_empty_table names_to_string table_one_numeric_no_rows).
  - apply well_formedb_spec. reflexivity.
  - left. reflexivity.
Defined.

(** ** Outliers *)

Lemma get_column_unique (cols : list Series) (idx : Index) (s : Series) :
  NoDup (map s_name cols) -> In s cols ->
  get_column (mkDataFrame idx cols) (s_name s) = Some s.
Proof.
  unfold get_column. cbn [df_columns].
  induction cols as [|c cols IH]; intros Hnd Hin; [contradiction|].
  cbn [map] in Hnd. inversion Hnd as [|? ? Hc Hnd']; subst.
  cbn [find]. destruct Hin as [E | Hin].
  - subst c. now rewrite String.eqb_refl.
  - destruct (String.eqb (s_name s) (s_name c)) eqn:E.
    + apply String.eqb_eq in E. exfalso. apply Hc. rewrite <- E.
      now apply in_map.
    + now apply IH.
Qed.

(** A selection of columns keeps their names distinct. *)
Lemma selected_names_distinct (keep : Series -> bool) (cols : list Series) :
  NoDup (map s_name cols) -> NoDup (map s_name (filter keep cols)).
Proof.
  induction cols as [|c cols IH]; intros Hnd; [constructor|].
  cbn [map] in Hnd. inversion Hnd as [|? ? Hc Hrest]; subst.
  cbn [filter]. destruct (keep c); [|now apply IH].
  cbn [map]. constructor; [|now apply IH].
  intros Hin. apply Hc. apply in_map_iff in Hin. destruct Hin as [c' [E Hc']].
  apply filter_In in Hc'. rewrite <- E. now apply in_map.
Qed.

Lemma to_floats_length (v : Values) :
  is_number v = true -> List.length (to_floats v) = size v.
Proof.
  destruct v; try discriminate; intros _; [reflexivity | apply length_map].
Qed.

Lemma len_select_rows (mask : list bool) (data : DataFrame) :
  List.length mask = len data -> len (select_rows mask data) = count_true mask.
Proof.
  unfold len, select_rows. cbn [df_index]. intros H.
  destruct (df_index data) as [n | l | l]; cbn [select_index index_len] in *;
    apply select_length; rewrite H; [now rewrite length_seq | reflexivity | reflexivity].
Qed.

Section OutlierReport.

Variable entry_tail : DataFrame -> string -> string.

Lemma outlier_entry_text (data : DataFrame) (s : Series) :
  well_formed data -> In s (numeric_columns data) ->
  DataAnalyzer.outlier_entry entry_tail (select_dtypes_number data) (s_name s)
  = s_name s ++ ":" ++ nl
    ++ "  正常值范围: [" ++ Float.format_f 3 (DataAnalyzer.lower_bound (s_values s)) ++ ", "
    ++ Float.format_f 3 (DataAnalyzer.upper_bound (s_values s)) ++ "]" ++ nl
    ++ "  异常值数量: "
    ++ str_nat (List.length
                  (filter (fun x => Float.ltb x (DataAnalyzer.lower_bound (s_values s))
                                    || Float.gtb x (DataAnalyzer.upper_bound (s_values s)))
                          (to_floats (s_values s))))
    ++ entry_tail (select_dtypes_number data) (s_name s).
Proof.
  intros [Hsize Hnd] Hin. unfold DataAnalyzer.outlier_entry.
  unfold select_dtypes_number at 1.
  rewrite get_column_unique; [| now apply selected_names_distinct | exact Hin].
  cbv zeta. rewrite len_select_rows.
  - unfold DataAnalyzer.outlier_mask. now rewrite count_true_map.
  - unfold DataAnalyzer.outlier_mask. rewrite length_map, len_select_dtypes.
    apply filter_In in Hin. destruct Hin as [Hin Hnum].
    rewrite to_floats_length by exact Hnum.
    rewrite Forall_forall in Hsize. now apply Hsize.
Qed.

(** C4 (as amended).  On a table with at least one row and at least one
    numeric column, [detect_outliers] reports for every numeric column the
    bounds [Q1 - 1.5 (Q3 - Q1)] and [Q3 + 1.5 (Q3 - Q1)] of its first and
    third quartiles, computed in binary64 with a rounding at each
    operation, both in the format with three decimals, and as the count
    the number of cells strictly below the lower bound or strictly above
    the upper one, as these were computed.  A finite number in that
    format is the nearest thousandth, written with exactly three digits
    after the point. *)
Theorem detect_outliers_report (data : DataFrame) :
  let entry := fun s : Series =>
    let v := s_values s in
    let Q1 := quantile v (1 # 4) in
    let Q3 := quantile v (3 # 4) in
    let lower := Q1 -f Fin (3 # 2) *f (Q3 -f Q1) in
    let upper := Q3 +f Fin (3 # 2) *f (Q3 -f Q1) in
    let count := List.length (filter (fun x => Float.ltb x lower || Float.gtb x upper)
                                     (to_floats v)) in
    s_name s ++ ":" ++ nl
      ++ "  正常值范围: [" ++ Float.format_f 3 lower ++ ", " ++ Float.format_f 3 upper
      ++ "]" ++ nl
      ++ "  异常值数量: " ++ str_nat count
      ++ entry_tail (select_dtypes_number data) (s_name s) in
  well_formed data -> (0 < len data)%nat -> numeric_columns data <> [] ->
  DataAnalyzer.detect_outliers entry_tail data
  = "=== 异常值检测 ===" ++ nl ++ nl ++ "使用IQR方法检测异常值:" ++ nl ++ nl
    ++ String.concat "" (map entry (numeric_columns data))
  /\ (forall q : Q,
        exists k : Z,
          (0 <= k)%Z
          /\ Qabs (inject_Z k / 1000 - Qabs q) <= 1 # 2000
          /\ Float.format_f 3 (Fin q)
             = (if Qltb q 0 then "-" else "") ++ str_Z (k / 1000) ++ "."
                 ++ zfill 3 (str_Z (k mod 1000))
          /\ String.length (zfill 3 (str_Z (k mod 1000))) = 3%nat).
Proof.
  intros entry Hwf Hrows Hcols. split; [|exact format_f_3_finite].
  unfold DataAnalyzer.detect_outliers. cbv zeta.
  rewrite empty_numeric.
  replace (len data =? 0)%nat with false by (symmetry; apply Nat.eqb_neq; lia).
  replace (List.length (numeric_columns data) =? 0)%nat with false.
  2:{ symmetry. apply Nat.eqb_neq. intros E. apply Hcols.
      now apply length_zero_iff_nil. }
  cbn [orb]. rewrite !append_assoc. do 5 f_equal.
  unfold column_names. fold (numeric_columns data). rewrite map_map.
  do 2 f_equal. apply map_ext_in. intros s Hs.
  now rewrite (outlier_entry_text data s Hwf Hs).
Qed.

End OutlierReport.

Lemma detect_outliers_report_witness :
  DataAnalyzer.detect_outliers blank_line_tail table_outliers
  = "=== 异常值检测 ===" ++ nl ++ nl ++ "使用IQR方法检测异常值:" ++ nl ++ nl
    ++ "v:" ++ nl ++ "  正常值范围: [-1.000, 7.000]" ++ nl ++ "  异常值数量: 1" ++ nl ++ nl
    ++ "w:" ++ nl ++ "  正常值范围: [0.000, 4.000]" ++ nl ++ "  异常值数量: 0" ++ nl ++ nl.
Proof.
  refine (eq_trans (proj1 (detect_outliers_report blank_line_tail table_outliers _ _ _)) _).
  - apply well_formedb_spec. reflexivity.
  - vm_compute. lia.
  - discriminate.
  - vm_compute. reflexivity.
Defined.

(** The bounds are those that binary64 gives.  Of [1.2, 2.7, 1.7, 1.8]
    the upper bound is the number just below 2.7: it is printed as
    [2.700], and the cell 2.7 is counted above it. *)
Example detect_outliers_rounded_bound :
  DataAnalyzer.upper_bound (Float64 (column_floats (df_columns table_tenths) 0))
  = Fin (6079859496950169 # 2251799813685248)
  /\ Float.of_Q (27 # 10) = Fin (3039929748475085 # 1125899906842624)
  /\ DataAnalyzer.detect_outliers blank_line_tail table_tenths
     = "=== 异常值检测 ===" ++ nl ++ nl ++ "使用IQR方法检测异常值:" ++ nl ++ nl
       ++ "v:" ++ nl ++ "  正常值范围: [0.900, 2.700]" ++ nl ++ "  异常值数量: 1" ++ nl ++ nl.
Proof. split; [|split]; vm_compute; reflexivity. Qed.

(** The difference of two cells can overflow: of [-1e308, 1e308] the
    first quartile is [inf] and the third [-inf], the bounds are [inf]
    and [-inf], and both cells are counted. *)
Example detect_outliers_overflow :
  quantile (Float64 (column_floats (df_columns table_huge) 0)) (1 # 4) = Inf false
  /\ quantile (Float64 (column_floats (df_columns table_huge) 0)) (3 # 4) = Inf true
  /\ DataAnalyzer.detect_outliers blank_line_tail table_huge
     = "=== 异常值检测 ===" ++ nl ++ nl ++ "使用IQR方法检测异常值:" ++ nl ++ nl
       ++ "v:" ++ nl ++ "  正常值范围: [inf, -inf]" ++ nl ++ "  异常值数量: 2" ++ nl ++ nl.
Proof. split; [|split]; vm_compute; reflexivity. Qed.

Lemma detect_outliers_numeric_column_no_rows :
  List.length (numeric_columns table_one_numeric_no_rows) = 1%nat
  /\ DataAnalyzer.detect_outliers blank_line_tail table_one_numeric_no_rows
     = "没有数值型数据可用于异常值检测".
Proof. split; reflexivity. Qed.

(** ** Rendering *)

Lemma get_column_none (data : DataFrame) (c : string) :
  has_column data c = false -> get_column data c = None.
Proof.
  unfold has_column, get_column, column_names.
  induction (df_columns data) as [|s cols IH]; [reflexivity|].
  cbn [map existsb find]. destruct (String.eqb c (s_name s)); [discriminate|].
  exact IH.
Qed.

Lemma getitem_absent (data : DataFrame) (c : string) :
  has_column data c = false -> getitem data (Some c) = inl (KeyError (Some c)).
Proof.
  intros H. unfold getitem. now rewrite (get_column_none data c H).
Qed.

Lemma try_except_return {A : Type} (body : Render A) (handler : PyExc -> Render A)
      (ax ax' : Axes) (a : A) :
  body ax = (ax', Return a) -> try_except body handler ax = (ax', Return a).
Proof.
  intros H. unfold try_except. now rewrite H.
Qed.

Lemma try_except_raise {A : Type} (body : Render A) (handler : PyExc -> Render A)
      (ax ax' : Axes) (e : PyExc) :
  body ax = (ax', Raise e) -> try_except body handler ax = handler e ax'.
Proof.
  intros H. unfold try_except. now rewrite H.
Qed.

Lemma bind_raise {A B : Type} (m : Render A) (k : A -> Render B) (ax ax' : Axes) (e : PyExc) :
  m ax = (ax', Raise e) -> bind m k ax = (ax', Raise e).
Proof.
  intros H. unfold bind. now rewrite H.
Qed.

Lemma bind_return {A B : Type} (m : Render A) (k : A -> Render B) (ax ax' : Axes) (a : A) :
  m ax = (ax', Return a) -> bind m k ax = k a ax'.
Proof.
  intros H. unfold bind. now rewrite H.
Qed.

Section EngineFacts.

Variable sqrt : Q -> Q.
Variable pivot_table :
  DataFrame -> option string -> option string -> option string -> string
  -> PyExc + Pivot.
Variable value_counts : Values -> list (Label * nat).
Variable color_palette : string -> option nat -> PyExc + Colors.
Variable get_xticklabels : Axes -> list string.

Local Abbreviation select_strategy :=
  (VisualizationEngine.select_strategy sqrt pivot_table value_counts color_palette).
Local Abbreviation create_chart :=
  (VisualizationEngine.create_chart sqrt pivot_table value_counts color_palette
     get_xticklabels).
Local Abbreviation set_chart_labels :=
  (VisualizationEngine.set_chart_labels get_xticklabels).
Local Abbreviation first_color := (VisualizationEngine.first_color color_palette).

Lemma set_chart_labels_returns (chart_type : string) (x_col y_col : option string)
      (ax : Axes) :
  exists ax', set_chart_labels chart_type x_col y_col ax = (ax', Return tt).
Proof.
  unfold VisualizationEngine.set_chart_labels, VisualizationEngine.when, bind, call, ret.
  destruct (truthy x_col), (truthy y_col);
    repeat match goal with
           | |- context [match get_xticklabels ?a with _ => _ end] =>
               destruct (get_xticklabels a)
           | |- context [if ?b then _ else _] => destruct b
           end; eexists; reflexivity.
Qed.

Lemma create_chart_raise (data : DataFrame) (chart_type : string)
      (x_col y_col group_col : option string) (palette : string)
      (ax ax' : Axes) (e : PyExc) :
  select_strategy data chart_type x_col y_col group_col palette ax = (ax', Raise e) ->
  create_chart data chart_type x_col y_col group_col palette ax
  = (ax', Raise (Exception ("创建图表失败: " ++ exc_str e))).
Proof.
  intros H. unfold VisualizationEngine.create_chart.
  now rewrite (try_except_raise _ _ ax ax' e (bind_raise _ _ _ _ _ H)).
Qed.

Lemma create_chart_return (data : DataFrame) (chart_type : string)
      (x_col y_col group_col : option string) (palette : string) (ax ax' : Axes) :
  select_strategy data chart_type x_col y_col group_col palette ax = (ax', Return tt) ->
  create_chart data chart_type x_col y_col group_col palette ax
  = set_chart_labels chart_type x_col y_col ax'.
Proof.
  intros H. unfold VisualizationEngine.create_chart.
  destruct (set_chart_labels_returns chart_type x_col y_col ax') as [ax'' E].
  rewrite E. apply try_except_return. now rewrite (bind_return _ _ _ _ _ H).
Qed.

Lemma first_color_head (palette : string) (c : Color) (rest : Colors) (ax : Axes) :
  color_palette palette None = inr (c :: rest) ->
  first_color palette ax = (ax, Return c).
Proof.
  intros H. unfold VisualizationEngine.first_color, bind. now rewrite H.
Qed.

Lemma eqb_not_in (c k : string) (l : list string) :
  ~ In c l -> In k l -> String.eqb c k = false.
Proof.
  intros Hc Hk. apply String.eqb_neq. intros E. subst. contradiction.
Qed.

(** C6.  For every chart-kind tag outside the ten supported ones,
    [create_chart] raises a failure whose message carries the tag, and
    nothing is drawn on the axes. *)
Theorem create_chart_unknown_kind (data : DataFrame) (chart_type : string)
        (x_col y_col group_col : option string) (palette : string) (ax : Axes) :
  ~ In chart_type ["line"; "bar"; "scatter"; "pie"; "area"; "box"; "heatmap";
                   "distplot"; "violin"; "pairplot"] ->
  create_chart data chart_type x_col y_col group_col palette ax
  = (ax, Raise (Exception ("创建图表失败: 不支持的图表类型: " ++ chart_type))).
Proof.
  intros Hk.
  rewrite (create_chart_raise _ _ _ _ _ _ ax ax
             (ValueError ("不支持的图表类型: " ++ chart_type))); [reflexivity|].
  unfold VisualizationEngine.select_strategy.
  repeat (rewrite (eqb_not_in chart_type _ _ Hk) by (simpl; tauto)).
  reflexivity.
Qed.

(** C8.  A heatmap requested on a table without numeric columns, and a
    pair plot requested on a table with fewer than two numeric columns,
    make [create_chart] raise a failure with a message that names the
    unmet precondition; nothing is drawn on the axes. *)
Theorem create_chart_unmet_precondition (data : DataFrame)
        (x_col y_col group_col : option string) (palette : string) (ax : Axes) :
  (numeric_columns data = [] ->
   create_chart data "heatmap" x_col y_col group_col palette ax
   = (ax, Raise (Exception "创建图表失败: 没有数值型数据可用于热力图")))
  /\ ((List.length (numeric_columns data) < 2)%nat ->
      create_chart data "pairplot" x_col y_col group_col palette ax
      = (ax, Raise (Exception
                      (if empty (select_dtypes_number data)
                       then "创建图表失败: 没有数值型数据可用于配对图"
                       else "创建图表失败: 需要至少两个数值型变量用于配对图")))).
Proof.
  split.
  - intros Hn.
    rewrite (create_chart_raise _ _ _ _ _ _ ax ax (ValueError "没有数值型数据可用于热力图"));
      [reflexivity|].
    change (select_strategy data "heatmap" x_col y_col group_col palette)
      with (VisualizationEngine.create_heatmap sqrt data palette).
    unfold VisualizationEngine.create_heatmap.
    replace (empty (select_dtypes_number data)) with true; [reflexivity|].
    symmetry. apply empty_spec. right. exact Hn.
  - intros Hn.
    destruct (empty (select_dtypes_number data)) eqn:Ee.
    + rewrite (create_chart_raise _ _ _ _ _ _ ax ax (ValueError "没有数值型数据可用于配对图"));
        [reflexivity|].
      change (select_strategy data "pairplot" x_col y_col group_col palette)
        with (VisualizationEngine.create_pair_plot color_palette data group_col palette).
      unfold VisualizationEngine.create_pair_plot. now rewrite Ee.
    + rewrite (create_chart_raise _ _ _ _ _ _ ax ax
                 (ValueError "需要至少两个数值型变量用于配对图")); [reflexivity|].
      change (select_strategy data "pairplot" x_col y_col group_col palette)
        with (VisualizationEngine.create_pair_plot color_palette data group_col palette).
      unfold VisualizationEngine.create_pair_plot. rewrite Ee.
      fold (numeric_columns data).
      replace (2 <=? List.length (numeric_columns data))%nat with false; [reflexivity|].
      symmetry. apply Nat.leb_gt. exact Hn.
Qed.

Lemma grouped_guard (data : DataFrame) (g : string) :
  g <> "" -> In g (column_names data) ->
  truthy (Some g) && in_columns (Some g) data = true.
Proof.
  intros Hg Hin. apply andb_true_iff. split.
  - destruct g; [congruence | reflexivity].
  - cbn [in_columns]. unfold has_column. apply existsb_exists.
    exists g. split; [exact Hin | apply String.eqb_refl].
Qed.

(** The grouped branch of [create_bar_chart] and [create_area_chart]. *)
Lemma pivot_strategy (data : DataFrame) (chart_type : string)
      (x_col y_col : option string) (g palette : string) (ax : Axes) :
  g <> "" -> In g (column_names data) ->
  chart_type = "bar" \/ chart_type = "area" ->
  select_strategy data chart_type x_col y_col (Some g) palette ax
  = match pivot_table data y_col x_col (Some g)
                      (if String.eqb chart_type "bar" then "mean" else "sum") with
    | inl e => (ax, Raise e)
    | inr pivot_data =>
        match color_palette palette (Some (List.length (p_columns pivot_data))) with
        | inl e => (ax, Raise e)
        | inr colors =>
            ((ax ++ [frame_plot chart_type pivot_data colors; ax_legend (Some g)])%list,
             Return tt)
        end
    end.
Proof.
  intros Hg Hin Hk. pose proof (grouped_guard data g Hg Hin) as Hguard.
  destruct Hk as [Hk | Hk]; subst chart_type;
    unfold VisualizationEngine.select_strategy; cbn [String.eqb Ascii.eqb Bool.eqb];
    unfold VisualizationEngine.create_bar_chart, VisualizationEngine.create_area_chart;
    rewrite Hguard; unfold bind, call;
    (destruct (pivot_table data y_col x_col (Some g) _) as [e | pivot_data];
     cbn [lift raise ret]; [reflexivity|]);
    (destruct (color_palette palette _) as [e | colors];
     cbn [lift raise ret]; [reflexivity|]);
    now rewrite <- app_assoc.
Qed.

(** C9.  A bar or an area request whose group column is supplied and is a
    column of the table pivots the rows before anything is drawn, with the
    x-column as index, the group column as columns and the y-column as
    values, aggregated by the mean for a bar chart and by the sum for an
    area chart; the pivoted frame is what is plotted, with one colour of
    the palette per column of it, under a legend titled by the group
    column.  If the pivoting fails, or the palette after it, the failure
    is reported and nothing is drawn. *)
Theorem grouped_bar_area_pivot (data : DataFrame) (chart_type : string)
        (x_col y_col : option string) (g palette : string) (ax : Axes) :
  g <> "" -> In g (column_names data) ->
  chart_type = "bar" \/ chart_type = "area" ->
  create_chart data chart_type x_col y_col (Some g) palette ax
  = match pivot_table data y_col x_col (Some g)
                      (if String.eqb chart_type "bar" then "mean" else "sum") with
    | inl e => (ax, Raise (Exception ("创建图表失败: " ++ exc_str e)))
    | inr pivot_data =>
        match color_palette palette (Some (List.length (p_columns pivot_data))) with
        | inl e => (ax, Raise (Exception ("创建图表失败: " ++ exc_str e)))
        | inr colors =>
            set_chart_labels chart_type x_col y_col
              (ax ++ [frame_plot chart_type pivot_data colors; ax_legend (Some g)])%list
        end
    end.
Proof.
  intros Hg Hin Hk.
  pose proof (pivot_strategy data chart_type x_col y_col g palette ax Hg Hin Hk) as Hs.
  destruct (pivot_table data y_col x_col (Some g) _) as [e | pivot_data].
  - exact (create_chart_raise _ _ _ _ _ _ _ _ _ Hs).
  - destruct (color_palette palette _) as [e | colors].
    + exact (create_chart_raise _ _ _ _ _ _ _ _ _ Hs).
    + exact (create_chart_return _ _ _ _ _ _ _ _ Hs).
Qed.

(** The ungrouped branch of the four strategies with two axes. *)
Lemma ungrouped_strategy (data : DataFrame) (chart_type : string)
      (x_col y_col group_col : option string) (palette : string) (ax : Axes) :
  In chart_type ["line"; "bar"; "scatter"; "area"] ->
  truthy group_col && in_columns group_col data = false ->
  select_strategy data chart_type x_col y_col group_col palette ax
  = match getitem data x_col, getitem data y_col with
    | inl e, _ => (ax, Raise e)
    | inr _, inl e => (ax, Raise e)
    | inr x, inr y =>
        match color_palette palette None with
        | inr (c :: rest) =>
            ((ax ++ ungrouped_calls chart_type x y c (c :: rest))%list, Return tt)
        | inr [] =>
            if String.eqb chart_type "bar"
            then ((ax ++ [ax_bar x y []])%list, Return tt)
            else (ax, Raise (IndexError "list index out of range"))
        | inl e => (ax, Raise e)
        end
    end.
Proof.
  intros Hk Hguard.
  destruct Hk as [Hk | [Hk | [Hk | [Hk | []]]]]; subst chart_type;
    unfold VisualizationEngine.select_strategy; cbn [String.eqb Ascii.eqb Bool.eqb];
    unfold VisualizationEngine.create_line_chart, VisualizationEngine.create_bar_chart,
      VisualizationEngine.create_scatter_chart, VisualizationEngine.create_area_chart,
      VisualizationEngine.first_color;
    rewrite Hguard; unfold bind, call;
    destruct (getitem data x_col) as [e | x]; cbn [lift raise ret]; try reflexivity;
    destruct (getitem data y_col) as [e | y]; cbn [lift raise ret]; try reflexivity;
    destruct (color_palette palette None) as [e | [|c rest]];
    cbn [lift raise ret]; try reflexivity.
  unfold ungrouped_calls. cbn [String.eqb Ascii.eqb Bool.eqb].
  now rewrite <- app_assoc.
Qed.

Lemma pie_strategy_absent (data : DataFrame) (c : string)
      (y_col group_col : option string) (palette : string) (ax : Axes) :
  has_column data c = false ->
  select_strategy data "pie" (Some c) y_col group_col palette ax
  = (ax, Raise (KeyError (Some c))).
Proof.
  intros Hc.
  change (select_strategy data "pie" (Some c) y_col group_col palette)
    with (VisualizationEngine.create_pie_chart value_counts color_palette data (Some c)
            palette).
  unfold VisualizationEngine.create_pie_chart. apply bind_raise.
  now rewrite (getitem_absent data c Hc).
Qed.

End EngineFacts.

Lemma create_chart_unknown_kind_witness :
  VisualizationEngine.create_chart Qsqrt simple_pivot_table simple_value_counts
    simple_color_palette no_ticklabels table_xy "radar" (Some "x") (Some "y") None
    "viridis" []
  = ([], Raise (Exception "创建图表失败: 不支持的图表类型: radar")).
Proof.
  apply (create_chart_unknown_kind Qsqrt simple_pivot_table simple_value_counts
           simple_color_palette no_ticklabels table_xy "radar").
  simpl. intuition discriminate.
Defined.

Lemma create_chart_unmet_precondition_witness :
  VisualizationEngine.create_chart Qsqrt simple_pivot_table simple_value_counts
    simple_color_palette no_ticklabels table_text_only "heatmap" (Some "name") None None
    "viridis" []
  = ([], Raise (Exception "创建图表失败: 没有数值型数据可用于热力图"))
  /\ VisualizationEngine.create_chart Qsqrt simple_pivot_table simple_value_counts
       simple_color_palette no_ticklabels table_one_numeric "pairplot" (Some "a") None None
       "viridis" []
     = ([], Raise (Exception "创建图表失败: 需要至少两个数值型变量用于配对图")).
Proof.
  split.
  - apply (create_chart_unmet_precondition Qsqrt simple_pivot_table simple_value_counts
             simple_color_palette no_ticklabels table_text_only). reflexivity.
  - apply (create_chart_unmet_precondition Qsqrt simple_pivot_table simple_value_counts
             simple_color_palette no_ticklabels table_one_numeric (Some "a") None None
             "viridis" []).
    vm_compute. lia.
Defined.

Lemma grouped_bar_area_pivot_witness :
  VisualizationEngine.create_chart Qsqrt simple_pivot_table simple_value_counts
    simple_color_palette no_ticklabels table_xyg "area" (Some "x") (Some "y") (Some "g")
    "viridis" []
  = ([ frame_plot "area"
         (mkPivot [LInt 1; LInt 2] [LStr "a"; LStr "b"]
                  [[Fin 10; Fin 20]; [Fin 80; NaN]])
         [color_of "viridis" 0; color_of "viridis" 1];
       ax_legend (Some "g");
       ax_set_xlabel "x" 12; ax_set_ylabel "y" (Some 12%Z);
       ax_set_title "面积图" 14 "bold"; ax_grid true (3 # 10);
       ax_tick_params "both" "major" 10 ],
     Return tt).
Proof.
  refine (eq_trans (grouped_bar_area_pivot Qsqrt simple_pivot_table simple_value_counts
                      simple_color_palette no_ticklabels table_xyg "area" (Some "x")
                      (Some "y") "g" "viridis" [] _ _ _) _).
  - discriminate.
  - simpl. tauto.
  - right. reflexivity.
  - reflexivity.
Defined.

(** * Further properties of the code *)

(** ** The overview and the descriptive statistics *)

Lemma count_true_negb (l : list bool) :
  (count_true (map negb l) + count_true l = List.length l)%nat.
Proof.
  unfold count_true. induction l as [|b l IH]; [reflexivity|].
  destruct b; cbn [map negb filter List.length]; lia.
Qed.

Lemma count_nonnull_spec (v : Values) :
  count_nonnull v = (size v - count_true (isnull v))%nat
  /\ (count_true (isnull v) <= size v)%nat.
Proof.
  unfold count_nonnull. pose proof (count_true_negb (isnull v)) as H.
  rewrite isnull_length in H. lia.
Qed.

Lemma append_cancel_nil (a b : string) : a ++ b = a -> b = "".
Proof.
  induction a as [|c a IH]; cbn [append]; intros H; [exact H|].
  injection H as H. now apply IH.
Qed.

Lemma filter_nil_none {A : Type} (p : A -> bool) (l : list A) :
  filter p l = [] <-> Forall (fun x => p x = false) l.
Proof.
  induction l as [|x l IH]; cbn [filter]; [split; intros; constructor|].
  destruct (p x) eqn:E; split; intros H.
  - discriminate.
  - inversion H; congruence.
  - constructor; [exact E | now apply IH].
  - inversion H; now apply IH.
Qed.

Section DescriptiveFacts.

Variable memory_usage : DataFrame -> nat.
Variable describe_to_string : DataFrame -> string.
Variable value_counts : Values -> list (Label * nat).
Variable counts_to_string : list (Label * nat) -> string.

(** X1.  In the overview of a table that keeps the invariant, the line
    of every column gives its dtype, the number of its missing cells
    and, as the number of the others, the number of rows less the
    missing ones: the two counts of a line add up to the number of rows
    of the shape line. *)
Theorem get_data_overview_counts (data : DataFrame) :
  let nulls := fun s : Series => count_true (isnull (s_values s)) in
  well_formed data ->
  get_data_overview memory_usage data
  = "=== 数据概览 ===" ++ nl ++ nl
    ++ "数据形状: (" ++ str_nat (len data) ++ ", "
    ++ str_nat (List.length (df_columns data)) ++ ")"
    ++ " (行数: " ++ str_nat (len data)
    ++ ", 列数: " ++ str_nat (List.length (df_columns data)) ++ ")" ++ nl ++ nl
    ++ "列信息:" ++ nl
    ++ String.concat ""
         (map (fun s => "  " ++ s_name s ++ ": " ++ dtype_name (s_values s)
                          ++ " (非空值: " ++ str_nat (len data - nulls s)
                          ++ ", 空值: " ++ str_nat (nulls s) ++ ")" ++ nl)
              (df_columns data))
    ++ nl ++ "内存使用: "
    ++ Float.format_f 2 (Float.of_nat (memory_usage data) /f Float.of_Z (1024 ^ 2))
    ++ " MB" ++ nl
  /\ Forall (fun s => (nulls s <= len data)%nat) (df_columns data).
Proof.
  intros nulls [Hsize Hnd]. split.
  - unfold get_data_overview. cbv zeta.
    replace (map (overview_line data) (column_names data))
      with (map (fun s => "  " ++ s_name s ++ ": " ++ dtype_name (s_values s)
                            ++ " (非空值: " ++ str_nat (len data - nulls s)
                            ++ ", 空值: " ++ str_nat (nulls s) ++ ")" ++ nl)
                (df_columns data)).
    + unfold str_shape, shape. cbn [fst snd]. now rewrite !append_assoc.
    + symmetry. unfold column_names. rewrite map_map. apply map_ext_in. intros s Hs.
      unfold overview_line. destruct data as [idx cols].
      rewrite (get_column_unique cols idx s Hnd Hs). cbv zeta.
      rewrite Forall_forall in Hsize. specialize (Hsize s Hs).
      destruct (count_nonnull_spec (s_values s)) as [E _]. rewrite E, Hsize.
      reflexivity.
  - rewrite Forall_forall in *. intros s Hs. unfold nulls.
    rewrite <- (Hsize s Hs). apply count_nonnull_spec.
Qed.


Lemma len_select_dtypes_categorical (data : DataFrame) :
  len (select_dtypes_categorical data) = len data.
Proof. reflexivity. Qed.

Lemma empty_false (data : DataFrame) :
  empty data = false <-> (0 < len data)%nat /\ df_columns data <> [].
Proof.
  unfold empty, shape. cbn [fst snd]. rewrite orb_false_iff, !Nat.eqb_neq.
  rewrite length_zero_iff_nil. split; intros [H1 H2]; (split; [lia | exact H2]).
Qed.

(** X2.  The descriptive statistics are the bare heading exactly when
    the table has no row, or has no column that is selected as numeric
    and no column that is selected as text (object or category): a table
    without rows gets neither section, whatever its columns are, and a
    column of another type, a boolean column for one, is in neither
    section. *)
Theorem get_descriptive_statistics_heading_only (data : DataFrame) :
  get_descriptive_statistics describe_to_string value_counts counts_to_string data
  = "=== 描述性统计 ===" ++ nl ++ nl
  <-> len data = 0%nat
      \/ Forall (fun s => is_number (s_values s) = false
                          /\ is_categorical (s_values s) = false) (df_columns data).
Proof.
  unfold get_descriptive_statistics. cbv zeta.
  remember ("=== 描述性统计 ===" ++ nl ++ nl) as heading eqn:Eh.
  assert (Hrows : forall keep : Series -> bool,
             empty (mkDataFrame (df_index data) (filter keep (df_columns data))) = true
             <-> len data = 0%nat \/ Forall (fun s => keep s = false) (df_columns data)).
  { intros keep. rewrite empty_spec. cbn [df_columns]. unfold len. cbn [df_index].
    now rewrite filter_nil_none. }
  pose proof (Hrows (fun s => is_number (s_values s))) as Hn.
  pose proof (Hrows (fun s => is_categorical (s_values s))) as Hc.
  fold (select_dtypes_number data) in Hn. fold (select_dtypes_categorical data) in Hc.
  assert (Hboth : len data = 0%nat
                  \/ Forall (fun s => is_number (s_values s) = false
                                      /\ is_categorical (s_values s) = false)
                            (df_columns data)
                  <-> empty (select_dtypes_number data) = true
                      /\ empty (select_dtypes_categorical data) = true).
  { rewrite Hn, Hc. split.
    - intros [H | H]; [now split; left|].
      split; right; eapply Forall_impl; try exact H; intros s Hs; apply Hs.
    - intros [[H | H1] [H' | H2]]; try (now left). right.
      rewrite Forall_forall in *. intros s Hs.
      split; [now apply H1 | now apply H2]. }
  rewrite Hboth. clear Hrows Hn Hc Hboth.
  destruct (empty (select_dtypes_number data));
    destruct (empty (select_dtypes_categorical data)); cbn [negb];
    (split; [intros H | intros [H1 H2]; try discriminate; reflexivity]).
  - now split.
  - rewrite ?append_assoc in H. apply append_cancel_nil in H. discriminate.
  - rewrite ?append_assoc in H. apply append_cancel_nil in H. discriminate.
  - rewrite ?append_assoc in H. apply append_cancel_nil in H. discriminate.
Qed.

(** X3.  On a table with rows that keeps the invariant, the descriptive
    statistics have the numeric section when there is a numeric column,
    and then one entry per text column, in the order of the table: at
    most ten of the counted values, followed, when there are more, by
    the number of the values left out. *)
Theorem get_descriptive_statistics_sections (data : DataFrame) :
  let counts := fun s : Series => value_counts (s_values s) in
  let entry := fun s : Series =>
    nl ++ s_name s ++ ":" ++ nl
      ++ counts_to_string (firstn 10 (counts s))
      ++ (if (List.length (counts s) <=? 10)%nat then ""
          else nl ++ "... 和其他 " ++ str_nat (List.length (counts s) - 10) ++ " 个类别") in
  well_formed data -> (0 < len data)%nat ->
  get_descriptive_statistics describe_to_string value_counts counts_to_string data
  = "=== 描述性统计 ===" ++ nl ++ nl
    ++ match numeric_columns data with
       | [] => ""
       | _ => "数值型变量统计:" ++ nl
                ++ describe_to_string (select_dtypes_number data) ++ nl ++ nl
       end
    ++ match df_columns (select_dtypes_categorical data) with
       | [] => ""
       | texts => "分类型变量统计:" ++ nl ++ String.concat "" (map entry texts) ++ nl
       end
  /\ Forall (fun s =>
               (List.length (firstn 10 (counts s)) <= 10)%nat
               /\ (List.length (firstn 10 (counts s)) + (List.length (counts s) - 10)
                   = List.length (counts s))%nat)
            (df_columns (select_dtypes_categorical data)).
Proof.
  intros counts entry [Hsize Hnd] Hrows. split.
  2:{ apply Forall_forall. intros s _. rewrite length_firstn. lia. }
  unfold get_descriptive_statistics. cbv zeta.
  assert (E : forall d, len d = len data ->
                        empty d = match df_columns d with [] => true | _ => false end).
  { intros d Hd. unfold empty, shape. cbn [fst snd]. rewrite Hd.
    replace (len data =? 0)%nat with false by (symmetry; apply Nat.eqb_neq; lia).
    now destruct (df_columns d). }
  rewrite (E (select_dtypes_number data)) by apply len_select_dtypes.
  rewrite (E (select_dtypes_categorical data)) by reflexivity.
  fold (numeric_columns data).
  replace (map (category_entry value_counts counts_to_string data)
               (column_names (select_dtypes_categorical data)))
    with (map entry (df_columns (select_dtypes_categorical data))).
  - destruct (numeric_columns data);
      destruct (df_columns (select_dtypes_categorical data)); cbn [negb];
      now rewrite ?append_assoc.
  - symmetry. unfold column_names. rewrite map_map. apply map_ext_in. intros s Hs.
    unfold category_entry. cbn [select_dtypes_categorical df_columns] in Hs.
    apply filter_In in Hs. destruct Hs as [Hs _]. destruct data as [idx cols].
    rewrite (get_column_unique cols idx s Hnd Hs). cbv zeta. unfold entry, counts.
    rewrite Nat.leb_antisym.
    now destruct (10 <? List.length (value_counts (s_values s)))%nat.
Qed.

End DescriptiveFacts.

(** ** Missing values: the totals *)

Lemma sum_bounded (r : nat) (l : list nat) :
  Forall (fun m => (m <= r)%nat) l ->
  (fold_right Nat.add 0 l <= r * List.length l)%nat.
Proof.
  induction 1 as [|m l Hm _ IH]; cbn [fold_right List.length]; lia.
Qed.

Lemma total_missing_le_cells (data : DataFrame) :
  well_formed data ->
  (DataAnalyzer.total_missing data <= DataAnalyzer.total_cells data)%nat.
Proof.
  intros Hwf. unfold DataAnalyzer.total_missing, DataAnalyzer.total_cells, shape.
  cbn [fst snd].
  replace (List.length (df_columns data))
    with (List.length (map snd (isnull_sum data)))
    by (unfold isnull_sum; now rewrite !length_map).
  apply sum_bounded. apply Forall_forall. intros m Hm.
  apply in_map_iff in Hm. destruct Hm as [[name m'] [E Hin]]. cbn [snd] in E. subst m'.
  exact (isnull_sum_bound data name m Hwf Hin).
Qed.

Section MissingTotals.

Variable to_string : DataFrame -> string.

(** X4.  On a table with rows and columns that keeps the invariant, the
    overall proportion that [analyze_missing_values] prints is the
    format with two decimals of a binary64 number between 0 and 100, the
    missing cells being at most all the cells: it is neither [nan] nor
    [inf], and the number is the percentage of the missing cells up to
    the rounding of the division and of the product. *)
Theorem analyze_missing_values_overall_percent (data : DataFrame) :
  let missing := DataAnalyzer.total_missing data in
  let cells := DataAnalyzer.total_cells data in
  well_formed data -> (0 < len data)%nat -> df_columns data <> [] ->
  (Z.of_nat cells <= 2 ^ 53)%Z ->
  (missing <= cells)%nat
  /\ exists q : Q,
       Float.of_nat missing /f Float.of_nat cells *f Float.of_Z 100 = Fin q
       /\ 0 <= q <= 100
       /\ Qabs (q - 100 * inject_Z (Z.of_nat missing) / inject_Z (Z.of_nat cells))
          <= 1 # 10000000000000
       /\ exists before after,
            DataAnalyzer.analyze_missing_values to_string data
            = before ++ "缺失值比例: " ++ Float.format_f 2 (Fin q) ++ "%" ++ after.
Proof.
  intros missing cells Hwf Hrows Hcols Hsmall.
  pose proof (total_missing_le_cells data Hwf) as Hle. fold missing cells in Hle.
  split; [exact Hle|].
  assert (Hcells : (0 < cells)%nat).
  { unfold cells, DataAnalyzer.total_cells, shape. cbn [fst snd].
    destruct (df_columns data); [congruence | cbn [List.length]; nia]. }
  destruct (ratio_rounded missing cells Hcells Hle Hsmall) as [x [Ex [Hx Bx]]].
  destruct (percent_of_ratio x Hx) as [q [Eq [Hq Bq]]].
  exists q. split; [now rewrite Ex|]. split; [exact Hq|]. split.
  - apply Qabs_Qle_condition in Bx, Bq. apply Qabs_Qle_condition.
    change (pow2 (-53)) with (1 # 9007199254740992) in Bx.
    change (pow2 (-46)) with (1 # 70368744177664) in Bq.
    set (t := inject_Z (Z.of_nat missing) / inject_Z (Z.of_nat cells)) in *.
    assert (Et : 100 * inject_Z (Z.of_nat missing) / inject_Z (Z.of_nat cells) == 100 * t)
      by (unfold t, Qdiv; ring).
    rewrite Et. split; lra.
  - exists ("=== 缺失值分析 ===" ++ nl ++ nl
            ++ "总数据点: " ++ str_nat cells ++ nl
            ++ "总缺失值: " ++ DataAnalyzer.str_total_missing data ++ nl).
    exists (nl ++ nl ++ "各列缺失值统计:" ++ nl
            ++ if negb (empty (DataAnalyzer.missing_df data))
               then to_string (DataAnalyzer.missing_df data)
               else "  没有缺失值").
    unfold DataAnalyzer.analyze_missing_values. cbv zeta. fold missing cells.
    rewrite Ex, Eq.
    destruct (negb (empty (DataAnalyzer.missing_df data)));
      rewrite !append_assoc; reflexivity.
Qed.

End MissingTotals.

Lemma sum_positive_part (l : list (string * nat)) :
  fold_right Nat.add 0%nat (map snd (filter (fun nc => (0 <? snd nc)%nat) l))
  = fold_right Nat.add 0%nat (map snd l).
Proof.
  induction l as [|[name m] l IH]; [reflexivity|].
  cbn [filter snd map fold_right]. destruct (0 <? m)%nat eqn:E.
  - cbn [map fold_right snd]. now rewrite IH.
  - apply Nat.ltb_ge in E. rewrite IH. lia.
Qed.

(** X5.  The listing of [analyze_missing_values] loses no missing cell:
    the counts of the listed columns add up to the total printed above
    them; there are at most as many rows as the table has columns, and
    the message that nothing is missing stands in for the listing
    exactly when that total is zero. *)
Theorem missing_df_accounts_for_total (data : DataFrame) :
  exists counts : list nat,
    get_column (DataAnalyzer.missing_df data) "缺失数量"
    = Some (mkSeries "缺失数量" (Int64 (map Z.of_nat counts)))
    /\ Forall (fun m => (0 < m)%nat) counts
    /\ fold_right Nat.add 0%nat counts = DataAnalyzer.total_missing data
    /\ len (DataAnalyzer.missing_df data) = List.length counts
    /\ (List.length counts <= List.length (df_columns data))%nat
    /\ (empty (DataAnalyzer.missing_df data) = true
        <-> DataAnalyzer.total_missing data = 0%nat).
Proof.
  set (rows := filter (fun nc => (0 <? snd nc)%nat) (isnull_sum data)).
  assert (Hsum : fold_right Nat.add 0%nat (map snd rows) = DataAnalyzer.total_missing data)
    by apply sum_positive_part.
  assert (Hpos : Forall (fun m => (0 < m)%nat) (map snd rows)).
  { apply Forall_map, Forall_forall. intros nc Hnc. apply filter_In in Hnc.
    now apply Nat.ltb_lt. }
  exists (map snd rows). rewrite missing_df_rows. cbv zeta. fold rows.
  split; [now rewrite !map_map|]. split; [exact Hpos|]. split; [exact Hsum|].
  split; [unfold len; cbn [df_index index_len]; now rewrite !length_map|].
  split.
  - rewrite length_map. unfold rows.
    etransitivity; [apply filter_length_le|]. unfold isnull_sum. now rewrite length_map.
  - rewrite empty_spec. unfold len. cbn [df_index index_len df_columns].
    rewrite <- Hsum, length_map. split.
    + intros [H | H]; [|discriminate].
      apply length_zero_iff_nil in H. now rewrite H.
    + intros H. left. destruct rows as [|nc rows']; [reflexivity|].
      cbn [map fold_right] in H. inversion Hpos; subst. lia.
Qed.

(** ** Outliers: what is never counted *)

Lemma ltb_nan_l (y : float) : Float.ltb NaN y = false.
Proof. reflexivity. Qed.

Lemma ltb_nan_r (x : float) : Float.ltb x NaN = false.
Proof. now destruct x. Qed.

Lemma filter_length_impl {A : Type} (p q : A -> bool) (l : list A) :
  (forall x, p x = true -> q x = true) ->
  (List.length (filter p l) <= List.length (filter q l))%nat.
Proof.
  intros H. induction l as [|x l IH]; [reflexivity|]. cbn [filter].
  destruct (p x) eqn:E.
  - rewrite (H x E). cbn [List.length]. lia.
  - destruct (q x); cbn [List.length]; lia.
Qed.

Lemma dropna_nil (xs : list float) :
  Forall (fun x => x = NaN) xs -> dropna xs = [].
Proof.
  unfold dropna. induction 1 as [|x l E _ IH]; [reflexivity|]. subst x. exact IH.
Qed.


Lemma quantile_all_missing (v : Values) (q : Q) :
  Forall (fun x => x = NaN) (to_floats v) -> quantile v q = NaN.
Proof.
  intros H. unfold quantile. destruct v as [xs | xs | xs | xs];
    try (now rewrite (dropna_nil _ H)).
  destruct xs as [|x xs]; [reflexivity|].
  cbn [to_floats map] in H. inversion H as [|? ? Hx _]; subst.
  now apply round64_not_nan in Hx.
Qed.

(** The cases of a sum, of a difference and of a product by 1.5: the
    result of an operation on two numbers is a number or an infinity. *)
Ltac float_cases :=
  cbn [Float.sub Float.opp Float.add Float.mul negb Bool.eqb xorb];
  try change (Qeq_bool (3 # 2) 0) with false;
  try change (Qltb (3 # 2) 0) with false;
  cbn [Float.sub Float.opp Float.add Float.mul negb Bool.eqb xorb];
  repeat match goal with
         | |- context [round64 ?q] =>
             let E := fresh "E" in
             destruct (round64 q) as [? | [|] |] eqn:E;
             [ | | | exfalso; exact (round64_not_nan _ E)];
             cbn [Float.sub Float.opp Float.add Float.mul negb Bool.eqb xorb];
             try change (Qeq_bool (3 # 2) 0) with false;
             try change (Qltb (3 # 2) 0) with false;
             cbn [Float.sub Float.opp Float.add Float.mul negb Bool.eqb xorb]
         end.

Lemma bounds_nan_together (v : Values) :
  DataAnalyzer.lower_bound v = NaN <-> DataAnalyzer.upper_bound v = NaN.
Proof.
  unfold DataAnalyzer.lower_bound, DataAnalyzer.upper_bound. cbv zeta.
  destruct (quantile v (1 # 4)) as [a | [|] |], (quantile v (3 # 4)) as [b | [|] |];
    float_cases; split; intros H; try discriminate H; reflexivity.
Qed.

(** X6.  A missing cell is never counted as an outlier: the count that
    [detect_outliers] prints for a numeric column is the number of its
    cells outside the bounds, at most the number of its cells that are
    not missing, and it is zero whenever one of the bounds is NaN. *)
Theorem outlier_count_skips_missing (data : DataFrame) (s : Series) :
  let v := s_values s in
  well_formed data -> In s (numeric_columns data) ->
  len (select_rows (DataAnalyzer.outlier_mask v) (select_dtypes_number data))
  = count_true (DataAnalyzer.outlier_mask v)
  /\ (count_true (DataAnalyzer.outlier_mask v)
      <= List.length (dropna (to_floats v)))%nat
  /\ (count_true (DataAnalyzer.outlier_mask v) <= len data)%nat
  /\ (DataAnalyzer.lower_bound v = NaN \/ DataAnalyzer.upper_bound v = NaN ->
      count_true (DataAnalyzer.outlier_mask v) = 0%nat).
Proof.
  intros v [Hsize Hnd] Hin.
  assert (Hlen : List.length (DataAnalyzer.outlier_mask v) = len data).
  { unfold DataAnalyzer.outlier_mask. rewrite length_map.
    apply filter_In in Hin. destruct Hin as [Hin Hnum].
    rewrite to_floats_length by exact Hnum.
    rewrite Forall_forall in Hsize. now apply Hsize. }
  split; [apply len_select_rows; now rewrite len_select_dtypes|].
  split; [|split].
  - unfold DataAnalyzer.outlier_mask. rewrite count_true_map. unfold dropna.
    apply filter_length_impl. intros x Hx. destruct x; try reflexivity.
    unfold Float.gtb in Hx. now rewrite ltb_nan_l, ltb_nan_r in Hx.
  - rewrite <- Hlen. apply count_true_le.
  - intros Hb. unfold DataAnalyzer.outlier_mask. rewrite count_true_map.
    unfold Float.gtb.
    assert (El : DataAnalyzer.lower_bound v = NaN)
      by (destruct Hb as [H | H]; [exact H | now apply bounds_nan_together]).
    assert (Eu : DataAnalyzer.upper_bound v = NaN) by now apply bounds_nan_together.
    rewrite El, Eu. apply length_zero_iff_nil, filter_nil_none, Forall_forall.
    intros x _. now rewrite ltb_nan_l, ltb_nan_r.
Qed.

(** ** Quartiles of a constant column *)












(** X9.  A numeric column in which every cell is missing gets the range
    [[nan, nan]] and the count 0. *)
Theorem all_missing_column_range (v : Values) :
  Forall (fun x => x = NaN) (to_floats v) ->
  Float.format_f 3 (DataAnalyzer.lower_bound v) = "nan"
  /\ Float.format_f 3 (DataAnalyzer.upper_bound v) = "nan"
  /\ count_true (DataAnalyzer.outlier_mask v) = 0%nat.
Proof.
  intros H.
  assert (El : DataAnalyzer.lower_bound v = NaN).
  { unfold DataAnalyzer.lower_bound. cbv zeta. now rewrite !(quantile_all_missing v _ H). }
  assert (Eu : DataAnalyzer.upper_bound v = NaN) by now apply bounds_nan_together.
  rewrite El, Eu. split; [reflexivity|]. split; [reflexivity|].
  unfold DataAnalyzer.outlier_mask. rewrite count_true_map, El, Eu.
  apply length_zero_iff_nil, filter_nil_none, Forall_forall. intros x _.
  unfold Float.gtb. now rewrite ltb_nan_l, ltb_nan_r.
Qed.

(** ** Correlations: a column that does not vary *)

Lemma gtb_abs_nan (t : float) : Float.gtb (Float.abs NaN) t = false.
Proof. unfold Float.gtb. cbn [Float.abs]. apply ltb_nan_r. Qed.

Section ConstantColumn.

Variable sqrt : Q -> Q.
Hypothesis sqrt_zero : forall x, x == 0 -> sqrt x == 0.

(** X10.  A numeric column without two different finite cells has NaN
    in its whole row and its whole column of the correlation matrix, the
    diagonal included, and is in none of the pairs that
    [analyze_correlations] lists as strong. *)
Theorem constant_column_never_strong (data : DataFrame) (i : nat) :
  let cols := numeric_columns data in
  let m := corr sqrt (select_dtypes_number data) in
  well_formed data -> (i < List.length cols)%nat ->
  varies (column_floats cols i) = false ->
  (forall j, iloc m i j = NaN /\ iloc m j i = NaN)
  /\ forall col1 col2 r,
       In (col1, col2, r) (DataAnalyzer.strong_correlations m) ->
       col1 <> column_name cols i /\ col2 <> column_name cols i.
Proof.
  intros cols m [_ Hnd] Hi Hv.
  assert (Hrow : forall j, pearson sqrt (column_floats cols i) (column_floats cols j) = NaN)
    by (intros j; now apply (pearson_constant sqrt sqrt_zero)).
  assert (Hcol : forall j, pearson sqrt (column_floats cols j) (column_floats cols i) = NaN)
    by (intros j; rewrite pearson_sym; apply Hrow).
  assert (Em : m = corr sqrt (mkDataFrame (df_index data) cols)) by reflexivity.
  split.
  - intros j. rewrite Em, !iloc_corr. now split.
  - intros col1 col2 r Hin. rewrite Em, strong_correlations_corr in Hin.
    apply in_map_iff in Hin. destruct Hin as [[a b] [E Hab]]. cbn [fst snd] in E.
    injection E as E1 E2 E3. apply filter_In in Hab. destruct Hab as [Hab Hs].
    cbn [fst snd] in Hs. apply upper_pairs_spec in Hab.
    assert (Hnames : NoDup (map s_name cols))
      by (apply selected_names_distinct; exact Hnd).
    assert (Hinj : forall k, (k < List.length cols)%nat ->
                             column_name cols k = column_name cols i -> k = i).
    { intros k Hk E. unfold column_name in E.
      apply (proj1 (NoDup_nth (map s_name cols) "") Hnames);
        rewrite ?length_map; assumption. }
    split; intros E; subst.
    + apply Hinj in E; [|lia]. subst a. now rewrite Hrow, gtb_abs_nan in Hs.
    + apply Hinj in E; [|lia]. subst b. now rewrite Hcol, gtb_abs_nan in Hs.
Qed.

End ConstantColumn.

(** ** Rendering: the labels, the groups, the failures *)

Lemma max_len_above (n : nat) (labels : list string) :
  (n < VisualizationEngine.max_len labels)%nat
  <-> exists text, In text labels /\ (n < py_len text)%nat.
Proof.
  unfold VisualizationEngine.max_len.
  induction labels as [|t l IH]; cbn [map fold_right].
  - split; [lia | intros [t [[] _]]].
  - rewrite Nat.max_lt_iff, IH. split.
    + intros [H | [t' [Hin H]]]; [exists t; split; [now left | exact H]|].
      exists t'. split; [now right | exact H].
    + intros [t' [[<- | Hin] H]]; [now left | right; now exists t'].
Qed.

Lemma get_column_select_rows (mask : list bool) (data : DataFrame) (c : string) :
  get_column (select_rows mask data) c
  = option_map (fun s => mkSeries (s_name s) (select_values mask (s_values s)))
               (get_column data c).
Proof.
  unfold get_column, select_rows. cbn [df_columns].
  induction (df_columns data) as [|s cols IH]; [reflexivity|].
  cbn [map find s_name]. now destruct (String.eqb c (s_name s)).
Qed.

Lemma getitem_select_rows (mask : list bool) (data : DataFrame) (c : option string) :
  getitem (select_rows mask data) c
  = match getitem data c with
    | inl e => inl e
    | inr s => inr (mkSeries (s_name s) (select_values mask (s_values s)))
    end.
Proof.
  unfold getitem. destruct c as [name|]; [|reflexivity].
  rewrite get_column_select_rows. now destruct (get_column data name).
Qed.

Lemma getitem_has_column (data : DataFrame) (c : string) (s : Series) :
  getitem data (Some c) = inr s -> has_column data c = true.
Proof.
  unfold getitem. destruct (has_column data c) eqn:E; [reflexivity|].
  now rewrite (get_column_none data c E).
Qed.

Lemma groupby_keys (data : DataFrame) (g : string) (grouping : Series) :
  getitem data (Some g) = inr grouping ->
  groupby data g
  = map (fun k => (k, select_rows (map (key_is k) (keys_of (s_values grouping))) data))
        (group_keys (s_values grouping)).
Proof.
  unfold getitem, groupby. destruct (get_column data g) as [s|]; [|discriminate].
  intros E. injection E as <-. reflexivity.
Qed.

Lemma for_each_draws {A : Type} (l : list A) (body : A -> Render unit) (f : A -> Call)
      (ax : Axes) :
  (forall a ax', body a ax' = ((ax' ++ [f a])%list, Return tt)) ->
  for_each l body ax = ((ax ++ map f l)%list, Return tt).
Proof.
  intros H. revert ax. induction l as [|a l IH]; intros ax; cbn [for_each map].
  - unfold ret. now rewrite app_nil_r.
  - unfold bind. rewrite H, IH. now rewrite <- app_assoc.
Qed.

Lemma for_each_fails {A : Type} (l : list A) (body : A -> Render unit) (e : PyExc)
      (ax : Axes) :
  l <> [] -> (forall a ax', body a ax' = (ax', Raise e)) ->
  for_each l body ax = (ax, Raise e).
Proof.
  intros Hl H. destruct l as [|a l]; [congruence|].
  cbn [for_each]. unfold bind. now rewrite H.
Qed.


Lemma for_each_map {A B : Type} (h : A -> B) (l : list A) (body : B -> Render unit) :
  for_each (map h l) body = for_each l (fun a => body (h a)).
Proof.
  induction l as [|a l IH]; [reflexivity|]. cbn [map for_each]. now rewrite IH.
Qed.

Lemma has_column_getitem (data : DataFrame) (c : string) :
  has_column data c = true -> exists s, getitem data (Some c) = inr s.
Proof.
  unfold has_column, getitem, get_column, column_names.
  induction (df_columns data) as [|s cols IH]; [discriminate|].
  cbn [map existsb find]. destruct (String.eqb c (s_name s)); [now exists s|].
  exact IH.
Qed.

Lemma guard_true (group_col : option string) (data : DataFrame) :
  truthy group_col && in_columns group_col data = true ->
  exists g grouping,
    group_col = Some g /\ g <> "" /\ getitem data (Some g) = inr grouping.
Proof.
  destruct group_col as [g|]; [|discriminate]. cbn [in_columns].
  intros H. apply andb_true_iff in H. destruct H as [Ht Hc].
  destruct (has_column_getitem data g Hc) as [s Hs].
  exists g, s. split; [reflexivity|]. split; [|exact Hs]. now intros ->.
Qed.

Lemma guard_of_getitem (data : DataFrame) (g : string) (grouping : Series) :
  g <> "" -> getitem data (Some g) = inr grouping ->
  truthy (Some g) && in_columns (Some g) data = true.
Proof.
  intros Hg Hs. cbn [in_columns]. rewrite (getitem_has_column data g grouping Hs).
  destruct g; [congruence | reflexivity].
Qed.

Section EngineDraws.

Variable sqrt : Q -> Q.
Variable pivot_table :
  DataFrame -> option string -> option string -> option string -> string
  -> PyExc + Pivot.
Variable value_counts : Values -> list (Label * nat).
Variable color_palette : string -> option nat -> PyExc + Colors.
Variable get_xticklabels : Axes -> list string.

Local Abbreviation select_strategy :=
  (VisualizationEngine.select_strategy sqrt pivot_table value_counts color_palette).
Local Abbreviation create_chart :=
  (VisualizationEngine.create_chart sqrt pivot_table value_counts color_palette
     get_xticklabels).
Local Abbreviation set_chart_labels :=
  (VisualizationEngine.set_chart_labels get_xticklabels).

Lemma set_chart_labels_calls (chart_type : string) (x_col y_col : option string)
      (ax : Axes) :
  let labelled := (ax ++ label_calls chart_type x_col y_col)%list in
  let ticks := get_xticklabels labelled in
  set_chart_labels chart_type x_col y_col ax
  = ((labelled ++ if truthy x_col && (10 <? VisualizationEngine.max_len ticks)%nat
                  then [plt_setp ticks 45 "right"] else [])%list,
     Return tt).
Proof.
  cbv zeta. unfold VisualizationEngine.set_chart_labels, label_calls,
    VisualizationEngine.when, bind, call, ret.
  destruct (truthy x_col), (truthy y_col); cbn [andb]; cbv beta zeta;
    rewrite <- ?app_assoc; cbn [app]; rewrite ?app_nil_r; try reflexivity.
  all: match goal with
       | |- context [get_xticklabels ?a] => destruct (get_xticklabels a) as [|t l]
       end.
  all: try (cbn; now rewrite ?app_nil_r).
  all: destruct (10 <? VisualizationEngine.max_len (t :: l))%nat;
         rewrite <- ?app_assoc, ?app_nil_r; reflexivity.
Qed.

(** X11.  [set_chart_labels] always returns.  It labels an axis only
    for a column name that is neither [None] nor empty, takes the title
    of the kind from the table of the titles, and turns the tick labels
    exactly when a name is given for the x axis and one of the tick
    texts has more than ten code points. *)
Theorem set_chart_labels_rotation (chart_type : string) (x_col y_col : option string)
        (ax : Axes) :
  let labelled := (ax ++ label_calls chart_type x_col y_col)%list in
  let ticks := get_xticklabels labelled in
  exists turned : list Call,
    set_chart_labels chart_type x_col y_col ax = ((labelled ++ turned)%list, Return tt)
    /\ (turned = [plt_setp ticks 45 "right"] \/ turned = [])
    /\ (turned <> []
        <-> truthy x_col = true
            /\ exists text, In text ticks /\ (10 < py_len text)%nat).
Proof.
  cbv zeta. rewrite set_chart_labels_calls. cbv zeta.
  set (ticks := get_xticklabels (ax ++ label_calls chart_type x_col y_col)%list).
  eexists. split; [reflexivity|].
  rewrite <- max_len_above, <- Nat.ltb_lt, <- andb_true_iff.
  destruct (truthy x_col && (10 <? VisualizationEngine.max_len ticks)%nat).
  - split; [now left|]. split; [reflexivity | discriminate].
  - split; [now right|]. split; [congruence | discriminate].
Qed.


Lemma grouped_line_strategy (data : DataFrame) (x_col y_col : option string)
      (g palette : string) (grouping : Series) (ax : Axes) :
  g <> "" -> getitem data (Some g) = inr grouping ->
  select_strategy data "line" x_col y_col (Some g) palette ax
  = match group_keys (s_values grouping) with
    | [] => ((ax ++ [ax_legend None])%list, Return tt)
    | keys =>
        match getitem data x_col, getitem data y_col with
        | inl e, _ => (ax, Raise e)
        | inr _, inl e => (ax, Raise e)
        | inr x, inr y =>
            ((ax ++ map (fun k => ax_plot (group_rows (s_values grouping) k x)
                                          (group_rows (s_values grouping) k y)
                                          (Some "o") (Some k) (Some 2%Z) None) keys
                 ++ [ax_legend None])%list, Return tt)
        end
    end.
Proof.
  intros Hg Hs. unfold VisualizationEngine.select_strategy. cbn [String.eqb Ascii.eqb Bool.eqb].
  unfold VisualizationEngine.create_line_chart.
  rewrite (guard_of_getitem data g grouping Hg Hs). cbn [or_empty].
  rewrite (groupby_keys data g grouping Hs), for_each_map. cbn [fst snd].
  unfold bind at 1.
  destruct (group_keys (s_values grouping)) as [|k keys] eqn:Ek; [reflexivity|].
  rewrite <- Ek. assert (Hne : group_keys (s_values grouping) <> []) by congruence.
  clear Ek. destruct (getitem data x_col) as [e | x] eqn:Ex.
  - rewrite (for_each_fails _ _ e); [reflexivity | exact Hne|].
    intros a ax'. unfold bind, lift. now rewrite getitem_select_rows, Ex.
  - destruct (getitem data y_col) as [e | y] eqn:Ey.
    + rewrite (for_each_fails _ _ e); [reflexivity | exact Hne|].
      intros a ax'. unfold bind, lift. now rewrite !getitem_select_rows, Ex, Ey.
    + rewrite (for_each_draws _ _
                 (fun k => ax_plot (group_rows (s_values grouping) k x)
                                   (group_rows (s_values grouping) k y)
                                   (Some "o") (Some k) (Some 2%Z) None)).
      * unfold call. now rewrite <- app_assoc.
      * intros a ax'. unfold bind, lift. now rewrite !getitem_select_rows, Ex, Ey.
Qed.

Lemma grouped_scatter_strategy (data : DataFrame) (x_col y_col : option string)
      (g palette : string) (grouping : Series) (ax : Axes) :
  g <> "" -> getitem data (Some g) = inr grouping ->
  select_strategy data "scatter" x_col y_col (Some g) palette ax
  = match color_palette palette (Some (List.length (group_keys (s_values grouping)))) with
    | inl e => (ax, Raise e)
    | inr colors =>
        match combine (group_keys (s_values grouping)) colors with
        | [] => ((ax ++ [ax_legend None])%list, Return tt)
        | coloured =>
            match getitem data x_col, getitem data y_col with
            | inl e, _ => (ax, Raise e)
            | inr _, inl e => (ax, Raise e)
            | inr x, inr y =>
                ((ax ++ map (fun kc => ax_scatter
                                         (group_rows (s_values grouping) (fst kc) x)
                                         (group_rows (s_values grouping) (fst kc) y)
                                         (Some (fst kc)) (snd kc) (7 # 10)) coloured
                     ++ [ax_legend None])%list, Return tt)
            end
        end
    end.
Proof.
  intros Hg Hs. unfold VisualizationEngine.select_strategy.
  cbn [String.eqb Ascii.eqb Bool.eqb].
  unfold VisualizationEngine.create_scatter_chart.
  rewrite (guard_of_getitem data g grouping Hg Hs). cbn [or_empty].
  rewrite (groupby_keys data g grouping Hs), length_map.
  unfold bind at 1, lift at 1.
  destruct (color_palette palette (Some (List.length (group_keys (s_values grouping)))))
    as [e | colors]; [reflexivity|].
  unfold ret at 1.
  replace (combine (map (fun k => (k, select_rows (map (key_is k)
                                                      (keys_of (s_values grouping))) data))
                        (group_keys (s_values grouping))) colors)
    with (map (fun kc => ((fst kc, select_rows (map (key_is (fst kc))
                                                   (keys_of (s_values grouping))) data),
                          snd kc))
              (combine (group_keys (s_values grouping)) colors)).
  2:{ generalize (group_keys (s_values grouping)) as keys. intros keys. revert colors.
      induction keys as [|k keys IH]; intros [|c colors]; try reflexivity.
      cbn [combine map fst snd]. now rewrite IH. }
  rewrite for_each_map. cbn [fst snd]. unfold bind at 1.
  destruct (combine (group_keys (s_values grouping)) colors) as [|kc kcs] eqn:Ek;
    [reflexivity|].
  rewrite <- Ek.
  assert (Hne : combine (group_keys (s_values grouping)) colors <> []) by congruence.
  clear Ek. destruct (getitem data x_col) as [e | x] eqn:Ex.
  - rewrite (for_each_fails _ _ e); [reflexivity | exact Hne|].
    intros a ax'. unfold bind, lift. now rewrite getitem_select_rows, Ex.
  - destruct (getitem data y_col) as [e | y] eqn:Ey.
    + rewrite (for_each_fails _ _ e); [reflexivity | exact Hne|].
      intros a ax'. unfold bind, lift. now rewrite !getitem_select_rows, Ex, Ey.
    + rewrite (for_each_draws _ _
                 (fun kc => ax_scatter (group_rows (s_values grouping) (fst kc) x)
                                       (group_rows (s_values grouping) (fst kc) y)
                                       (Some (fst kc)) (snd kc) (7 # 10))).
      * unfold call. now rewrite <- app_assoc.
      * intros a ax'. unfold bind, lift. now rewrite !getitem_select_rows, Ex, Ey.
Qed.

Lemma pie_strategy (data : DataFrame) (x_col y_col group_col : option string)
      (palette : string) (ax : Axes) :
  select_strategy data "pie" x_col y_col group_col palette ax
  = match getitem data x_col with
    | inl e => (ax, Raise e)
    | inr s =>
        let counts := value_counts (s_values s) in
        match color_palette palette (Some (List.length counts)) with
        | inl e => (ax, Raise e)
        | inr colors =>
            ((ax ++ [ax_pie (map snd counts) (map fst counts) "%1.1f%%" colors;
                     ax_set_ylabel "" None])%list, Return tt)
        end
    end.
Proof.
  unfold VisualizationEngine.select_strategy. cbn [String.eqb Ascii.eqb Bool.eqb].
  unfold VisualizationEngine.create_pie_chart, bind, lift, call, ret, raise.
  destruct (getitem data x_col) as [e | s]; [reflexivity|]. cbv zeta.
  destruct (color_palette palette (Some (List.length (value_counts (s_values s)))));
    [reflexivity|]. now rewrite <- app_assoc.
Qed.

(** What [sns.color_palette(palette)[0]] gives. *)
Lemma first_color_cases (palette : string) (ax : Axes) :
  VisualizationEngine.first_color color_palette palette ax
  = match color_palette palette None with
    | inl e => (ax, Raise e)
    | inr [] => (ax, Raise (IndexError "list index out of range"))
    | inr (c :: _) => (ax, Return c)
    end.
Proof.
  unfold VisualizationEngine.first_color, bind, lift, ret, raise.
  destruct (color_palette palette None) as [e | [|c l]]; reflexivity.
Qed.

Lemma single_column_strategy (data : DataFrame) (chart_type : string)
      (x_col y_col group_col : option string) (palette : string) (ax : Axes) :
  chart_type = "box" \/ chart_type = "violin" ->
  select_strategy data chart_type x_col y_col group_col palette ax
  = if truthy x_col && truthy y_col then
      ((ax ++ [if String.eqb chart_type "box"
               then sns_boxplot_xy data (or_empty x_col) (or_empty y_col) palette
               else sns_violinplot_xy data (or_empty x_col) (or_empty y_col) palette])%list,
       Return tt)
    else
      match getitem data (if truthy x_col then x_col else y_col) with
      | inl e => (ax, Raise e)
      | inr s =>
          match color_palette palette None with
          | inl e => (ax, Raise e)
          | inr [] => (ax, Raise (IndexError "list index out of range"))
          | inr (c :: _) =>
              ((ax ++ [if String.eqb chart_type "box"
                       then sns_boxplot s c else sns_violinplot s c])%list, Return tt)
          end
      end.
Proof.
  intros [-> | ->]; unfold VisualizationEngine.select_strategy;
    cbn [String.eqb Ascii.eqb Bool.eqb];
    unfold VisualizationEngine.create_box_plot, VisualizationEngine.create_violin_plot;
    (destruct (truthy x_col && truthy y_col); [reflexivity|]);
    unfold bind at 1, lift;
    (destruct (getitem data (if truthy x_col then x_col else y_col)) as [e | s];
     [reflexivity|]);
    unfold ret at 1, bind; rewrite first_color_cases;
    destruct (color_palette palette None) as [e | [|c l]]; reflexivity.
Qed.

Lemma heatmap_strategy (data : DataFrame) (x_col y_col group_col : option string)
      (palette : string) (ax : Axes) :
  select_strategy data "heatmap" x_col y_col group_col palette ax
  = if empty (select_dtypes_number data)
    then (ax, Raise (ValueError "没有数值型数据可用于热力图"))
    else ((ax ++ [sns_heatmap (corr sqrt (select_dtypes_number data)) true palette 0
                              ".2f" (1 # 2)])%list, Return tt).
Proof.
  unfold VisualizationEngine.select_strategy. cbn [String.eqb Ascii.eqb Bool.eqb].
  unfold VisualizationEngine.create_heatmap. cbv zeta.
  now destruct (empty (select_dtypes_number data)).
Qed.

Lemma distplot_strategy (data : DataFrame) (x_col y_col group_col : option string)
      (palette : string) (ax : Axes) :
  select_strategy data "distplot" x_col y_col group_col palette ax
  = match color_palette palette None with
    | inl e => (ax, Raise e)
    | inr [] => (ax, Raise (IndexError "list index out of range"))
    | inr (c :: _) => ((ax ++ [sns_histplot data x_col true c])%list, Return tt)
    end.
Proof.
  unfold VisualizationEngine.select_strategy. cbn [String.eqb Ascii.eqb Bool.eqb].
  unfold VisualizationEngine.create_distribution_plot, bind. rewrite first_color_cases.
  destruct (color_palette palette None) as [e | [|c l]]; reflexivity.
Qed.

Lemma pairplot_strategy (data : DataFrame) (x_col y_col group_col : option string)
      (palette : string) (ax : Axes) :
  select_strategy data "pairplot" x_col y_col group_col palette ax
  = let numeric_data := select_dtypes_number data in
    if empty numeric_data then (ax, Raise (ValueError "没有数值型数据可用于配对图"))
    else if (List.length (df_columns numeric_data) <? 2)%nat
    then (ax, Raise (ValueError "需要至少两个数值型变量用于配对图"))
    else if truthy group_col && in_columns group_col data
    then ((ax ++ [sns_scatterplot data (column_at numeric_data 0) (column_at numeric_data 1)
                                  group_col (Some palette) None])%list, Return tt)
    else match color_palette palette None with
         | inl e => (ax, Raise e)
         | inr [] => (ax, Raise (IndexError "list index out of range"))
         | inr (c :: _) =>
             ((ax ++ [sns_scatterplot data (column_at numeric_data 0)
                                      (column_at numeric_data 1) None None (Some c)])%list,
              Return tt)
         end.
Proof.
  unfold VisualizationEngine.select_strategy. cbn [String.eqb Ascii.eqb Bool.eqb].
  unfold VisualizationEngine.create_pair_plot. cbv zeta.
  destruct (empty (select_dtypes_number data)); [reflexivity|].
  rewrite Nat.ltb_antisym.
  destruct (2 <=? List.length (df_columns (select_dtypes_number data)))%nat;
    [|reflexivity]. cbn [negb].
  destruct (truthy group_col && in_columns group_col data); [reflexivity|].
  unfold bind. rewrite first_color_cases.
  destruct (color_palette palette None) as [e | [|c l]]; reflexivity.
Qed.


Local Abbreviation kinds :=
  ["line"; "bar"; "scatter"; "pie"; "area"; "box"; "heatmap"; "distplot"; "violin";
   "pairplot"].

(** What a strategy leaves on the axes: nothing when it raises, at
    least one call more when it returns. *)
Lemma select_strategy_outcome (data : DataFrame) (chart_type : string)
      (x_col y_col group_col : option string) (palette : string) (ax : Axes) :
  match select_strategy data chart_type x_col y_col group_col palette ax with
  | (ax', Raise _) => ax' = ax
  | (ax', Return _) =>
      In chart_type kinds /\ exists c calls, ax' = (ax ++ c :: calls)%list
  end.
Proof.
  assert (Hgrouped : forall kind, In kind ["line"; "bar"; "scatter"; "area"] ->
             match select_strategy data kind x_col y_col group_col palette ax with
             | (ax', Raise _) => ax' = ax
             | (ax', Return _) => exists c calls, ax' = (ax ++ c :: calls)%list
             end).
  { intros kind Hk.
    destruct (truthy group_col && in_columns group_col data) eqn:G.
    - destruct (guard_true group_col data G) as [g [grouping [-> [Hg Hs]]]].
      assert (Hin : In g (column_names data)).
      { apply getitem_has_column in Hs. unfold has_column in Hs.
        apply existsb_exists in Hs. destruct Hs as [c [Hc E]].
        apply String.eqb_eq in E. now subst. }
      cbn [In] in Hk. destruct Hk as [<- | [<- | [<- | [<- | []]]]].
      + rewrite (grouped_line_strategy data x_col y_col g palette grouping ax Hg Hs).
        destruct (group_keys (s_values grouping)); [now eexists; eexists|].
        destruct (getitem data x_col); [reflexivity|].
        destruct (getitem data y_col); [reflexivity|]. cbn [map app].
        now eexists; eexists.
      + rewrite (pivot_strategy sqrt pivot_table value_counts color_palette data "bar"
                   x_col y_col g palette ax Hg Hin (or_introl eq_refl)).
        destruct (pivot_table data y_col x_col (Some g) _); [reflexivity|].
        destruct (color_palette palette _); [reflexivity|]. now eexists; eexists.
      + rewrite (grouped_scatter_strategy data x_col y_col g palette grouping ax Hg Hs).
        destruct (color_palette palette _); [reflexivity|].
        destruct (combine _ _); [now eexists; eexists|].
        destruct (getitem data x_col); [reflexivity|].
        destruct (getitem data y_col); [reflexivity|]. cbn [map app].
        now eexists; eexists.
      + rewrite (pivot_strategy sqrt pivot_table value_counts color_palette data "area"
                   x_col y_col g palette ax Hg Hin (or_intror eq_refl)).
        destruct (pivot_table data y_col x_col (Some g) _); [reflexivity|].
        destruct (color_palette palette _); [reflexivity|]. now eexists; eexists.
    - rewrite (ungrouped_strategy sqrt pivot_table value_counts color_palette data kind
                 x_col y_col group_col palette ax Hk G).
      destruct (getitem data x_col); [reflexivity|].
      destruct (getitem data y_col); [reflexivity|].
      destruct (color_palette palette None) as [e | [|c rest]]; [reflexivity | |].
      + destruct (String.eqb kind "bar"); [now eexists; eexists | reflexivity].
      + cbn [In] in Hk. destruct Hk as [<- | [<- | [<- | [<- | []]]]];
          cbn; now eexists; eexists. }
  assert (Hreturn : forall kind, In kind kinds ->
             match select_strategy data kind x_col y_col group_col palette ax with
             | (ax', Raise _) => ax' = ax
             | (ax', Return _) => exists c calls, ax' = (ax ++ c :: calls)%list
             end).
  { intros kind Hk. cbn [In] in Hk.
    destruct Hk as [<- | [<- | [<- | [<- | [<- | [<- | [<- | [<- | [<- | [<- | []]]]]]]]]]].
    - apply Hgrouped. cbn; tauto.
    - apply Hgrouped. cbn; tauto.
    - apply Hgrouped. cbn; tauto.
    - rewrite pie_strategy. destruct (getitem data x_col); [reflexivity|]. cbv zeta.
      destruct (color_palette palette _); [reflexivity|]. now eexists; eexists.
    - apply Hgrouped. cbn; tauto.
    - rewrite single_column_strategy by now left.
      destruct (truthy x_col && truthy y_col); [now eexists; eexists|].
      destruct (getitem data _); [reflexivity|].
      destruct (color_palette palette None) as [e | [|c rest]];
        [reflexivity | reflexivity | now eexists; eexists].
    - rewrite heatmap_strategy.
      destruct (empty (select_dtypes_number data)); [reflexivity | now eexists; eexists].
    - rewrite distplot_strategy.
      destruct (color_palette palette None) as [e | [|c rest]];
        [reflexivity | reflexivity | now eexists; eexists].
    - rewrite single_column_strategy by now right.
      destruct (truthy x_col && truthy y_col); [now eexists; eexists|].
      destruct (getitem data _); [reflexivity|].
      destruct (color_palette palette None) as [e | [|c rest]];
        [reflexivity | reflexivity | now eexists; eexists].
    - rewrite pairplot_strategy. cbv zeta.
      destruct (empty (select_dtypes_number data)); [reflexivity|].
      destruct (_ <? 2)%nat; [reflexivity|].
      destruct (truthy group_col && in_columns group_col data); [now eexists; eexists|].
      destruct (color_palette palette None) as [e | [|c rest]];
        [reflexivity | reflexivity | now eexists; eexists]. }
  destruct (in_dec string_dec chart_type kinds) as [Hk | Hk].
  - specialize (Hreturn chart_type Hk).
    destruct (select_strategy data chart_type x_col y_col group_col palette ax)
      as [ax' [u | e]]; [now split | exact Hreturn].
  - unfold VisualizationEngine.select_strategy.
    repeat match goal with
           | |- context [String.eqb chart_type ?k] =>
               rewrite (eqb_not_in chart_type k kinds Hk) by (cbn; tauto)
           end.
    reflexivity.
Qed.

Lemma getitem_error (data : DataFrame) (c : option string) (e : PyExc) :
  getitem data c = inl e -> e = KeyError c.
Proof.
  unfold getitem. destruct c as [name|]; [|now intros [= <-]].
  destruct (get_column data name); [discriminate | now intros [= <-]].
Qed.

Lemma guard_in_columns (group_col : option string) (data : DataFrame) :
  truthy group_col && in_columns group_col data = true ->
  exists g, group_col = Some g /\ g <> "" /\ In g (column_names data).
Proof.
  intros G. destruct (guard_true group_col data G) as [g [grouping [-> [Hg Hs]]]].
  exists g. split; [reflexivity|]. split; [exact Hg|].
  apply getitem_has_column in Hs. unfold has_column in Hs.
  apply existsb_exists in Hs. destruct Hs as [c [Hc E]].
  apply String.eqb_eq in E. now subst.
Qed.

(** The exceptions that a strategy raises by itself, that is other than
    out of a drawing call. *)
Lemma select_strategy_cause (data : DataFrame) (chart_type : string)
      (x_col y_col group_col : option string) (palette : string)
      (ax ax' : Axes) (cause : PyExc) :
  select_strategy data chart_type x_col y_col group_col palette ax = (ax', Raise cause) ->
  cause = KeyError x_col
  \/ cause = KeyError y_col
  \/ (exists n_colors, color_palette palette n_colors = inl cause)
  \/ cause = IndexError "list index out of range"
  \/ (exists aggfunc, pivot_table data y_col x_col group_col aggfunc = inl cause)
  \/ In cause [ ValueError "没有数值型数据可用于热力图";
                ValueError "没有数值型数据可用于配对图";
                ValueError "需要至少两个数值型变量用于配对图";
                ValueError ("不支持的图表类型: " ++ chart_type) ].
Proof.
  assert (Hkey : forall c e, getitem data c = inl e -> c = x_col \/ c = y_col ->
                             e = KeyError x_col \/ e = KeyError y_col).
  { intros c e He [-> | ->]; [left | right]; exact (getitem_error _ _ _ He). }
  assert (Hgrouped : forall kind, In kind ["line"; "bar"; "scatter"; "area"] ->
             select_strategy data kind x_col y_col group_col palette ax = (ax', Raise cause) ->
             cause = KeyError x_col \/ cause = KeyError y_col
             \/ (exists n, color_palette palette n = inl cause)
             \/ cause = IndexError "list index out of range"
             \/ (exists agg, pivot_table data y_col x_col group_col agg = inl cause)).
  { intros kind Hk H.
    destruct (truthy group_col && in_columns group_col data) eqn:G.
    - destruct (guard_true group_col data G) as [g [grouping [Eg [Hg Hs]]]].
      destruct (guard_in_columns group_col data G) as [g' [Eg' [_ Hin]]].
      rewrite Eg in Eg'. injection Eg' as <-. subst group_col.
      cbn [In] in Hk. destruct Hk as [<- | [<- | [<- | [<- | []]]]].
      + rewrite (grouped_line_strategy data x_col y_col g palette grouping ax Hg Hs) in H.
        destruct (group_keys (s_values grouping)); [discriminate|].
        destruct (getitem data x_col) as [e|] eqn:Ex;
          [injection H as _ <-; left; exact (getitem_error _ _ _ Ex)|].
        destruct (getitem data y_col) as [e|] eqn:Ey;
          [injection H as _ <-; right; left; exact (getitem_error _ _ _ Ey) | discriminate].
      + rewrite (pivot_strategy sqrt pivot_table value_counts color_palette data "bar"
                   x_col y_col g palette ax Hg Hin (or_introl eq_refl)) in H.
        destruct (pivot_table data y_col x_col (Some g) _) as [e|] eqn:Ep;
          [injection H as _ <-; do 4 right; eexists; exact Ep|].
        destruct (color_palette palette _) as [e|] eqn:Ec;
          [injection H as _ <-; do 2 right; left; eexists; exact Ec | discriminate].
      + rewrite (grouped_scatter_strategy data x_col y_col g palette grouping ax Hg Hs) in H.
        destruct (color_palette palette _) as [e|] eqn:Ec;
          [injection H as _ <-; do 2 right; left; eexists; exact Ec|].
        destruct (combine _ _); [discriminate|].
        destruct (getitem data x_col) as [e|] eqn:Ex;
          [injection H as _ <-; left; exact (getitem_error _ _ _ Ex)|].
        destruct (getitem data y_col) as [e|] eqn:Ey;
          [injection H as _ <-; right; left; exact (getitem_error _ _ _ Ey) | discriminate].
      + rewrite (pivot_strategy sqrt pivot_table value_counts color_palette data "area"
                   x_col y_col g palette ax Hg Hin (or_intror eq_refl)) in H.
        destruct (pivot_table data y_col x_col (Some g) _) as [e|] eqn:Ep;
          [injection H as _ <-; do 4 right; eexists; exact Ep|].
        destruct (color_palette palette _) as [e|] eqn:Ec;
          [injection H as _ <-; do 2 right; left; eexists; exact Ec | discriminate].
    - rewrite (ungrouped_strategy sqrt pivot_table value_counts color_palette data kind
                 x_col y_col group_col palette ax Hk G) in H.
      destruct (getitem data x_col) as [e|] eqn:Ex;
        [injection H as _ <-; left; exact (getitem_error _ _ _ Ex)|].
      destruct (getitem data y_col) as [e|] eqn:Ey;
        [injection H as _ <-; right; left; exact (getitem_error _ _ _ Ey)|].
      destruct (color_palette palette None) as [e | [|c rest]] eqn:Ec.
      + injection H as _ <-. do 2 right; left. eexists; exact Ec.
      + destruct (String.eqb kind "bar"); [discriminate|].
        injection H as _ <-. do 3 right; left. reflexivity.
      + discriminate. }
  assert (Hsingle : forall kind, kind = "box" \/ kind = "violin" ->
             select_strategy data kind x_col y_col group_col palette ax = (ax', Raise cause) ->
             cause = KeyError x_col \/ cause = KeyError y_col
             \/ (exists n, color_palette palette n = inl cause)
             \/ cause = IndexError "list index out of range").
  { intros kind Hk H. rewrite (single_column_strategy _ _ _ _ _ _ _ Hk) in H.
    destruct (truthy x_col && truthy y_col); [discriminate|].
    destruct (getitem data (if truthy x_col then x_col else y_col)) as [e|] eqn:Ex.
    - injection H as _ <-. apply getitem_error in Ex.
      destruct (truthy x_col); [left | right; left]; exact Ex.
    - destruct (color_palette palette None) as [e | [|c rest]] eqn:Ec.
      + injection H as _ <-. do 2 right; left. eexists; exact Ec.
      + injection H as _ <-. do 3 right. reflexivity.
      + discriminate. }
  intros H.
  destruct (in_dec string_dec chart_type kinds) as [Hk | Hk].
  - cbn [In] in Hk.
    destruct Hk as [<- | [<- | [<- | [<- | [<- | [<- | [<- | [<- | [<- | [<- | []]]]]]]]]]].
    + destruct (Hgrouped "line") as [C | [C | [C | [C | C]]]]; cbn; tauto.
    + destruct (Hgrouped "bar") as [C | [C | [C | [C | C]]]]; cbn; tauto.
    + destruct (Hgrouped "scatter") as [C | [C | [C | [C | C]]]]; cbn; tauto.
    + rewrite pie_strategy in H.
      destruct (getitem data x_col) as [e|] eqn:Ex;
        [injection H as _ <-; left; exact (getitem_error _ _ _ Ex)|].
      cbv zeta in H. destruct (color_palette palette _) as [e|] eqn:Ec;
        [injection H as _ <-; do 2 right; left; eexists; exact Ec | discriminate].
    + destruct (Hgrouped "area") as [C | [C | [C | [C | C]]]]; cbn; tauto.
    + destruct (Hsingle "box") as [C | [C | [C | C]]]; tauto.
    + rewrite heatmap_strategy in H.
      destruct (empty (select_dtypes_number data)); [|discriminate].
      injection H as _ <-. do 5 right. cbn. tauto.
    + rewrite distplot_strategy in H.
      destruct (color_palette palette None) as [e | [|c rest]] eqn:Ec.
      * injection H as _ <-. do 2 right; left. eexists; exact Ec.
      * injection H as _ <-. do 3 right; left. reflexivity.
      * discriminate.
    + destruct (Hsingle "violin") as [C | [C | [C | C]]]; tauto.
    + rewrite pairplot_strategy in H. cbv zeta in H.
      destruct (empty (select_dtypes_number data));
        [injection H as _ <-; do 5 right; cbn; tauto|].
      destruct (_ <? 2)%nat; [injection H as _ <-; do 5 right; cbn; tauto|].
      destruct (truthy group_col && in_columns group_col data); [discriminate|].
      destruct (color_palette palette None) as [e | [|c rest]] eqn:Ec.
      * injection H as _ <-. do 2 right; left. eexists; exact Ec.
      * injection H as _ <-. do 3 right; left. reflexivity.
      * discriminate.
  - unfold VisualizationEngine.select_strategy in H.
    repeat match type of H with
           | context [String.eqb chart_type ?k] =>
               rewrite (eqb_not_in chart_type k kinds Hk) in H by (cbn; tauto)
           end.
    injection H as _ <-. do 5 right. cbn. tauto.
Qed.

Lemma create_chart_raise_cause (data : DataFrame) (chart_type : string)
      (x_col y_col group_col : option string) (palette : string)
      (ax ax' : Axes) (e : PyExc) :
  create_chart data chart_type x_col y_col group_col palette ax = (ax', Raise e) ->
  ax' = ax
  /\ exists cause,
       select_strategy data chart_type x_col y_col group_col palette ax = (ax, Raise cause)
       /\ e = Exception ("创建图表失败: " ++ exc_str cause).
Proof.
  intros H.
  pose proof (select_strategy_outcome data chart_type x_col y_col group_col palette ax) as Ho.
  destruct (select_strategy data chart_type x_col y_col group_col palette ax)
    as [ax1 [[] | cause]] eqn:Es.
  - rewrite (create_chart_return sqrt pivot_table value_counts color_palette
               get_xticklabels data chart_type x_col y_col group_col palette ax ax1 Es) in H.
    rewrite set_chart_labels_calls in H. discriminate.
  - subst ax1.
    rewrite (create_chart_raise sqrt pivot_table value_counts color_palette
               get_xticklabels data chart_type x_col y_col group_col palette ax ax cause Es)
      in H.
    injection H as <- <-. split; [reflexivity|]. now exists cause.
Qed.

(** X12.  The failures of a strategy that are its own, those out of a
    drawing call and out of an operation of pandas other than the
    lookup of a column and the pivoting being outside the model, are
    the lookup of the x column, of the y column or of the one column of
    a box or violin plot, the failure of the palette or of the pivoting,
    the empty palette and the four refusals with a message.  Each is
    raised before anything is drawn, and comes out of [create_chart] as
    an [Exception] whose message is the fixed prefix followed by the
    message of the exception raised, whatever the class of that one
    was. *)
Theorem create_chart_failure (data : DataFrame) (chart_type : string)
        (x_col y_col group_col : option string) (palette : string)
        (ax ax' : Axes) (cause : PyExc) :
  select_strategy data chart_type x_col y_col group_col palette ax = (ax', Raise cause) ->
  ax' = ax
  /\ create_chart data chart_type x_col y_col group_col palette ax
     = (ax, Raise (Exception ("创建图表失败: " ++ exc_str cause)))
  /\ (cause = KeyError x_col
      \/ cause = KeyError y_col
      \/ (exists n_colors, color_palette palette n_colors = inl cause)
      \/ cause = IndexError "list index out of range"
      \/ (exists aggfunc, pivot_table data y_col x_col group_col aggfunc = inl cause)
      \/ In cause [ ValueError "没有数值型数据可用于热力图";
                    ValueError "没有数值型数据可用于配对图";
                    ValueError "需要至少两个数值型变量用于配对图";
                    ValueError ("不支持的图表类型: " ++ chart_type) ]).
Proof.
  intros H.
  pose proof (select_strategy_outcome data chart_type x_col y_col group_col palette ax) as Ho.
  rewrite H in Ho. subst ax'. split; [reflexivity|]. split.
  - exact (create_chart_raise sqrt pivot_table value_counts color_palette get_xticklabels
             data chart_type x_col y_col group_col palette ax ax cause H).
  - exact (select_strategy_cause data chart_type x_col y_col group_col palette ax ax cause H).
Qed.

Lemma title_of_kind (chart_type : string) :
  In chart_type kinds -> dict_get chart_names chart_type "图表" <> "图表".
Proof.
  cbn [In].
  intros [<- | [<- | [<- | [<- | [<- | [<- | [<- | [<- | [<- | [<- | []]]]]]]]]]];
    vm_compute; discriminate.
Qed.

(** X13.  When [create_chart] returns, the kind is one of the ten, the
    axes hold what they held, then the calls of the strategy, at least
    one, then the labels, and the title is the one of the kind, never
    the title kept for a kind outside the table. *)
Theorem create_chart_success (data : DataFrame) (chart_type : string)
        (x_col y_col group_col : option string) (palette : string) (ax ax' : Axes) :
  create_chart data chart_type x_col y_col group_col palette ax = (ax', Return tt) ->
  In chart_type kinds
  /\ dict_get chart_names chart_type "图表" <> "图表"
  /\ exists drawn turned : list Call,
       drawn <> []
       /\ select_strategy data chart_type x_col y_col group_col palette ax
          = ((ax ++ drawn)%list, Return tt)
       /\ ax' = (ax ++ drawn ++ label_calls chart_type x_col y_col ++ turned)%list
       /\ (turned = []
           \/ turned = [plt_setp (get_xticklabels
                                    (ax ++ drawn ++ label_calls chart_type x_col y_col)%list)
                                 45 "right"]).
Proof.
  intros H.
  pose proof (select_strategy_outcome data chart_type x_col y_col group_col palette ax) as Ho.
  destruct (select_strategy data chart_type x_col y_col group_col palette ax)
    as [ax1 [[] | cause]] eqn:Es.
  - destruct Ho as [Hk [c [calls ->]]].
    rewrite (create_chart_return sqrt pivot_table value_counts color_palette
               get_xticklabels data chart_type x_col y_col group_col palette ax _ Es) in H.
    rewrite set_chart_labels_calls in H. cbv zeta in H. injection H as <-.
    split; [exact Hk|]. split; [now apply title_of_kind|].
    exists (c :: calls). eexists. split; [discriminate|]. split; [reflexivity|].
    rewrite <- !app_assoc. split; [reflexivity|].
    destruct (truthy x_col && _); [now right | now left].
  - rewrite (create_chart_raise sqrt pivot_table value_counts color_palette
               get_xticklabels data chart_type x_col y_col group_col palette ax ax1 cause Es)
      in H.
    discriminate.
Qed.


(** X14.  A line chart grouped by a column of the table draws one
    series per key of that column, in the order of the keys, labelled
    with the key and holding the rows of the two axis columns that have
    the key, and then the legend.  The palette is not consulted: the
    chart is drawn whatever its name is. *)
Theorem grouped_line_chart_series (data : DataFrame) (x_col y_col : option string)
        (g palette : string) (grouping x y : Series) (ax : Axes) :
  g <> "" -> getitem data (Some g) = inr grouping ->
  getitem data x_col = inr x -> getitem data y_col = inr y ->
  create_chart data "line" x_col y_col (Some g) palette ax
  = set_chart_labels "line" x_col y_col
      (ax ++ map (fun k => ax_plot (group_rows (s_values grouping) k x)
                                   (group_rows (s_values grouping) k y)
                                   (Some "o") (Some k) (Some 2%Z) None)
                 (group_keys (s_values grouping))
          ++ [ax_legend None])%list.
Proof.
  intros Hg Hs Hx Hy.
  apply (create_chart_return sqrt pivot_table value_counts color_palette get_xticklabels).
  rewrite (grouped_line_strategy data x_col y_col g palette grouping ax Hg Hs), Hx, Hy.
  now destruct (group_keys (s_values grouping)).
Qed.

(** X15.  A scatter chart grouped by a column of the table asks the
    palette for as many colours as the column has keys and draws the
    keys paired with the colours, in order: the n-th key in the n-th
    colour, and nothing for a key left without a colour. *)
Theorem grouped_scatter_chart_series (data : DataFrame) (x_col y_col : option string)
        (g palette : string) (grouping x y : Series) (colors : Colors) (ax : Axes) :
  g <> "" -> getitem data (Some g) = inr grouping ->
  getitem data x_col = inr x -> getitem data y_col = inr y ->
  color_palette palette (Some (List.length (group_keys (s_values grouping)))) = inr colors ->
  create_chart data "scatter" x_col y_col (Some g) palette ax
  = set_chart_labels "scatter" x_col y_col
      (ax ++ map (fun kc => ax_scatter (group_rows (s_values grouping) (fst kc) x)
                                       (group_rows (s_values grouping) (fst kc) y)
                                       (Some (fst kc)) (snd kc) (7 # 10))
                 (combine (group_keys (s_values grouping)) colors)
          ++ [ax_legend None])%list
  /\ List.length (combine (group_keys (s_values grouping)) colors)
     = Nat.min (List.length (group_keys (s_values grouping))) (List.length colors).
Proof.
  intros Hg Hs Hx Hy Hc. split; [|apply length_combine].
  apply (create_chart_return sqrt pivot_table value_counts color_palette get_xticklabels).
  rewrite (grouped_scatter_strategy data x_col y_col g palette grouping ax Hg Hs), Hc, Hx, Hy.
  now destruct (combine (group_keys (s_values grouping)) colors).
Qed.

(** X16.  A pie chart draws the slices of the counted values of the x
    column and clears the label of the y axis; the labelling that
    follows sets that label again when a y column is named, a column
    that the chart never looks up. *)
Theorem pie_chart_ylabel (data : DataFrame) (x_col y_col group_col : option string)
        (palette : string) (s : Series) (colors : Colors) (ax : Axes) :
  let counts := value_counts (s_values s) in
  getitem data x_col = inr s ->
  color_palette palette (Some (List.length counts)) = inr colors ->
  exists turned,
    create_chart data "pie" x_col y_col group_col palette ax
    = ((ax ++ [ax_pie (map snd counts) (map fst counts) "%1.1f%%" colors;
               ax_set_ylabel "" None]
           ++ (if truthy x_col then [ax_set_xlabel (or_empty x_col) 12] else [])
           ++ (if truthy y_col then [ax_set_ylabel (or_empty y_col) (Some 12%Z)] else [])
           ++ [ax_set_title "饼图" 14 "bold"; ax_grid true (3 # 10);
               ax_tick_params "both" "major" 10]
           ++ turned)%list, Return tt).
Proof.
  intros counts Hs Hc.
  rewrite (create_chart_return sqrt pivot_table value_counts color_palette get_xticklabels
             data "pie" x_col y_col group_col palette ax
             (ax ++ [ax_pie (map snd counts) (map fst counts) "%1.1f%%" colors;
                     ax_set_ylabel "" None])%list).
  - rewrite set_chart_labels_calls. cbv zeta. eexists. unfold label_calls.
    rewrite <- !app_assoc. reflexivity.
  - rewrite pie_strategy, Hs. cbv zeta. fold counts. now rewrite Hc.
Qed.

(** X17.  The two kinds that choose their columns themselves.  When
    [create_chart] returns for a heatmap, the table has a row and a
    numeric column and what was drawn is the heatmap of the correlation
    matrix of the numeric columns, with the palette name handed to the
    drawing call as it is.  When it returns for a pair plot that is not
    grouped by a column of the table, the table has a row and two
    numeric columns, and the first two of these were drawn, in the
    first colour of the palette.  Both label the axes with the names of
    the request, which they never look up. *)
Theorem heatmap_pairplot_columns (data : DataFrame) (x_col y_col group_col : option string)
        (palette : string) (ax ax' : Axes) :
  let numeric_data := select_dtypes_number data in
  (create_chart data "heatmap" x_col y_col group_col palette ax = (ax', Return tt) ->
   (0 < len data)%nat /\ numeric_columns data <> []
   /\ exists turned,
        ax' = (ax ++ [sns_heatmap (corr sqrt numeric_data) true palette 0 ".2f" (1 # 2)]
                  ++ label_calls "heatmap" x_col y_col ++ turned)%list)
  /\ (create_chart data "pairplot" x_col y_col group_col palette ax = (ax', Return tt) ->
      truthy group_col && in_columns group_col data = false ->
      (0 < len data)%nat /\ (2 <= List.length (numeric_columns data))%nat
      /\ exists c rest turned,
           color_palette palette None = inr (c :: rest)
           /\ ax' = (ax ++ [sns_scatterplot data (column_name (numeric_columns data) 0)
                                            (column_name (numeric_columns data) 1)
                                            None None (Some c)]
                        ++ label_calls "pairplot" x_col y_col ++ turned)%list).
Proof.
  intros numeric_data.
  assert (Hlabels : forall kind drawn,
             select_strategy data kind x_col y_col group_col palette ax
             = ((ax ++ drawn)%list, Return tt) ->
             create_chart data kind x_col y_col group_col palette ax = (ax', Return tt) ->
             exists turned, ax' = (ax ++ drawn ++ label_calls kind x_col y_col ++ turned)%list).
  { intros kind drawn Hs H.
    rewrite (create_chart_return sqrt pivot_table value_counts color_palette
               get_xticklabels data kind x_col y_col group_col palette ax _ Hs) in H.
    rewrite set_chart_labels_calls in H. cbv zeta in H. injection H as <-.
    eexists. rewrite <- !app_assoc. reflexivity. }
  assert (Hfail : forall kind e,
             select_strategy data kind x_col y_col group_col palette ax = (ax, Raise e) ->
             create_chart data kind x_col y_col group_col palette ax <> (ax', Return tt)).
  { intros kind e Hs H.
    rewrite (create_chart_raise sqrt pivot_table value_counts color_palette
               get_xticklabels data kind x_col y_col group_col palette ax ax e Hs) in H.
    discriminate. }
  split.
  - intros H. pose proof (heatmap_strategy data x_col y_col group_col palette ax) as Hs.
    fold numeric_data in Hs.
    destruct (empty numeric_data) eqn:Ee; [now apply Hfail in Hs|].
    apply empty_false in Ee. destruct Ee as [Hrows Hcols].
    split; [exact Hrows|]. split; [exact Hcols|]. exact (Hlabels _ _ Hs H).
  - intros H Hg. pose proof (pairplot_strategy data x_col y_col group_col palette ax) as Hs.
    cbv zeta in Hs. fold numeric_data in Hs. rewrite Hg in Hs.
    destruct (empty numeric_data) eqn:Ee; [now apply Hfail in Hs|].
    apply empty_false in Ee. destruct Ee as [Hrows Hcols].
    destruct (List.length (df_columns numeric_data) <? 2)%nat eqn:E2;
      [now apply Hfail in Hs|].
    apply Nat.ltb_ge in E2.
    destruct (color_palette palette None) as [e | [|c rest]] eqn:Ec;
      [now apply Hfail in Hs | now apply Hfail in Hs|].
    split; [exact Hrows|]. split; [exact E2|].
    destruct (Hlabels _ _ Hs H) as [turned Ht]. now exists c, rest, turned.
Qed.

(** X24.  A box or violin plot that is not given both column names
    draws one column: the x column when its name is given, the y column
    otherwise, in the first colour of the palette.  A name that is no
    column of the table, the missing name when neither is given
    included, is the message of the failure. *)
Theorem single_column_chart (data : DataFrame) (chart_type : string)
        (x_col y_col group_col : option string) (palette : string) (ax : Axes) :
  let column := if truthy x_col then x_col else y_col in
  chart_type = "box" \/ chart_type = "violin" ->
  truthy x_col && truthy y_col = false ->
  (forall s c rest,
      getitem data column = inr s -> color_palette palette None = inr (c :: rest) ->
      create_chart data chart_type x_col y_col group_col palette ax
      = set_chart_labels chart_type x_col y_col
          (ax ++ [if String.eqb chart_type "box"
                  then sns_boxplot s c else sns_violinplot s c])%list)
  /\ (forall e,
         getitem data column = inl e ->
         create_chart data chart_type x_col y_col group_col palette ax
         = (ax, Raise (Exception ("创建图表失败: " ++ exc_str e))))
  /\ (x_col = None -> y_col = None ->
      create_chart data chart_type x_col y_col group_col palette ax
      = (ax, Raise (Exception "创建图表失败: None"))).
Proof.
  intros column Hkind Hboth.
  pose proof (single_column_strategy data chart_type x_col y_col group_col palette ax Hkind)
    as Hs.
  rewrite Hboth in Hs. fold column in Hs.
  assert (Hfail : forall e,
             getitem data column = inl e ->
             create_chart data chart_type x_col y_col group_col palette ax
             = (ax, Raise (Exception ("创建图表失败: " ++ exc_str e)))).
  { intros e He. rewrite He in Hs.
    exact (create_chart_raise sqrt pivot_table value_counts color_palette get_xticklabels
             data chart_type x_col y_col group_col palette ax ax e Hs). }
  split; [|split].
  - intros s c rest Hc Hp. rewrite Hc, Hp in Hs.
    exact (create_chart_return sqrt pivot_table value_counts color_palette get_xticklabels
             data chart_type x_col y_col group_col palette ax _ Hs).
  - exact Hfail.
  - intros Hx Hy. apply (Hfail (KeyError None)). unfold column. now rewrite Hx, Hy.
Qed.









End EngineDraws.


(** A heatmap does not look at the columns of the request: a name that
    is not in the table is not reported there either. *)
Example create_chart_heatmap_ignores_columns :
  has_column table_xy "z" = false
  /\ exists ax,
       VisualizationEngine.create_chart Qsqrt simple_pivot_table simple_value_counts
         simple_color_palette no_ticklabels table_xy "heatmap" (Some "z") None None
         "viridis" []
       = (sns_heatmap (corr Qsqrt (select_dtypes_number table_xy)) true "viridis" 0 ".2f"
                      (1 # 2) :: ax, Return tt).
Proof. split; [reflexivity | eexists; reflexivity]. Qed.

(** A name that is no palette fails the request after the lookups of the
    columns and before anything is drawn. *)
Example create_chart_unknown_palette :
  VisualizationEngine.create_chart Qsqrt simple_pivot_table simple_value_counts
    simple_color_palette no_ticklabels table_xy "line" (Some "x") (Some "y") None
    "rainbows" []
  = ([], Raise (Exception "创建图表失败: 'rainbows' is not a valid palette name")).
Proof. reflexivity. Qed.


(** A name in Chinese characters is a plain name, and is reported as it
    is. *)
Example create_chart_invalid_chinese_column :
  plain_name "销售额" = true
  /\ VisualizationEngine.create_chart Qsqrt simple_pivot_table simple_value_counts
       simple_color_palette no_ticklabels table_xy "scatter" (Some "x") (Some "销售额") None
       "viridis" []
     = ([], Raise (Exception "创建图表失败: '销售额'")).
Proof. split; reflexivity. Qed.

(** A line chart grouped by a column of the table looks the y column up
    when it comes to the first group, and fails with its name. *)
Example create_chart_grouped_line_invalid_column :
  VisualizationEngine.create_chart Qsqrt simple_pivot_table simple_value_counts
    simple_color_palette no_ticklabels table_xyg "line" (Some "x") (Some "z") (Some "g")
    "viridis" []
  = ([], Raise (Exception "创建图表失败: 'z'")).
Proof. reflexivity. Qed.


(** ** The shell *)

Lemma substring_all (s : string) : substring 0 (String.length s) s = s.
Proof. induction s as [|c s IH]; [reflexivity|]. cbn. now rewrite IH. Qed.

Lemma substring_suffix (p suffix : string) :
  substring (String.length p) (String.length suffix) (p ++ suffix) = suffix.
Proof. induction p as [|c p IH]; [apply substring_all | exact IH]. Qed.

Lemma length_append (a b : string) :
  String.length (a ++ b) = (String.length a + String.length b)%nat.
Proof. induction a as [|c a IH]; [reflexivity|]. cbn. now rewrite IH. Qed.

Lemma split_at (n : nat) (s : string) :
  (n <= String.length s)%nat ->
  exists p, String.length p = n /\ s = p ++ substring n (String.length s - n) s.
Proof.
  revert s. induction n as [|n IH]; intros s Hn.
  - exists "". rewrite Nat.sub_0_r, substring_all. now split.
  - destruct s as [|c s]; [cbn in Hn; lia|]. cbn [String.length] in Hn.
    destruct (IH s) as [p [Hp E]]; [lia|].
    exists (String c p). cbn [String.length]. split; [now rewrite Hp|].
    cbn [append substring Nat.sub]. now rewrite <- E.
Qed.

(** [endswith] is the test of a suffix. *)
Lemma endswith_spec (s suffix : string) :
  endswith s suffix = true <-> exists p, s = p ++ suffix.
Proof.
  unfold endswith. rewrite andb_true_iff, Nat.leb_le, String.eqb_eq. split.
  - intros [Hle E].
    destruct (split_at (String.length s - String.length suffix) s) as [p [Hp Es]]; [lia|].
    exists p. rewrite Es at 1. f_equal.
    rewrite <- E at 3. f_equal. lia.
  - intros [p ->]. rewrite length_append. split; [lia|].
    replace (String.length p + String.length suffix - String.length suffix)%nat
      with (String.length p) by lia.
    apply substring_suffix.
Qed.

Section ShellFacts.

Import DataVisualizationApp.

Variable sqrt : Q -> Q.
Variable to_string : DataFrame -> string.
Variable entry_tail : DataFrame -> string -> string.
Variable memory_usage : DataFrame -> nat.
Variable describe_to_string : DataFrame -> string.
Variable value_counts : Values -> list (Label * nat).
Variable counts_to_string : list (Label * nat) -> string.
Variable pivot_table :
  DataFrame -> option string -> option string -> option string -> string
  -> PyExc + Pivot.
Variable sns_color_palette : string -> option nat -> PyExc + Colors.
Variable get_xticklabels : Axes -> list string.
Variable read_excel : string -> PyExc + DataFrame.
Variable read_csv : string -> string -> string -> PyExc + DataFrame.
Variable Json : Type.
Variable json_load : string -> PyExc + Json.
Variable json_is_list : Json -> bool.
Variable json_list : list Json -> Json.
Variable frame_of_json : Json -> PyExc + DataFrame.
Variable sns_set_style : string -> option PyExc.
Variable savefig_raises : Axes -> string -> option PyExc.
Variable write_raises : DataFrame -> string -> option PyExc.

Local Abbreviation read_file :=
  (DataVisualizationApp.read_file read_excel read_csv Json json_load json_is_list
     json_list frame_of_json).
Local Abbreviation load_data_file :=
  (DataVisualizationApp.load_data_file to_string read_excel read_csv Json json_load
     json_is_list json_list frame_of_json).
Local Abbreviation generate_chart :=
  (DataVisualizationApp.generate_chart sqrt value_counts pivot_table sns_color_palette
     get_xticklabels sns_set_style).
Local Abbreviation generate_chart_with :=
  (DataVisualizationApp.generate_chart_with sns_set_style).
Local Abbreviation export_data := (DataVisualizationApp.export_data write_raises).
Local Abbreviation export_chart := (DataVisualizationApp.export_chart savefig_raises).

(** X18.  A load that does not give a table leaves the application
    with the table, the file path, the preview and the axis boxes it
    had.  When the reader raises, the message of the exception is shown
    and the status says that the load failed.  When the format has no
    reader, as when the detection is left to a file name that ends in
    none of the four extensions, in lower case, the format is shown as
    unsupported and the status stays at the message of the loading. *)
Theorem load_data_file_without_table (filename : string) (app : App) :
  let format := detect_format (file_format app) filename in
  let app' := load_data_file filename app in
  filename <> "" ->
  (forall data, read_file app format filename <> Some (inr data)) ->
  current_data app' = current_data app
  /\ file_path_var app' = file_path_var app
  /\ preview_text app' = preview_text app
  /\ (x_axis app', y_axis app', group_by app') = (x_axis app, y_axis app, group_by app)
  /\ match read_file app format filename with
     | Some (inl e) =>
         events app' = (events app
                          ++ [root_update; showerror "错误" ("加载文件失败: " ++ exc_str e)])%list
         /\ status_var app' = "数据加载失败"
     | _ =>
         events app' = (events app
                          ++ [root_update; showerror "错误" ("不支持的文件格式: " ++ format)])%list
         /\ status_var app' = "正在加载数据..."
     end
  /\ (file_format app = "自动检测" ->
      endswith filename ".xlsx" = false -> endswith filename ".xls" = false ->
      endswith filename ".csv" = false -> endswith filename ".json" = false ->
      format = "自动检测" /\ read_file app format filename = None).
Proof.
  intros format app' Hname Hread.
  assert (E : String.eqb filename "" = false) by now apply String.eqb_neq.
  unfold app', DataVisualizationApp.load_data_file. rewrite E. cbv zeta.
  assert (Er : forall fmt a b,
             DataVisualizationApp.read_file read_excel read_csv Json json_load json_is_list
               json_list frame_of_json (emit a (set_status b app)) fmt filename
             = read_file app fmt filename) by reflexivity.
  cbn [file_format emit set_status]. rewrite Er. fold format.
  split; [|split; [|split; [|split; [|split]]]].
  1-5: destruct (read_file app format filename) as [[e | data] |] eqn:R;
    try (now exfalso; apply (Hread data)); cbn; try reflexivity;
    try (rewrite <- app_assoc; now split).
  intros Hf H1 H2 H3 H4. unfold format, detect_format. rewrite Hf.
  replace (String.eqb "自动检测" "自动检测") with true by (symmetry; apply String.eqb_refl).
  rewrite H1, H2, H3, H4. cbn [orb]. split; reflexivity.
Qed.


(** What a load that reads a table does, step by step. *)
Lemma load_data_file_reads (filename : string) (app : App) (data : DataFrame) :
  filename <> "" ->
  read_file app (detect_format (file_format app) filename) filename = Some (inr data) ->
  load_data_file filename app
  = set_status ("数据加载成功: " ++ str_nat (len data) ++ " 行 × "
                  ++ str_nat (List.length (column_names data)) ++ " 列")
      (update_axis_options
         (update_data_preview to_string
            (set_file_path filename
               (set_current_data data
                  (emit root_update (set_status "正在加载数据..." app)))))).
Proof.
  intros Hname Hread.
  assert (E : String.eqb filename "" = false) by now apply String.eqb_neq.
  unfold DataVisualizationApp.load_data_file. rewrite E. cbv zeta.
  assert (Er : forall fmt a b,
             DataVisualizationApp.read_file read_excel read_csv Json json_load json_is_list
               json_list frame_of_json (emit a (set_status b app)) fmt filename
             = read_file app fmt filename) by reflexivity.
  cbn [file_format emit set_status]. now rewrite Er, Hread.
Qed.

(** X19.  A load that gives a table replaces the table, shows its path
    and its preview and offers its columns in the three boxes.  The x
    axis is set to the first column and the y axis to the second; with
    fewer columns the box keeps the selection it had, and the box of the
    groups always keeps its selection, whether the new table has such a
    column or not. *)
Theorem load_data_file_replaces_table (filename : string) (app : App) (data : DataFrame) :
  let app' := load_data_file filename app in
  filename <> "" ->
  read_file app (detect_format (file_format app) filename) filename = Some (inr data) ->
  current_data app' = Some data
  /\ file_path_var app' = filename
  /\ status_var app'
     = "数据加载成功: " ++ str_nat (len data) ++ " 行 × "
         ++ str_nat (List.length (df_columns data)) ++ " 列"
  /\ events app' = (events app ++ [root_update])%list
  /\ preview_text app'
     = "数据形状: (" ++ str_nat (len data) ++ ", "
         ++ str_nat (List.length (df_columns data)) ++ ")" ++ nl ++ nl
         ++ "列名: " ++ str_list (column_names data) ++ nl ++ nl
         ++ "前5行数据:" ++ nl ++ to_string (head data)
  /\ cb_values (x_axis app') = column_names data
  /\ cb_values (y_axis app') = column_names data
  /\ cb_values (group_by app') = "" :: column_names data
  /\ cb_get (x_axis app') = nth 0 (column_names data) (cb_get (x_axis app))
  /\ cb_get (y_axis app') = nth 1 (column_names data) (cb_get (y_axis app))
  /\ cb_get (group_by app') = cb_get (group_by app)
  /\ (analysis_text app', figure app', chart_type app', theme app', color_palette app')
     = (analysis_text app, figure app, chart_type app, theme app, color_palette app).
Proof.
  intros app' Hname Hread. unfold app'.
  rewrite (load_data_file_reads filename app data Hname Hread).
  unfold update_data_preview, update_axis_options.
  cbn [current_data set_current_data set_file_path set_preview_text].
  unfold column_names, str_shape, shape. rewrite length_map. cbn [fst snd].
  destruct (df_columns data) as [|s0 [|s1 cols]];
    cbn [map set_axes set_status status_var current_data file_path_var events preview_text
         x_axis y_axis group_by cb_values cb_get cb_set cb_configure analysis_text figure
         chart_type theme color_palette nth List.length set_preview_text set_file_path
         set_current_data emit];
    repeat split; now rewrite ?append_assoc.
Qed.


(** The group that [generate_chart] passes on: none for the empty
    selection. *)
Lemma group_of_selection (g : string) :
  (if truthy (Some g) then Some g else None) = (if String.eqb g "" then None else Some g).
Proof. now destruct g. Qed.


(** X21.  Loading and drawing compose.  After a load that has given a
    table with two columns or more, [generate_chart] asks [create_chart]
    for the chart of the kind chosen before the load, with the names of
    the first column for the x axis and of the second for the y axis as
    the selection boxes hold them (the text of the labels), with the
    group selected before the load (none for the empty
    selection, whether the new table has such a column or not) and the
    palette, on the cleared figure; the figure holds what [create_chart]
    has drawn, and the canvas is redrawn only if it has returned. *)
Theorem load_then_generate_chart
        (create_chart : DataFrame -> string -> option string -> option string
                        -> option string -> string -> Render unit)
        (filename : string) (app : App) (idx : Index)
        (x y : Series) (others : list Series) :
  let data := mkDataFrame idx (x :: y :: others) in
  let group_col :=
    if String.eqb (cb_get (group_by app)) "" then None else Some (cb_get (group_by app)) in
  let request :=
    create_chart data (chart_type app) (Some (s_name x)) (Some (s_name y)) group_col
      (color_palette app) [] in
  let app' := generate_chart_with create_chart (load_data_file filename app) in
  filename <> "" ->
  read_file app (detect_format (file_format app) filename) filename = Some (inr data) ->
  theme app = "default" \/ sns_set_style (theme app) = None ->
  current_data app' = Some data
  /\ figure app' = fst request
  /\ match snd request with
     | Return _ =>
         events app' = (events app ++ [root_update; root_update; canvas_draw])%list
         /\ status_var app' = "图表生成完成"
     | Raise e =>
         events app'
         = (events app
              ++ [root_update; root_update;
                  showerror "错误" ("生成图表失败: " ++ exc_str e)])%list
         /\ status_var app' = "图表生成失败"
     end.
Proof.
  intros data group_col request app' Hname Hread Htheme.
  pose proof (load_data_file_reads filename app data Hname Hread) as El.
  assert (Hd : current_data (load_data_file filename app) = Some data)
    by (rewrite El; reflexivity).
  assert (Hev : events (load_data_file filename app) = (events app ++ [root_update])%list)
    by (rewrite El; reflexivity).
  assert (Hx : cb_get (x_axis (load_data_file filename app)) = s_name x)
    by (rewrite El; reflexivity).
  assert (Hy : cb_get (y_axis (load_data_file filename app)) = s_name y)
    by (rewrite El; reflexivity).
  assert (Hg : cb_get (group_by (load_data_file filename app)) = cb_get (group_by app))
    by (rewrite El; reflexivity).
  assert (Hct : chart_type (load_data_file filename app) = chart_type app)
    by (rewrite El; reflexivity).
  assert (Hth : theme (load_data_file filename app) = theme app)
    by (rewrite El; reflexivity).
  assert (Hcp : color_palette (load_data_file filename app) = color_palette app)
    by (rewrite El; reflexivity).
  clear El.
  set (loaded := load_data_file filename app) in *.
  unfold app', DataVisualizationApp.generate_chart_with. rewrite Hd. cbv zeta.
  cbn [emit set_status set_figure theme chart_type x_axis y_axis group_by color_palette figure].
  rewrite Hth, Hct, Hcp, Hx, Hy, Hg, group_of_selection. fold group_col. fold request.
  assert (Hstyle : (if String.eqb (theme app) "default" then None
                    else sns_set_style (theme app)) = None).
  { destruct Htheme as [-> | Hs]; [reflexivity|].
    now destruct (String.eqb (theme app) "default"). }
  rewrite Hstyle.
  destruct request as [drawn [[] | e]]; unfold chart_failed;
    cbn [fst snd figure events status_var current_data set_status emit set_figure];
    rewrite Hev, <- !app_assoc; repeat split; exact Hd.
Qed.


(** X23.  The table is changed by the load alone: the callbacks of the
    charts, of the analysis, of the data operations and of the exports
    leave it as it is, and without a table each of them shows the one
    warning and does nothing else.  With a table, an analysis callback
    puts the report of the analyzer in place of the text of the
    analysis area. *)
Theorem callbacks_keep_table (app : App) (filename : string) :
  Forall (fun callback : App -> App =>
            current_data (callback app) = current_data app
            /\ (current_data app = None ->
                callback app = emit (showwarning "警告" "请先加载数据文件") app))
         [ generate_chart;
           show_data_overview memory_usage;
           show_descriptive_stats describe_to_string value_counts counts_to_string;
           analyze_correlations sqrt to_string;
           analyze_missing_values to_string;
           detect_outliers entry_tail;
           clean_data; transform_data; generate_report;
           export_chart filename; export_data filename ]
  /\ Forall (fun shown : (App -> App) * (DataFrame -> string) =>
               forall data, current_data app = Some data ->
                 fst shown app = set_analysis_text (snd shown data) app)
            [ (show_data_overview memory_usage, get_data_overview memory_usage);
              (show_descriptive_stats describe_to_string value_counts counts_to_string,
               get_descriptive_statistics describe_to_string value_counts counts_to_string);
              (analyze_correlations sqrt to_string,
               DataAnalyzer.analyze_correlations sqrt to_string);
              (analyze_missing_values to_string,
               DataAnalyzer.analyze_missing_values to_string);
              (detect_outliers entry_tail, DataAnalyzer.detect_outliers entry_tail) ].
Proof.
  split.
  - repeat constructor;
      unfold DataVisualizationApp.generate_chart,
        DataVisualizationApp.generate_chart_with, show_data_overview,
        show_descriptive_stats, analyze_correlations, analyze_missing_values,
        detect_outliers, clean_data, transform_data, generate_report, show_report, announce,
        DataVisualizationApp.export_chart, DataVisualizationApp.export_data,
        display_analysis_result, data_exported;
      try (intros ->; reflexivity);
      destruct (current_data app) as [data|] eqn:Hdata; try reflexivity;
      repeat match goal with
             | |- context [match ?x with _ => _ end] => destruct x
             end; cbn; try assumption; try reflexivity.
  - repeat constructor; intros data Hdata; cbn [fst snd];
      unfold show_data_overview, show_descriptive_stats, analyze_correlations,
        analyze_missing_values, detect_outliers, show_report, display_analysis_result;
      now rewrite Hdata.
Qed.

End ShellFacts.

(** ** The properties on the examples *)

Lemma get_data_overview_counts_witness :
  get_data_overview cells_memory_usage table_one_numeric
  = "=== 数据概览 ===" ++ nl ++ nl
    ++ "数据形状: (2, 2) (行数: 2, 列数: 2)" ++ nl ++ nl
    ++ "列信息:" ++ nl
    ++ "  a: float64 (非空值: 2, 空值: 0)" ++ nl
    ++ "  name: object (非空值: 1, 空值: 1)" ++ nl
    ++ nl ++ "内存使用: 0.00 MB" ++ nl.
Proof.
  refine (eq_trans (proj1 (get_data_overview_counts cells_memory_usage table_one_numeric _)) _).
  - apply well_formedb_spec. reflexivity.
  - vm_compute. reflexivity.
Defined.

Lemma get_descriptive_statistics_sections_witness :
  get_descriptive_statistics names_to_string simple_value_counts keys_to_string table_letters
  = "=== 描述性统计 ===" ++ nl ++ nl
    ++ "分类型变量统计:" ++ nl
    ++ nl ++ "letter:" ++ nl
    ++ "a" ++ nl ++ "b" ++ nl ++ "c" ++ nl ++ "d" ++ nl ++ "e" ++ nl ++ "f" ++ nl
    ++ "g" ++ nl ++ "h" ++ nl ++ "i" ++ nl ++ "j"
    ++ nl ++ "... 和其他 1 个类别" ++ nl.
Proof.
  refine (eq_trans (proj1 (get_descriptive_statistics_sections names_to_string
                             simple_value_counts keys_to_string table_letters _ _)) _).
  - apply well_formedb_spec. reflexivity.
  - vm_compute. lia.
  - vm_compute. reflexivity.
Defined.

Lemma analyze_missing_values_overall_percent_witness :
  exists before after,
    DataAnalyzer.analyze_missing_values names_to_string table_23_of_160
    = before ++ "缺失值比例: " ++ "14.37" ++ "%" ++ after.
Proof.
  destruct (analyze_missing_values_overall_percent names_to_string table_23_of_160)
    as [_ [q [Eq [_ [_ [before [after H]]]]]]].
  - apply well_formedb_spec. vm_compute. reflexivity.
  - vm_compute. lia.
  - discriminate.
  - vm_compute. discriminate.
  - exists before, after. rewrite H. do 2 f_equal.
    rewrite <- Eq. vm_compute. reflexivity.
Defined.

Lemma outlier_count_skips_missing_witness :
  len (select_rows (DataAnalyzer.outlier_mask (Float64 [Fin 1; NaN; Fin 3; NaN; Fin 2]))
                   (select_dtypes_number table_outliers))
  = count_true (DataAnalyzer.outlier_mask (Float64 [Fin 1; NaN; Fin 3; NaN; Fin 2])).
Proof.
  refine (proj1 (outlier_count_skips_missing table_outliers
                   (mkSeries "w" (Float64 [Fin 1; NaN; Fin 3; NaN; Fin 2])) _ _)).
  - apply well_formedb_spec. reflexivity.
  - simpl. tauto.
Defined.


Lemma all_missing_column_range_witness :
  Float.format_f 3 (DataAnalyzer.lower_bound (Float64 [NaN; NaN])) = "nan".
Proof.
  refine (proj1 (all_missing_column_range (Float64 [NaN; NaN]) _)).
  repeat constructor.
Defined.

Lemma constant_column_never_strong_witness :
  iloc (corr Qsqrt (select_dtypes_number table_constant_column)) 0 1 = NaN.
Proof.
  refine (proj1 (proj1 (constant_column_never_strong Qsqrt Qsqrt_zero
                          table_constant_column 0 _ _ _) 1%nat)).
  - apply well_formedb_spec. reflexivity.
  - vm_compute. lia.
  - reflexivity.
Defined.

Lemma create_chart_failure_witness :
  VisualizationEngine.create_chart Qsqrt simple_pivot_table simple_value_counts
    simple_color_palette no_ticklabels table_xy "pie" (Some "z") (Some "y") None
    "viridis" []
  = ([], Raise (Exception "创建图表失败: 'z'")).
Proof.
  exact (proj1 (proj2 (create_chart_failure Qsqrt simple_pivot_table simple_value_counts
                         simple_color_palette no_ticklabels table_xy "pie" (Some "z")
                         (Some "y") None "viridis" [] [] (KeyError (Some "z")) eq_refl))).
Defined.

Lemma create_chart_success_witness :
  In "bar" ["line"; "bar"; "scatter"; "pie"; "area"; "box"; "heatmap"; "distplot";
            "violin"; "pairplot"].
Proof.
  refine (proj1 (create_chart_success Qsqrt simple_pivot_table simple_value_counts
                   simple_color_palette no_ticklabels table_xy "bar" (Some "x") (Some "y")
                   None "viridis" []
                   [ ax_bar (mkSeries "x" (Int64 [1; 2; 3]%Z))
                            (mkSeries "y" (Int64 [10; 20; 30]%Z))
                            (map (color_of "viridis") (seq 0 6));
                     ax_set_xlabel "x" 12; ax_set_ylabel "y" (Some 12%Z);
                     ax_set_title "柱状图" 14 "bold"; ax_grid true (3 # 10);
                     ax_tick_params "both" "major" 10 ] _)).
  reflexivity.
Defined.

Lemma grouped_line_chart_series_witness :
  VisualizationEngine.create_chart Qsqrt simple_pivot_table simple_value_counts
    simple_color_palette no_ticklabels table_xyg "line" (Some "x") (Some "y") (Some "g")
    "rainbows" []
  = ([ ax_plot (mkSeries "x" (Int64 [1; 2; 2]%Z))
               (mkSeries "y" (Float64 [Fin 10; Fin 30; Fin 50]))
               (Some "o") (Some (LStr "a")) (Some 2%Z) None;
       ax_plot (mkSeries "x" (Int64 [1]%Z)) (mkSeries "y" (Float64 [Fin 20]))
               (Some "o") (Some (LStr "b")) (Some 2%Z) None;
       ax_legend None;
       ax_set_xlabel "x" 12; ax_set_ylabel "y" (Some 12%Z);
       ax_set_title "折线图" 14 "bold"; ax_grid true (3 # 10);
       ax_tick_params "both" "major" 10 ],
     Return tt).
Proof.
  refine (eq_trans (grouped_line_chart_series Qsqrt simple_pivot_table simple_value_counts
                      simple_color_palette no_ticklabels table_xyg (Some "x") (Some "y")
                      "g" "rainbows" _ _ _ [] _ eq_refl eq_refl eq_refl) _).
  - discriminate.
  - reflexivity.
Defined.

Lemma grouped_scatter_chart_series_witness :
  VisualizationEngine.create_chart Qsqrt simple_pivot_table simple_value_counts
    simple_color_palette no_ticklabels table_xyg "scatter" (Some "x") (Some "y") (Some "g")
    "viridis" []
  = ([ ax_scatter (mkSeries "x" (Int64 [1; 2; 2]%Z))
                  (mkSeries "y" (Float64 [Fin 10; Fin 30; Fin 50]))
                  (Some (LStr "a")) (color_of "viridis" 0) (7 # 10);
       ax_scatter (mkSeries "x" (Int64 [1]%Z)) (mkSeries "y" (Float64 [Fin 20]))
                  (Some (LStr "b")) (color_of "viridis" 1) (7 # 10);
       ax_legend None;
       ax_set_xlabel "x" 12; ax_set_ylabel "y" (Some 12%Z);
       ax_set_title "散点图" 14 "bold"; ax_grid true (3 # 10);
       ax_tick_params "both" "major" 10 ],
     Return tt).
Proof.
  refine (eq_trans (proj1 (grouped_scatter_chart_series Qsqrt simple_pivot_table
                             simple_value_counts simple_color_palette no_ticklabels
                             table_xyg (Some "x") (Some "y") "g" "viridis" _ _ _ _ [] _
                             eq_refl eq_refl eq_refl eq_refl)) _).
  - discriminate.
  - reflexivity.
Defined.

Lemma pie_chart_ylabel_witness :
  exists turned,
    VisualizationEngine.create_chart Qsqrt simple_pivot_table simple_value_counts
      simple_color_palette no_ticklabels table_xyg "pie" (Some "g") (Some "y") None
      "viridis" []
    = ([ ax_pie [3; 1]%nat [LStr "a"; LStr "b"] "%1.1f%%"
                [color_of "viridis" 0; color_of "viridis" 1];
         ax_set_ylabel "" None;
         ax_set_xlabel "g" 12; ax_set_ylabel "y" (Some 12%Z);
         ax_set_title "饼图" 14 "bold"; ax_grid true (3 # 10);
         ax_tick_params "both" "major" 10 ] ++ turned, Return tt)%list.
Proof.
  exact (pie_chart_ylabel Qsqrt simple_pivot_table simple_value_counts
           simple_color_palette no_ticklabels table_xyg (Some "g") (Some "y") None
           "viridis" _ _ [] eq_refl eq_refl).
Defined.

Lemma heatmap_pairplot_columns_witness :
  (0 < len table_xy)%nat
  /\ (2 <= List.length (numeric_columns table_xy))%nat
  /\ exists c rest turned,
       simple_color_palette "viridis" None = inr (c :: rest)
       /\ [ sns_scatterplot table_xy "x" "y" None None (Some (color_of "viridis" 0));
            ax_set_xlabel "y" 12; ax_set_ylabel "x" (Some 12%Z);
            ax_set_title "散点图" 14 "bold"; ax_grid true (3 # 10);
            ax_tick_params "both" "major" 10 ]
          = ([] ++ [sns_scatterplot table_xy (column_name (numeric_columns table_xy) 0)
                                    (column_name (numeric_columns table_xy) 1)
                                    None None (Some c)]
                ++ label_calls "pairplot" (Some "y") (Some "x") ++ turned)%list.
Proof.
  exact (proj2 (heatmap_pairplot_columns Qsqrt simple_pivot_table simple_value_counts
                  simple_color_palette no_ticklabels table_xy (Some "y") (Some "x") None
                  "viridis" []
                  [ sns_scatterplot table_xy "x" "y" None None
                                    (Some (color_of "viridis" 0));
                    ax_set_xlabel "y" 12; ax_set_ylabel "x" (Some 12%Z);
                    ax_set_title "散点图" 14 "bold"; ax_grid true (3 # 10);
                    ax_tick_params "both" "major" 10 ])
               eq_refl eq_refl).
Defined.

Lemma single_column_chart_witness :
  VisualizationEngine.create_chart Qsqrt simple_pivot_table simple_value_counts
    simple_color_palette no_ticklabels table_xy "violin" (Some "") (Some "y") None
    "viridis" []
  = ([ sns_violinplot (mkSeries "y" (Int64 [10; 20; 30]%Z)) (color_of "viridis" 0);
       ax_set_ylabel "y" (Some 12%Z);
       ax_set_title "小提琴图" 14 "bold"; ax_grid true (3 # 10);
       ax_tick_params "both" "major" 10 ],
     Return tt).
Proof.
  refine (eq_trans (proj1 (single_column_chart Qsqrt simple_pivot_table simple_value_counts
                             simple_color_palette no_ticklabels table_xy "violin"
                             (Some "") (Some "y") None "viridis" [] _ _)
                          _ _ _ eq_refl eq_refl) _).
  - right. reflexivity.
  - reflexivity.
  - reflexivity.
Defined.

Lemma load_data_file_without_table_witness :
  DataVisualizationApp.status_var
    (DataVisualizationApp.load_data_file names_to_string one_read_excel one_read_csv
       unit one_json_load (fun _ => true) (fun _ => tt) one_frame_of_json
       "xy.CSV" DataVisualizationApp.initial)
  = "正在加载数据...".
Proof.
  refine (proj2 (proj1 (proj2 (proj2 (proj2 (proj2
            (load_data_file_without_table names_to_string one_read_excel one_read_csv
               unit one_json_load (fun _ => true) (fun _ => tt) one_frame_of_json
               "xy.CSV" DataVisualizationApp.initial _ _))))))).
  - discriminate.
  - intros data. discriminate.
Defined.

Lemma load_data_file_replaces_table_witness :
  DataVisualizationApp.current_data app_xy = Some table_xy.
Proof.
  refine (proj1 (load_data_file_replaces_table names_to_string one_read_excel one_read_csv
                   unit one_json_load (fun _ => true) (fun _ => tt) one_frame_of_json
                   "xy.csv" DataVisualizationApp.initial table_xy _ _)).
  - discriminate.
  - reflexivity.
Defined.


Lemma load_then_generate_chart_witness :
  DataVisualizationApp.figure
    (DataVisualizationApp.generate_chart Qsqrt simple_value_counts simple_pivot_table
       simple_color_palette no_ticklabels any_style app_xy)
  = [ ax_plot (mkSeries "x" (Int64 [1; 2; 3]%Z)) (mkSeries "y" (Int64 [10; 20; 30]%Z))
              (Some "o") None (Some 2%Z) (Some (color_of "viridis" 0));
      ax_set_xlabel "x" 12; ax_set_ylabel "y" (Some 12%Z);
      ax_set_title "折线图" 14 "bold"; ax_grid true (3 # 10);
      ax_tick_params "both" "major" 10 ].
Proof.
  refine (eq_trans
            (proj1 (proj2
               (load_then_generate_chart names_to_string one_read_excel one_read_csv
                  unit one_json_load (fun _ => true) (fun _ => tt) one_frame_of_json
                  any_style
                  (VisualizationEngine.create_chart Qsqrt simple_pivot_table
                     simple_value_counts simple_color_palette no_ticklabels)
                  "xy.csv" DataVisualizationApp.initial
                  (RangeIndex 3) (mkSeries "x" (Int64 [1; 2; 3]%Z))
                  (mkSeries "y" (Int64 [10; 20; 30]%Z)) [] _ _ _))) _).
  - discriminate.
  - reflexivity.
  - left. reflexivity.
  - reflexivity.
Defined.

